(** * to_wps_interm: CMIP6 fields to WPS intermediate files

    A shallow embedding of [to_wps_interm.py].  The program slices a gridded
    dataset into 2-D latitude/longitude fields and appends each of them, as
    five Fortran unformatted records, to the output file of its valid hour.

    Conventions of the embedding.
    - A Python [str] is a [string]; every [ascii] is one character and a
      character is plain ASCII when its code is below 128.
    - [bytes] is [list byte].
    - A Python [int] is a [Z].
    - A Python [float] is a [spec_float] value of the binary64 format, and
      so are the elements of the variables and coordinates of a dataset,
      which are taken to be [float64] arrays; a [float32] value is a
      [spec_float] value of the binary32 format.
    - [numpy], [pandas] and [xarray] are not part of the program: what the
      program calls of them is modelled from their documented behaviour, on
      time stamps of nanosecond resolution and on increasing time axes.
    - A raised exception is an [exn]; a computation that writes to files is a
      function of the [world] that returns its result (or the exception) and
      the world it leaves behind, so that everything written before an
      exception is still there afterwards. *)

From Stdlib Require Import ZArith List String Ascii Strings.Byte Bool Lia.
From Stdlib Require Import Floats.SpecFloat.
From stdpp Require Import gmap strings.
Import ListNotations.

Local Open Scope Z_scope.

(** ** Exceptions and results *)

Inductive exn : Type :=
| StructError                 (* struct.error *)
| OverflowError
| UnicodeEncodeError
| AttributeError (name : string)
| IndexError
| KeyError
| TypeError
| ZeroDivisionError
| ValueError (msg : string).

Inductive result (A : Type) : Type :=
| Ok (a : A)
| Raise (e : exn).
Arguments Ok {A} a.
Arguments Raise {A} e.

Definition rbind {A B} (r : result A) (k : A -> result B) : result B :=
  match r with
  | Ok a => k a
  | Raise e => Raise e
  end.

#[global] Instance result_ret : MRet result := @Ok.
#[global] Instance result_bind : MBind result := fun A B k r => rbind r k.

(** ** Bytes and integers: [struct.pack(">i", n)] *)

Definition byte_of_Z (z : Z) : byte :=
  match Byte.of_N (Z.to_N (z mod 256)) with
  | Some b => b
  | None => x00
  end.

Definition Z_of_byte (b : byte) : Z := Z.of_N (Byte.to_N b).

(** The four bytes of a 32-bit word, most significant first. *)
Definition be32 (w : Z) : list byte :=
  [ byte_of_Z (Z.shiftr w 24); byte_of_Z (Z.shiftr w 16);
    byte_of_Z (Z.shiftr w 8); byte_of_Z w ].

(** Reading a big-endian unsigned integer back. *)
Definition be_decode (bs : list byte) : Z :=
  fold_left (fun acc b => acc * 256 + Z_of_byte b) bs 0.

(** [struct.pack(">i", n)]: a signed 32-bit integer in two's complement;
    [struct.error] outside of [-2^31, 2^31). *)
Definition pack_i (n : Z) : result (list byte) :=
  if (- 2 ^ 31 <=? n) && (n <? 2 ^ 31)
  then Ok (be32 (n mod 2 ^ 32))
  else Raise StructError.

(** [struct.pack("Ns", b)]: [b] cut or padded with NUL bytes to [n] bytes. *)
Definition pack_s (n : nat) (b : list byte) : list byte :=
  firstn n b ++ repeat x00 (n - length b)%nat.

(** ** Floats: [struct.pack(">f", x)] and [astype(">f4")] *)

Definition float := spec_float.

Definition f64_mul : float -> float -> float := SFmul 53 1024.
Definition f64_sub : float -> float -> float := SFsub 53 1024.
Definition f64_div : float -> float -> float := SFdiv 53 1024.
Definition f64_add : float -> float -> float := SFadd 53 1024.

(** The float of a Python [int] (exact below 2^53). *)
Definition f64_of_Z (z : Z) : float := binary_normalize 53 1024 z 0 false.

(** Conversion from binary64 to binary32, rounding to nearest even. *)
Definition to_f32 (x : float) : float :=
  match x with
  | S754_finite s m e => binary_round 24 128 s m e
  | _ => x
  end.

(** The IEEE-754 binary32 bit pattern of a binary32 value. *)
Definition f32_bits (x : float) : Z :=
  match x with
  | S754_zero s => if s then 2 ^ 31 else 0
  | S754_infinity s => (if s then 2 ^ 31 else 0) + 255 * 2 ^ 23
  | S754_nan => 255 * 2 ^ 23 + 2 ^ 22
  | S754_finite s m e =>
      (if s then 2 ^ 31 else 0) +
      (if 2 ^ 23 <=? Z.pos m
       then (e + 150) * 2 ^ 23 + (Z.pos m - 2 ^ 23)
       else Z.pos m)
  end.

(** One element of a [">f4"] array. *)
Definition f32_bytes (x : float) : list byte := be32 (f32_bits x).

Definition is_finite (x : float) : bool :=
  match x with
  | S754_zero _ | S754_finite _ _ _ => true
  | _ => false
  end.

Definition is_nan (x : float) : bool :=
  match x with
  | S754_nan => true
  | _ => false
  end.

(** A finite double whose binary32 rounding is infinite does not fit. *)
Definition fits_f32 (x : float) : bool :=
  match x, to_f32 x with
  | S754_finite _ _ _, S754_infinity _ => false
  | _, _ => true
  end.

(** [struct.pack(">f", x)]: [OverflowError] when a finite [x] is too large. *)
Definition pack_f (x : float) : result (list byte) :=
  if fits_f32 x then Ok (f32_bytes (to_f32 x)) else Raise OverflowError.

(** ** Text fields *)

Definition is_ascii (c : ascii) : bool := (nat_of_ascii c <? 128)%nat.

Definition chars (s : string) : list ascii := list_ascii_of_string s.

(** [s.encode("ascii")] *)
Definition encode_ascii (s : list ascii) : result (list byte) :=
  if forallb is_ascii s
  then Ok (map byte_of_ascii s)
  else Raise UnicodeEncodeError.

(** [s.ljust(width)]: [s] itself when [width <= len(s)]. *)
Definition ljust (s : list ascii) (width : Z) : list ascii :=
  s ++ repeat " "%char (Z.to_nat (width - Z.of_nat (length s))).

(** [s[:stop]]: a negative [stop] counts from the end. *)
Definition slice_to (s : list ascii) (stop : Z) : list ascii :=
  if 0 <=? stop
  then firstn (Z.to_nat stop) s
  else firstn (Z.to_nat (Z.of_nat (length s) + stop)) s.

Definition pad (s : string) (length : Z) : result (list byte) :=
  encode_ascii (slice_to (ljust (chars s) length) length).

(** ** The world: the file inventory and the files it has opened *)

(** [inventory] holds the keys of [FileInventory._files]; a file handle is
    the name it was opened under.  [fs] holds what each file contains.
    Opening and writing are taken to succeed. *)
Record world : Type := World {
  inventory : gset string;
  fs : gmap string (list byte)
}.

Definition IO (A : Type) : Type := world -> result A * world.

#[global] Instance IO_ret : MRet IO := fun A a w => (Ok a, w).
#[global] Instance IO_bind : MBind IO := fun A B k m w =>
  match m w with
  | (Ok a, w') => k a w'
  | (Raise e, w') => (Raise e, w')
  end.

Definition raise {A} (e : exn) : IO A := fun w => (Raise e, w).

(** An exception of a pure computation is raised where it happens. *)
Definition lift {A} (r : result A) : IO A := fun w => (r, w).

Fixpoint forM_ {A} (body : A -> IO unit) (l : list A) : IO unit :=
  match l with
  | [] => mret tt
  | x :: l' => body x ≫= fun _ => forM_ body l'
  end.

Fixpoint foldM {A S} (body : S -> A -> IO S) (s : S) (l : list A) : IO S :=
  match l with
  | [] => mret s
  | x :: l' => body s x ≫= fun s' => foldM body s' l'
  end.

Module FileInventory.

(** [open(filename, "wb")] creates the file or empties it. *)
Definition get (filename : string) : IO string := fun w =>
  if decide (filename ∈ inventory w)
  then (Ok filename, w)
  else (Ok filename,
        World ({[ filename ]} ∪ inventory w) (<[ filename := [] ]> (fs w))).

Definition close_all : IO unit := fun w => (Ok tt, World ∅ (fs w)).

End FileInventory.

(** The world after [b] is appended to the file [fp]. *)
Definition append_file (fp : string) (b : list byte) (w : world) : world :=
  World (inventory w) (<[ fp := default [] (fs w !! fp) ++ b ]> (fs w)).

(** [fp.write(b)] appends to the file behind the handle. *)
Definition fp_write (fp : string) (b : list byte) : IO unit := fun w =>
  (Ok tt, append_file fp b w).

(** ** Record framing *)

(** A two-dimensional array of [float32]: [items] lists, for every index of
    the first axis, the values along the second. *)
Record ndarray : Type := NdArray {
  shape0 : nat;
  shape1 : nat;
  items : list (list float)
}.

Definition item (a : ndarray) (i0 i1 : nat) : float :=
  nth i1 (nth i0 (items a) []) S754_nan.

(** What [write_fortran_record] is given: [bytes] made by [struct.pack], or
    the slab array. *)
Inductive payload : Type :=
| PBytes (b : list byte)
| PArray (a : ndarray).

(** [np.array(data).nbytes].  A [bytes] object becomes a zero-dimensional
    array of a byte-string type as long as the object, and one byte long when
    the object is empty. *)
Definition nbytes (data : payload) : Z :=
  match data with
  | PBytes b => Z.max 1 (Z.of_nat (length b))
  | PArray a => 4 * Z.of_nat (shape0 a) * Z.of_nat (shape1 a)
  end.

(** [data.tobytes(order="F")]: the first index varies fastest. *)
Definition tobytes_F (data : payload) : list byte :=
  match data with
  | PBytes b => match b with [] => [x00] | _ => b end
  | PArray a =>
      flat_map (fun i1 =>
        flat_map (fun i0 => f32_bytes (item a i0 i1)) (seq 0 (shape0 a)))
        (seq 0 (shape1 a))
  end.

(** [np.array(data)].  The byte-string type of the array made from a [bytes]
    object holds its length in a signed 32-bit integer: an object of 2^31
    bytes or more is refused with TypeError. *)
Definition np_array (data : payload) : result payload :=
  match data with
  | PBytes b =>
      if Z.of_nat (length b) <? 2 ^ 31 then Ok data else Raise TypeError
  | PArray _ => Ok data
  end.

Definition write_fortran_record (fp : string) (data : payload) : IO unit :=
  data ← lift (np_array data);
  let nbytes := nbytes data in
  head ← lift (pack_i nbytes);
  fp_write fp head;;
  fp_write fp (tobytes_F data);;
  tail ← lift (pack_i nbytes);
  fp_write fp tail.

(** ** Time stamps *)

(** A [pd.Timestamp] is its count of nanoseconds since 1970-01-01T00:00, a
    [pd.Timedelta] a count of nanoseconds. *)
Definition Timestamp := Z.

Definition ns_per_hour : Z := 3600 * 10 ^ 9.
Definition ns_per_day : Z := 24 * ns_per_hour.

(** Year, month and day of a day number counted from 1970-01-01 in the
    proleptic Gregorian calendar. *)
Definition civil_from_days (days : Z) : Z * Z * Z :=
  let z := days + 719468 in
  let era := z / 146097 in
  let doe := z - era * 146097 in
  let yoe := (doe - doe / 1460 + doe / 36524 - doe / 146096) / 365 in
  let doy := doe - (365 * yoe + yoe / 4 - yoe / 100) in
  let mp := (5 * doy + 2) / 153 in
  let d := doy - (153 * mp + 2) / 5 + 1 in
  let m := if mp <? 10 then mp + 3 else mp - 9 in
  let y := yoe + era * 400 + (if m <=? 2 then 1 else 0) in
  (y, m, d).

Definition digit (z : Z) : ascii := ascii_of_N (Z.to_N (48 + z mod 10)).

Definition digits2 (z : Z) : string :=
  String (digit (z / 10)) (String (digit z) "").

Definition digits4 (z : Z) : string :=
  String (digit (z / 1000)) (String (digit (z / 100)) (digits2 z)).

(** [time.strftime("%Y-%m-%d_%H")]; the years of a nanosecond time stamp
    (1677 to 2262) have four digits. *)
Definition strftime_hour (time : Timestamp) : string :=
  let '(y, m, d) := civil_from_days (time / ns_per_day) in
  let h := (time mod ns_per_day) / ns_per_hour in
  digits4 y +:+ "-" +:+ digits2 m +:+ "-" +:+ digits2 d +:+ "_" +:+ digits2 h.

(** [np.arange(b, e, stride)] on integers. *)
Definition arange (b e stride : Z) : list Z :=
  map (fun k => b + Z.of_nat k * stride)
      (seq 0 (Z.to_nat (- ((b - e) / stride)))).

(** [pd.date_range(start, end, freq=interval)]: the stamps from [start] on,
    [interval] apart, up to [end] included.  The end of the range is found by
    a division by the interval. *)
Definition date_range (start end_ interval : Z) : result (list Timestamp) :=
  if interval =? 0 then Raise ZeroDivisionError
  else
    let e := start + (end_ - start) / interval * interval + interval / 2 + 1 in
    Ok (arange start e interval).

(** ** Data arrays *)

(** A coordinate of a data array: absent, a scalar left behind by [isel], or
    the coordinate of a dimension. *)
Inductive coord (A : Type) : Type :=
| NoCoord
| ScalarCoord (a : A)
| DimCoord (l : list A).
Arguments NoCoord {A}.
Arguments ScalarCoord {A} a.
Arguments DimCoord {A} l.

Definition is_dim {A} (c : coord A) : bool :=
  match c with
  | DimCoord _ => true
  | _ => false
  end.

(** A latitude/longitude field: one row per latitude, one entry per
    longitude. *)
Definition grid := list (list float).

Definition cell (g : grid) (i_lat i_lon : nat) : float :=
  nth i_lon (nth i_lat g []) S754_nan.

(** An [xr.DataArray] with dimensions among time, plev, lat and lon.
    [da_values] is indexed by time, then by level; an axis that is not a
    dimension of the array has the single index 0. *)
Record DataArray : Type := {
  da_time : coord Timestamp;
  da_plev : coord float;
  da_lat : list float;
  da_lon : list float;
  da_values : list (list grid);
  da_attrs : gmap string string
}.

Definition with_values (data : DataArray) (v : list (list grid)) : DataArray :=
  {| da_time := da_time data; da_plev := da_plev data;
     da_lat := da_lat data; da_lon := da_lon data;
     da_values := v; da_attrs := da_attrs data |}.

(** [data * scale] under [keep_attrs=True]. *)
Definition da_mul (data : DataArray) (scale : float) : DataArray :=
  with_values data
    (map (map (map (map (fun x => f64_mul x scale)))) (da_values data)).

(** [data.attrs[key] = value] *)
Definition set_attr (data : DataArray) (key value : string) : DataArray :=
  {| da_time := da_time data; da_plev := da_plev data;
     da_lat := da_lat data; da_lon := da_lon data;
     da_values := da_values data;
     da_attrs := <[ key := value ]> (da_attrs data) |}.

(** [data.attrs[key]] *)
Definition attrs_getitem (data : DataArray) (key : string) : result string :=
  match da_attrs data !! key with
  | Some v => Ok v
  | None => Raise KeyError
  end.

(** [data.units], [data.standard_name]: an attribute read as a field. *)
Definition getattr (data : DataArray) (name : string) : result string :=
  match da_attrs data !! name with
  | Some v => Ok v
  | None => Raise (AttributeError name)
  end.

(** [c[i]] on a coordinate of floats. *)
Definition getitem (c : list float) (i : nat) : result float :=
  match nth_error c i with
  | Some x => Ok x
  | None => Raise IndexError
  end.

(** [data.isel(time=i)] *)
Definition isel_time (i : nat) (data : DataArray) : result DataArray :=
  match da_time data with
  | DimCoord ts =>
      match nth_error ts i, nth_error (da_values data) i with
      | Some t, Some v =>
          Ok {| da_time := ScalarCoord t; da_plev := da_plev data;
                da_lat := da_lat data; da_lon := da_lon data;
                da_values := [v]; da_attrs := da_attrs data |}
      | _, _ => Raise IndexError
      end
  | _ => Raise (ValueError "time is not a dimension")
  end.

(** [data.isel(plev=j)] *)
Definition isel_plev (j : nat) (data : DataArray) : result DataArray :=
  match da_plev data with
  | DimCoord ps =>
      p ← match nth_error ps j with
          | Some p => Ok p
          | None => Raise IndexError
          end;
      v ← mapM (fun levels =>
                  match nth_error levels j with
                  | Some g => Ok [g]
                  | None => Raise IndexError
                  end) (da_values data);
      Ok {| da_time := da_time data; da_plev := ScalarCoord p;
            da_lat := da_lat data; da_lon := da_lon data;
            da_values := v; da_attrs := da_attrs data |}
  | _ => Raise (ValueError "plev is not a dimension")
  end.

(** [data.isel(time=i, plev=j)] *)
Definition isel_time_plev (i j : nat) (data : DataArray) : result DataArray :=
  isel_time i data ≫= isel_plev j.

(** ** Filling missing values: [interpolate_na] *)

(** The library routine, as this program calls it: linear, along one
    dimension, with extrapolation, attributes kept.  The coordinate must
    increase strictly; a line without missing values, or with nothing else,
    is left as it is. *)

Inductive axis : Type := Lat | Lon.

Fixpoint strictly_increasing (x : list float) : bool :=
  match x with
  | a :: (b :: _) as x' => SFltb a b && strictly_increasing x'
  | _ => true
  end.

Definition transpose (n : nat) (rows : list (list float)) : list (list float) :=
  map (fun i => map (fun r => nth i r S754_nan) rows) (seq 0 n).

(** [np.searchsorted(xs, x)] on increasing [xs]. *)
Definition searchsorted (xs : list float) (x : float) : Z :=
  Z.of_nat (length (List.filter (fun v => SFltb v x) xs)).

(** Linear interpolation through the known points, extended beyond them. *)
Definition interp1d (pts : list (float * float)) (x_new : float) : float :=
  let n := Z.of_nat (length pts) in
  let hi := Z.min (Z.max (searchsorted (map fst pts) x_new) 1) (n - 1) in
  let lo := (hi - 1) mod n in
  let '(x_lo, y_lo) := nth (Z.to_nat lo) pts (S754_nan, S754_nan) in
  let '(x_hi, y_hi) := nth (Z.to_nat hi) pts (S754_nan, S754_nan) in
  let slope := f64_div (f64_sub y_hi y_lo) (f64_sub x_hi x_lo) in
  f64_add (f64_mul slope (f64_sub x_new x_lo)) y_lo.

Definition func_interpolate_na (x y : list float) : list float :=
  let n_nans := length (List.filter is_nan y) in
  if (n_nans =? 0)%nat || (n_nans =? length y)%nat then y
  else
    let pts := List.filter (fun p => negb (is_nan (snd p))) (combine x y) in
    map (fun p => if is_nan (snd p) then interp1d pts (fst p) else snd p)
        (combine x y).

Definition fill_grid (dim : axis) (data : DataArray) (g : grid) : grid :=
  match dim with
  | Lon => map (func_interpolate_na (da_lon data)) g
  | Lat =>
      transpose (length (da_lat data))
        (map (func_interpolate_na (da_lat data))
           (transpose (length (da_lon data)) g))
  end.

Definition interpolate_na (dim : axis) (data : DataArray) : result DataArray :=
  let index := match dim with Lat => da_lat data | Lon => da_lon data end in
  if strictly_increasing index
  then Ok (with_values data (map (map (fill_grid dim data)) (da_values data)))
  else Raise (ValueError "index must be monotonically increasing").

(** ** One field: [to_wps_interm] *)

(** The vertical level handed to [struct.pack]: the [int] of the surface, the
    scalar of a selected level, or the whole coordinate when the level is
    still a dimension. *)
Inductive level : Type :=
| IntLevel (n : Z)
| FloatLevel (x : float)
| ArrayLevel (l : list float).

(** What [struct.pack(">f", ...)] makes of a level: a number converts to a
    float, and so does an array of one element; any other array is refused
    with [struct.error]. *)
Definition level_float (plev : level) : result float :=
  match plev with
  | IntLevel n => Ok (f64_of_Z n)
  | FloatLevel x => Ok x
  | ArrayLevel [x] => Ok x
  | ArrayLevel _ => Raise StructError
  end.

(** [pd.Timestamp(data.time.values)] *)
Definition timestamp_of (data : DataArray) : result Timestamp :=
  match da_time data with
  | ScalarCoord t => Ok t
  | NoCoord => Raise (AttributeError "time")
  | DimCoord _ => Raise TypeError
  end.

(** Lines 63 and 64: the valid time is the argument, or else the time of the
    slice. *)
Definition valid_time (time : option Timestamp) (data : DataArray)
    : result Timestamp :=
  match time with
  | None => timestamp_of data
  | Some t => Ok t
  end.

(** Lines 66 to 69.  [hasattr(data, "plev")] is answered by a coordinate of
    that name or, when there is none, by an attribute of that name.  The
    level is [data.plev.values]: the values of the coordinate, whereas the
    text of an attribute has no [values] and the read raises AttributeError.
    With neither, the level is the surface. *)
Definition level_of (data : DataArray) : result level :=
  match da_plev data with
  | ScalarCoord p => Ok (FloatLevel p)
  | DimCoord l => Ok (ArrayLevel l)
  | NoCoord =>
      match da_attrs data !! "plev" with
      | Some _ => Raise (AttributeError "values")
      | None => Ok (IntLevel 200100)
      end
  end.

(** The level can be read: it is a coordinate, or nothing is named plev. *)
Definition level_readable (data : DataArray) : bool :=
  match da_plev data with
  | NoCoord => bool_decide (da_attrs data !! "plev" = None)
  | _ => true
  end.

(** [time.strftime("%Y-%m-%d_%H:00:00")] *)
Definition strftime_hdate (time : Timestamp) : string :=
  strftime_hour time +:+ ":00:00".

(** 0.0 and 6367470e-3 as doubles. *)
Definition f64_zero : float := S754_zero false.
Definition earth_radius : float := S754_finite false 7001107304514847 (-40).

(** The payload of the second record:
    [struct.pack(">24sf32s9s25s46sfiii", ...)]. *)
Definition header (data : DataArray) (var_name : string) (time : Timestamp)
    (plev : level) : result (list byte) :=
  hdate ← pad (strftime_hdate time) 24;
  map_source ← pad "CMIP6" 32;
  field ← pad var_name 9;
  units ← getattr data "units" ≫= fun s => pad s 25;
  desc ← getattr data "standard_name" ≫= fun s => pad s 46;
  xfcst ← pack_f f64_zero;
  xlvl ← level_float plev ≫= pack_f;
  nx ← pack_i (Z.of_nat (length (da_lon data)));
  ny ← pack_i (Z.of_nat (length (da_lat data)));
  iproj ← pack_i 0;
  Ok (pack_s 24 hdate ++ xfcst ++ pack_s 32 map_source ++ pack_s 9 field ++
      pack_s 25 units ++ pack_s 46 desc ++ xlvl ++ nx ++ ny ++ iproj).

(** The payload of the third record: [struct.pack(">8s5f", ...)]. *)
Definition geometry (data : DataArray) : result (list byte) :=
  startloc ← pad "SWCORNER" 8;
  startlat ← getitem (da_lat data) 0;
  startlon ← getitem (da_lon data) 0;
  deltalat ← (lat1 ← getitem (da_lat data) 1;
              lat0 ← getitem (da_lat data) 0;
              Ok (f64_sub lat1 lat0));
  deltalon ← (lon1 ← getitem (da_lon data) 1;
              lon0 ← getitem (da_lon data) 0;
              Ok (f64_sub lon1 lon0));
  b_startlat ← pack_f startlat;
  b_startlon ← pack_f startlon;
  b_deltalat ← pack_f deltalat;
  b_deltalon ← pack_f deltalon;
  b_radius ← pack_f earth_radius;
  Ok (pack_s 8 startloc ++ b_startlat ++ b_startlon ++ b_deltalat ++
      b_deltalon ++ b_radius).

(** [data.transpose("lon", "lat").values.astype(">f4")]: the two names must
    be all the dimensions of the array. *)
Definition slab (data : DataArray) : result ndarray :=
  if is_dim (da_time data) || is_dim (da_plev data)
  then Raise (ValueError "transpose: not a permutation of the dimensions")
  else
    let nx := length (da_lon data) in
    let ny := length (da_lat data) in
    let values := nth 0 (nth 0 (da_values data) []) [] in
    Ok (NdArray nx ny (map (map to_f32) (transpose nx values))).

Definition to_wps_interm (data : DataArray) (var_name prefix : string)
    (time : option Timestamp) : IO unit :=
  time ← lift (valid_time time data);
  plev ← lift (level_of data);
  let filename := prefix +:+ ":" +:+ strftime_hour time in
  fp ← FileInventory.get filename;
  data ← lift (interpolate_na Lat data);
  data ← lift (interpolate_na Lon data);
  ifv ← lift (pack_i 5);
  write_fortran_record fp (PBytes ifv);;
  hdr ← lift (header data var_name time plev);
  write_fortran_record fp (PBytes hdr);;
  geo ← lift (geometry data);
  write_fortran_record fp (PBytes geo);;
  flag ← lift (pack_i 0);
  write_fortran_record fp (PBytes flag);;
  values ← lift (slab data);
  write_fortran_record fp (PArray values).

(** ** The pipeline: [convert_single_file] and [convert_files] *)

(** A row of the variable-mapping table [model_conf] whose cells for the
    variable, the output name and the unit are filled, so that [read_csv]
    gives them as texts; an empty scale cell is read as NaN.  A row with an
    empty unit cell is not such a row. *)
Record VarConf : Type := {
  var_id : string;
  wps_name : string;
  scale : float;
  units : string
}.

(** An opened dataset.  [ds_time] is the coordinate of the time dimension
    when ["time" in ds.dims]; [ds_plev_dim] says whether ["plev" in ds.dims];
    [ds_variables] lists [ds[name]] for every name of [ds.variables], in
    order. *)
Record Dataset : Type := {
  ds_time : option (list Timestamp);
  ds_plev_dim : bool;
  ds_variables : list (string * DataArray)
}.

(** The entries of [l] at the positions where [keys] satisfies [keep]. *)
Definition select {A} (keep : Timestamp -> bool) (keys : list Timestamp)
    (l : list A) : list A :=
  map snd (List.filter (fun p => keep (fst p)) (combine keys l)).

Fixpoint index_of (t : Timestamp) (ts : list Timestamp) : option nat :=
  match ts with
  | [] => None
  | t' :: ts' => if t =? t' then Some O else S <$> index_of t ts'
  end.

(** [ds.sel(time=slice(start, end))] on an increasing time axis: both ends
    are included. *)
Definition sel_time_slice (start end_ : Timestamp) (ds : Dataset) : Dataset :=
  let keep t := (start <=? t) && (t <=? end_) in
  {| ds_time := List.filter keep <$> ds_time ds;
     ds_plev_dim := ds_plev_dim ds;
     ds_variables :=
       map (fun '(name, data) =>
              (name,
               match da_time data with
               | DimCoord ts =>
                   {| da_time := DimCoord (List.filter keep ts);
                      da_plev := da_plev data;
                      da_lat := da_lat data; da_lon := da_lon data;
                      da_values := select keep ts (da_values data);
                      da_attrs := da_attrs data |}
               | _ => data
               end)) (ds_variables ds) |}.

(** The positions of the stamps on the axis; a stamp that is not on the axis
    is a [KeyError]. *)
Definition positions (stamps ts : list Timestamp) : result (list nat) :=
  mapM (fun t => match index_of t ts with
                 | Some i => Ok i
                 | None => Raise KeyError
                 end) stamps.

(** [ds.sel(time=stamps)] *)
Definition sel_time_list (stamps : list Timestamp) (ds : Dataset)
    : result Dataset :=
  match ds_time ds with
  | None => Raise KeyError
  | Some axis =>
      _ ← positions stamps axis;
      vars ← mapM (fun '(name, data) =>
                match da_time data with
                | DimCoord ts =>
                    idx ← positions stamps ts;
                    v ← mapM (fun i => match nth_error (da_values data) i with
                                       | Some x => Ok x
                                       | None => Raise IndexError
                                       end) idx;
                    Ok (name,
                        {| da_time := DimCoord stamps;
                           da_plev := da_plev data;
                           da_lat := da_lat data; da_lon := da_lon data;
                           da_values := v;
                           da_attrs := da_attrs data |})
                | _ => Ok (name, data)
                end) (ds_variables ds);
      Ok {| ds_time := Some stamps; ds_plev_dim := ds_plev_dim ds;
            ds_variables := vars |}
  end.

(** [len(data.time)] and [len(data.plev)]: the length of the coordinate of
    that name; when there is no such coordinate the name is looked up among
    the attributes, and the length is that of the text found there. *)
Definition coord_len {A} (name : string) (c : coord A)
    (attrs : gmap string string) : result nat :=
  match c with
  | DimCoord l => Ok (length l)
  | ScalarCoord _ => Raise TypeError
  | NoCoord =>
      match attrs !! name with
      | Some s => Ok (String.length s)
      | None => Raise (AttributeError name)
      end
  end.

(** Lines 179 to 212: one field per time and level, or, for a dataset
    without a time dimension, one field per requested stamp. *)
Definition emit_fields (ds : Dataset) (start_date end_date interval : Z)
    (prefix : string) (data : DataArray) (var_conf : VarConf) : IO unit :=
  match ds_time ds with
  | Some _ =>
      (* the log line of a pressure-level dataset reads data.plev.values *)
      (if ds_plev_dim ds
       then match da_plev data with
            | NoCoord => raise (AttributeError "plev")
            | _ => mret tt
            end
       else mret tt);;
      n_time ← lift (coord_len "time" (da_time data) (da_attrs data));
      forM_ (fun i_time =>
               if is_dim (da_plev data)
               then
                 n_plev ← lift (coord_len "plev" (da_plev data)
                                  (da_attrs data));
                 forM_ (fun i_plev =>
                          slice ← lift (isel_time_plev i_time i_plev data);
                          to_wps_interm slice (wps_name var_conf) prefix None)
                       (seq 0 n_plev)
               else
                 slice ← lift (isel_time i_time data);
                 to_wps_interm slice (wps_name var_conf) prefix None)
            (seq 0 n_time)
  | None =>
      stamps ← lift (date_range start_date end_date interval);
      forM_ (fun time =>
               to_wps_interm data (wps_name var_conf) prefix (Some time))
            stamps
  end.

(** [data * float(scale)] and [data.attrs["units"] = units], when the scale
    is finite. *)
Definition apply_scale (data : DataArray) (var_conf : VarConf) : DataArray :=
  if is_finite (scale var_conf)
  then set_attr (da_mul data (scale var_conf)) "units" (units var_conf)
  else data.

(** The body of the loop over the mapping rows of one variable (lines 153 to
    212).  The loop assigns to [data], so the body returns the array the next
    row starts from. *)
Definition convert_row (ds : Dataset) (start_date end_date interval : Z)
    (prefix : string) (data : DataArray) (var_conf : VarConf)
    : IO DataArray :=
  let data := apply_scale data var_conf in
  data_units ← lift (attrs_getitem data "units");
  if decide (data_units ≠ units var_conf)
  then raise (ValueError "Units mismatch")
  else
    emit_fields ds start_date end_date interval prefix data var_conf;;
    mret data.

(** [model_conf[model_conf["var_id"] == var_name]] *)
Definition out_vars (model_conf : list VarConf) (var_name : string)
    : list VarConf :=
  List.filter (fun row => bool_decide (var_id row = var_name)) model_conf.

(** The body of the loop over the variables of the dataset. *)
Definition convert_variable (ds : Dataset) (model_conf : list VarConf)
    (start_date end_date interval : Z) (prefix : string)
    (var : string * DataArray) : IO unit :=
  let '(var_name, data) := var in
  foldM (convert_row ds start_date end_date interval prefix)
        data (out_vars model_conf var_name);;
  mret tt.

(** The dataset after the selection of the time steps; [None] when the
    requested window holds none of them. *)
Definition select_times (ds : Dataset) (start_date end_date interval : Z)
    : result (option Dataset) :=
  match ds_time ds with
  | Some _ =>
      let ds := sel_time_slice start_date end_date ds in
      if (length (default [] (ds_time ds)) =? 0)%nat then Ok None
      else
        stamps ← date_range start_date end_date interval;
        ds ← sel_time_list stamps ds;
        Ok (Some ds)
  | None => Ok (Some ds)
  end.

Definition convert_single_file (nc_file : Dataset) (model_conf : list VarConf)
    (start_date end_date interval : Z) (prefix : string) : IO unit :=
  selected ← lift (select_times nc_file start_date end_date interval);
  match selected with
  | None => mret tt
  | Some ds =>
      forM_ (convert_variable ds model_conf start_date end_date interval prefix)
            (ds_variables ds)
  end.

(** The run: a new inventory, every file in turn, and the inventory closed
    whether or not an exception ends the loop. *)
Definition convert_files (model_conf : list VarConf)
    (start_date end_date interval : Z) (prefix : string)
    (nc_files : list Dataset) : IO unit := fun w =>
  let '(r, w') :=
    forM_ (fun nc_file =>
             convert_single_file nc_file model_conf start_date end_date
               interval prefix)
          nc_files (World ∅ (fs w)) in
  (r, snd (FileInventory.close_all w')).

(** ** The layout of a field in its file *)

(** A payload between its two length markers. *)
Definition record (p : list byte) : list byte :=
  be32 (Z.of_nat (length p)) ++ p ++ be32 (Z.of_nat (length p)).

(** A text cut to a width, or filled up to it with spaces. *)
Definition padded (s : string) (width : nat) : list byte :=
  map byte_of_ascii (firstn width (chars s)) ++
  repeat " "%byte (width - length (chars s))%nat.

(** The characters that reach the field are plain ASCII. *)
Definition ascii_field (s : string) (width : nat) : bool :=
  forallb is_ascii (firstn width (chars s)).

Definition attr (data : DataArray) (name : string) : string :=
  default EmptyString (da_attrs data !! name).

Definition lat_at (data : DataArray) (i : nat) : float :=
  nth i (da_lat data) S754_nan.

Definition lon_at (data : DataArray) (i : nat) : float :=
  nth i (da_lon data) S754_nan.

(** The level a two-dimensional slice is written with. *)
Definition xlvl (data : DataArray) : float :=
  match da_plev data with
  | ScalarCoord p => p
  | _ => f64_of_Z 200100
  end.

(** The field of a two-dimensional slice after the two fills. *)
Definition filled (data : DataArray) : grid :=
  fill_grid Lon data
    (fill_grid Lat data (nth 0 (nth 0 (da_values data) []) [])).

Definition f32 (x : float) : list byte := f32_bytes (to_f32 x).

Definition header_bytes (data : DataArray) (var_name : string)
    (time : Timestamp) : list byte :=
  padded (strftime_hdate time) 24 ++ f32 f64_zero ++
  padded "CMIP6" 32 ++ padded var_name 9 ++
  padded (attr data "units") 25 ++ padded (attr data "standard_name") 46 ++
  f32 (xlvl data) ++
  be32 (Z.of_nat (length (da_lon data))) ++
  be32 (Z.of_nat (length (da_lat data))) ++ be32 0.

Definition geometry_bytes (data : DataArray) : list byte :=
  padded "SWCORNER" 8 ++ f32 (lat_at data 0) ++ f32 (lon_at data 0) ++
  f32 (f64_sub (lat_at data 1) (lat_at data 0)) ++
  f32 (f64_sub (lon_at data 1) (lon_at data 0)) ++ f32 earth_radius.

(** The values of the filled field, latitude after latitude, and within a
    latitude longitude after longitude. *)
Definition slab_bytes (data : DataArray) : list byte :=
  flat_map (fun i_lat =>
    flat_map (fun i_lon => f32 (cell (filled data) i_lat i_lon))
      (seq 0 (length (da_lon data))))
    (seq 0 (length (da_lat data))).

Definition field_records (data : DataArray) (var_name : string)
    (time : Timestamp) : list byte :=
  record (be32 5) ++ record (header_bytes data var_name time) ++
  record (geometry_bytes data) ++ record (be32 0) ++
  record (slab_bytes data).

(** The world after [b] went to the file [filename] of the inventory, which
    is opened first when it is not open yet. *)
Definition emit (filename : string) (b : list byte) (w : world) : world :=
  append_file filename b (snd (FileInventory.get filename w)).

Definition emit_field (var_name prefix : string) (time : Timestamp)
    (data : DataArray) (w : world) : world :=
  emit (prefix +:+ ":" +:+ strftime_hour time)
       (field_records data var_name time) w.

(** The slices [to_wps_interm] encodes to the end: two-dimensional, with a
    level that can be read, on strictly increasing axes of two points or
    more, with ASCII texts and with numbers in the range of a 32-bit float
    and of a 32-bit length. *)
Definition encodable (data : DataArray) (var_name : string) : bool :=
  negb (is_dim (da_time data)) && negb (is_dim (da_plev data)) &&
  match da_values data with
  | [[_]] => true
  | _ => false
  end &&
  strictly_increasing (da_lat data) && strictly_increasing (da_lon data) &&
  (2 <=? length (da_lat data))%nat && (2 <=? length (da_lon data))%nat &&
  ascii_field var_name 9 &&
  match da_attrs data !! "units" with
  | Some s => ascii_field s 25
  | None => false
  end &&
  match da_attrs data !! "standard_name" with
  | Some s => ascii_field s 46
  | None => false
  end &&
  fits_f32 (xlvl data) &&
  fits_f32 (lat_at data 0) && fits_f32 (lon_at data 0) &&
  fits_f32 (f64_sub (lat_at data 1) (lat_at data 0)) &&
  fits_f32 (f64_sub (lon_at data 1) (lon_at data 0)) &&
  (4 * Z.of_nat (length (da_lon data)) * Z.of_nat (length (da_lat data))
   <? 2 ^ 31) &&
  level_readable data.

(** The slice of an array at one time and one level. *)
Definition slice_at (data : DataArray) (i_time i_plev : nat) : DataArray :=
  {| da_time :=
       match da_time data with
       | DimCoord ts => ScalarCoord (nth i_time ts 0)
       | c => c
       end;
     da_plev :=
       match da_plev data with
       | DimCoord ps => ScalarCoord (nth i_plev ps S754_nan)
       | c => c
       end;
     da_lat := da_lat data; da_lon := da_lon data;
     da_values := [[ nth i_plev (nth i_time (da_values data) []) [] ]];
     da_attrs := da_attrs data |}.

(** The length of a dimension, 0 when the coordinate is not one. *)
Definition dim_len {A} (c : coord A) : nat :=
  match c with
  | DimCoord l => length l
  | _ => O
  end.

(** The (time, level) indices of an array, time by time and within a time
    level by level. *)
Definition time_major (n_time n_plev : nat) : list (nat * nat) :=
  flat_map (fun i_time => map (fun i_plev => (i_time, i_plev)) (seq 0 n_plev))
           (seq 0 n_time).

(** Every time has a field for every level. *)
Definition full_shape (data : DataArray) : bool :=
  (length (da_values data) =? dim_len (da_time data))%nat &&
  forallb (fun levels => (length levels =? dim_len (da_plev data))%nat)
          (da_values data).

(** ** Sample inputs *)

Definition sample_attrs : gmap string string :=
  <[ "units" := "K" ]> {[ "standard_name" := "air_temperature" ]}.

(** 2000-01-01T00:00 *)
Definition sample_time : Timestamp := 946684800 * 10 ^ 9.

(** A surface field on two latitudes and two longitudes. *)
Definition sample_slice : DataArray :=
  {| da_time := ScalarCoord sample_time;
     da_plev := NoCoord;
     da_lat := [f64_of_Z 0; f64_of_Z 1];
     da_lon := [f64_of_Z 10; f64_of_Z 12];
     da_values := [[ [ [f64_of_Z 1; f64_of_Z 2]; [f64_of_Z 3; f64_of_Z 4] ] ]];
     da_attrs := sample_attrs |}.

(** The same field without a time: a static field. *)
Definition sample_static : DataArray :=
  {| da_time := NoCoord;
     da_plev := NoCoord;
     da_lat := da_lat sample_slice;
     da_lon := da_lon sample_slice;
     da_values := da_values sample_slice;
     da_attrs := sample_attrs |}.

(** A field on the latitudes 0, 1 and 3: the spacing is not uniform. *)
Definition sample_irregular : DataArray :=
  {| da_time := ScalarCoord sample_time;
     da_plev := NoCoord;
     da_lat := [f64_of_Z 0; f64_of_Z 1; f64_of_Z 3];
     da_lon := [f64_of_Z 10; f64_of_Z 12];
     da_values := [[ [ [f64_of_Z 1; f64_of_Z 2]; [f64_of_Z 3; f64_of_Z 4];
                       [f64_of_Z 5; f64_of_Z 6] ] ]];
     da_attrs := sample_attrs |}.

(** Two times, six hours apart, and two levels. *)
Definition sample_cube : DataArray :=
  {| da_time := DimCoord [sample_time; sample_time + 6 * ns_per_hour];
     da_plev := DimCoord [f64_of_Z 85000; f64_of_Z 50000];
     da_lat := da_lat sample_slice;
     da_lon := da_lon sample_slice;
     da_values :=
       [ [ [ [f64_of_Z 1; f64_of_Z 2]; [f64_of_Z 3; f64_of_Z 4] ];
           [ [f64_of_Z 5; f64_of_Z 6]; [f64_of_Z 7; f64_of_Z 8] ] ];
         [ [ [f64_of_Z 9; f64_of_Z 10]; [f64_of_Z 11; f64_of_Z 12] ];
           [ [f64_of_Z 13; f64_of_Z 14]; [f64_of_Z 15; f64_of_Z 16] ] ] ];
     da_attrs := sample_attrs |}.

Definition sample_cube_ds : Dataset :=
  {| ds_time := Some [sample_time; sample_time + 6 * ns_per_hour];
     ds_plev_dim := true;
     ds_variables := [("ta", sample_cube)] |}.

Definition sample_static_ds : Dataset :=
  {| ds_time := None; ds_plev_dim := false;
     ds_variables := [("tas", sample_static)] |}.

Definition row_TT : VarConf :=
  {| var_id := "tas"; wps_name := "TT"; scale := S754_nan; units := "K" |}.

Definition row_degC : VarConf :=
  {| var_id := "tas"; wps_name := "TC"; scale := S754_nan; units := "degC" |}.

(** Two rows for one variable, each with a scale of its own. *)
Definition row_double : VarConf :=
  {| var_id := "tas"; wps_name := "T2"; scale := f64_of_Z 2; units := "2K" |}.

Definition row_triple : VarConf :=
  {| var_id := "tas"; wps_name := "T3"; scale := f64_of_Z 3; units := "3K" |}.

(** ** Conditions and relations for the further properties *)


(** The content of a file, empty when there is no such file. *)
Definition content (w : world) (f : string) : list byte :=
  default [] (fs w !! f).

(** The names of the output files of a run with a given prefix. *)
Definition output_name (prefix : string) (f : string) : Prop :=
  exists t : Timestamp, f = prefix +:+ ":" +:+ strftime_hour t.

(** From [w] to [w'] no file of the inventory was closed, none of them lost
    or changed what it held (it may hold more), and outside of the names [P]
    nothing was opened or written. *)
Definition keeps (P : string -> Prop) (w w' : world) : Prop :=
  inventory w ⊆ inventory w' /\
  (forall f, f ∈ inventory w -> content w f `prefix_of` content w' f) /\
  (forall f, ~ P f ->
     fs w' !! f = fs w !! f /\ (f ∈ inventory w' <-> f ∈ inventory w)).

Definition preserves (P : string -> Prop) {A} (m : IO A) : Prop :=
  forall w, keeps P w (snd (m w)).

(** The slice of an array at one time. *)
Definition time_slice (data : DataArray) (i_time : nat) : DataArray :=
  {| da_time :=
       match da_time data with
       | DimCoord ts => ScalarCoord (nth i_time ts 0)
       | c => c
       end;
     da_plev := da_plev data;
     da_lat := da_lat data; da_lon := da_lon data;
     da_values := [ nth i_time (da_values data) [] ];
     da_attrs := da_attrs data |}.

(** ** More sample inputs *)


(** The sample field with the latitudes from north to south. *)
Definition sample_descending : DataArray :=
  {| da_time := ScalarCoord sample_time;
     da_plev := NoCoord;
     da_lat := [f64_of_Z 1; f64_of_Z 0];
     da_lon := [f64_of_Z 10; f64_of_Z 12];
     da_values := [[ [ [f64_of_Z 3; f64_of_Z 4]; [f64_of_Z 1; f64_of_Z 2] ] ]];
     da_attrs := sample_attrs |}.

(** The sample field with an attribute named plev and no level
    coordinate. *)
Definition sample_plev_attr : DataArray :=
  {| da_time := ScalarCoord sample_time;
     da_plev := NoCoord;
     da_lat := da_lat sample_slice;
     da_lon := da_lon sample_slice;
     da_values := da_values sample_slice;
     da_attrs := <[ "plev" := "surface" ]> sample_attrs |}.

(** The sample field without a unit. *)
Definition sample_no_units : DataArray :=
  {| da_time := ScalarCoord sample_time;
     da_plev := NoCoord;
     da_lat := da_lat sample_slice;
     da_lon := da_lon sample_slice;
     da_values := da_values sample_slice;
     da_attrs := {[ "standard_name" := "air_temperature" ]} |}.

(** The sample field at the level of 850 hPa. *)
Definition sample_level : DataArray :=
  {| da_time := ScalarCoord sample_time;
     da_plev := ScalarCoord (f64_of_Z 85000);
     da_lat := da_lat sample_slice;
     da_lon := da_lon sample_slice;
     da_values := da_values sample_slice;
     da_attrs := sample_attrs |}.

(** A surface variable on two times, six hours apart. *)
Definition sample_series : DataArray :=
  {| da_time := DimCoord [sample_time; sample_time + 6 * ns_per_hour];
     da_plev := NoCoord;
     da_lat := da_lat sample_slice;
     da_lon := da_lon sample_slice;
     da_values :=
       [ [ [ [f64_of_Z 1; f64_of_Z 2]; [f64_of_Z 3; f64_of_Z 4] ] ];
         [ [ [f64_of_Z 5; f64_of_Z 6]; [f64_of_Z 7; f64_of_Z 8] ] ] ];
     da_attrs := sample_attrs |}.

Definition sample_series_ds : Dataset :=
  {| ds_time := Some [sample_time; sample_time + 6 * ns_per_hour];
     ds_plev_dim := false;
     ds_variables := [("tas", sample_series)] |}.

(** A dataset with a level dimension that also holds the surface variable. *)
Definition sample_mixed_ds : Dataset :=
  {| ds_time := Some [sample_time; sample_time + 6 * ns_per_hour];
     ds_plev_dim := true;
     ds_variables := [("ta", sample_cube); ("tas", sample_series)] |}.

(** A dataset with a time dimension that also holds a field without time. *)
Definition sample_orog_ds : Dataset :=
  {| ds_time := Some [sample_time; sample_time + 6 * ns_per_hour];
     ds_plev_dim := false;
     ds_variables := [("tas", sample_static)] |}.



(** 2^128, too large for a 32-bit float. *)
Definition f64_huge : float := f64_of_Z (2 ^ 128).

(** The sample field with a value beyond the range of a 32-bit float. *)
Definition sample_huge : DataArray :=
  {| da_time := ScalarCoord sample_time;
     da_plev := NoCoord;
     da_lat := da_lat sample_slice;
     da_lon := da_lon sample_slice;
     da_values := [[ [ [f64_of_Z 1; f64_huge]; [f64_of_Z 3; f64_of_Z 4] ] ]];
     da_attrs := sample_attrs |}.

(** [len(out_vars) == 0] is false: the table has a row for the variable. *)
Definition mapped (model_conf : list VarConf) (var : string * DataArray)
    : bool :=
  negb (length (out_vars model_conf var.1) =? 0)%nat.

(** A table with a row for a variable the sample datasets do not hold. *)
Definition row_other : VarConf :=
  {| var_id := "pr"; wps_name := "RAIN"; scale := S754_nan; units := "mm" |}.

(** * Properties *)

(** ** Bytes and lengths *)

Lemma Z_of_byte_of_Z (z : Z) : Z_of_byte (byte_of_Z z) = z mod 256.
Proof.
  unfold Z_of_byte, byte_of_Z.
  assert (Hb : 0 <= z mod 256 < 256) by (apply Z.mod_pos_bound; lia).
  destruct (Byte.of_N (Z.to_N (z mod 256))) as [b|] eqn:E.
  - apply Byte.to_of_N in E. rewrite E. lia.
  - apply Byte.of_N_None_iff in E. lia.
Qed.

Lemma be32_length (w : Z) : length (be32 w) = 4%nat.
Proof. reflexivity. Qed.

Lemma be_decode_be32 (w : Z) : 0 <= w < 2 ^ 32 -> be_decode (be32 w) = w.
Proof.
  intros Hw. unfold be_decode, be32. cbn [fold_left].
  rewrite !Z_of_byte_of_Z, !Z.shiftr_div_pow2 by lia.
  change (2 ^ 24) with 16777216. change (2 ^ 16) with 65536.
  change (2 ^ 8) with 256. change (2 ^ 32) with 4294967296 in Hw.
  Z.div_mod_to_equations. lia.
Qed.

Lemma pack_i_ok (n : Z) : 0 <= n < 2 ^ 31 -> pack_i n = Ok (be32 n).
Proof.
  intros Hn. unfold pack_i.
  destruct (Z.leb_spec (- 2 ^ 31) n); [|lia].
  destruct (Z.ltb_spec n (2 ^ 31)); [|lia].
  cbn [andb]. rewrite Z.mod_small; [reflexivity|lia].
Qed.

Lemma f32_bytes_length (x : float) : length (f32_bytes x) = 4%nat.
Proof. reflexivity. Qed.

Lemma padded_length (s : string) (n : nat) : length (padded s n) = n.
Proof.
  unfold padded. rewrite length_app, length_map, length_firstn, repeat_length.
  lia.
Qed.

(** ** Text fields *)

Lemma slice_ljust (l : list ascii) (W : Z) :
  0 <= W ->
  slice_to (ljust l W) W =
  firstn (Z.to_nat W) l ++ repeat " "%char (Z.to_nat W - length l)%nat.
Proof.
  intros HW. unfold slice_to, ljust.
  destruct (Z.leb_spec 0 W); [|lia].
  rewrite firstn_app. f_equal.
  replace (Z.to_nat (W - Z.of_nat (length l)))
    with (Z.to_nat W - length l)%nat by lia.
  apply firstn_all2. rewrite repeat_length. lia.
Qed.

Lemma forallb_is_ascii_spaces (n : nat) :
  forallb is_ascii (repeat " "%char n) = true.
Proof. induction n; [reflexivity|exact IHn]. Qed.

Lemma map_byte_of_ascii_spaces (n : nat) :
  map byte_of_ascii (repeat " "%char n) = repeat " "%byte n.
Proof. induction n; [reflexivity|]. cbn [repeat map]. now rewrite IHn. Qed.

Lemma pad_ok (s : string) (n : nat) :
  ascii_field s n = true -> pad s (Z.of_nat n) = Ok (padded s n).
Proof.
  unfold ascii_field, pad, padded, encode_ascii. intros Hs.
  rewrite slice_ljust by lia. rewrite Nat2Z.id.
  rewrite forallb_app, Hs, forallb_is_ascii_spaces. cbn [andb].
  now rewrite map_app, map_byte_of_ascii_spaces.
Qed.

Lemma pad_not_ascii (s : string) (n : nat) :
  ascii_field s n = false -> pad s (Z.of_nat n) = Raise UnicodeEncodeError.
Proof.
  unfold ascii_field, pad, encode_ascii. intros Hs.
  rewrite slice_ljust by lia. rewrite Nat2Z.id.
  now rewrite forallb_app, Hs.
Qed.

Lemma ascii_byte_bound (c : ascii) :
  is_ascii c = true -> Z_of_byte (byte_of_ascii c) < 128.
Proof.
  unfold is_ascii, Z_of_byte. intros Hc. apply Nat.ltb_lt in Hc.
  pose proof (byte_of_ascii_via_N c) as E. symmetry in E.
  apply Byte.to_of_N in E. rewrite E.
  unfold nat_of_ascii in Hc. lia.
Qed.

Lemma padded_ascii (s : string) (n : nat) :
  ascii_field s n = true -> Forall (fun b => Z_of_byte b < 128) (padded s n).
Proof.
  unfold ascii_field, padded. intros Hs. apply Forall_app. split.
  - rewrite forallb_forall in Hs. apply List.Forall_forall. intros b Hb.
    apply in_map_iff in Hb as (c & <- & Hc). apply ascii_byte_bound. auto.
  - apply List.Forall_forall. intros b Hb. apply repeat_spec in Hb. subst b.
    vm_compute. reflexivity.
Qed.

(** C8 (as amended).  For a declared width W >= 0 and a source text whose
    first W characters are ASCII, [pad] returns exactly W ASCII bytes: the
    text followed by spaces when it is at most W long, its first W characters
    when it is longer. *)
Theorem pad_exact_width (s : string) (W : Z) :
  0 <= W ->
  forallb is_ascii (firstn (Z.to_nat W) (chars s)) = true ->
  exists b : list byte,
    pad s W = Ok b /\
    Z.of_nat (length b) = W /\
    Forall (fun x => Z_of_byte x < 128) b /\
    (Z.of_nat (length (chars s)) <= W ->
     b = map byte_of_ascii (chars s) ++
         repeat " "%byte (Z.to_nat W - length (chars s))%nat) /\
    (W < Z.of_nat (length (chars s)) ->
     b = map byte_of_ascii (firstn (Z.to_nat W) (chars s))).
Proof.
  intros HW Hs. exists (padded s (Z.to_nat W)).
  split; [|split; [|split; [|split]]].
  - rewrite <- (Z2Nat.id W) at 1 by lia. now apply pad_ok.
  - rewrite padded_length. lia.
  - now apply padded_ascii.
  - intros Hle. unfold padded. rewrite firstn_all2 by lia. reflexivity.
  - intros Hlt. unfold padded.
    replace (Z.to_nat W - length (chars s))%nat with O by lia.
    cbn [repeat]. now rewrite app_nil_r.
Qed.

Lemma pad_exact_width_witness :
  exists b : list byte,
    pad "kg m-2 s-1" 9 = Ok b /\
    Z.of_nat (length b) = 9 /\
    Forall (fun x => Z_of_byte x < 128) b /\
    (Z.of_nat (length (chars "kg m-2 s-1")) <= 9 ->
     b = map byte_of_ascii (chars "kg m-2 s-1") ++
         repeat " "%byte (Z.to_nat 9 - length (chars "kg m-2 s-1"))%nat) /\
    (9 < Z.of_nat (length (chars "kg m-2 s-1")) ->
     b = map byte_of_ascii (firstn (Z.to_nat 9) (chars "kg m-2 s-1"))).
Proof. apply (pad_exact_width "kg m-2 s-1" 9); [lia | reflexivity]. Defined.

(** C8, the claim as stated, fails: a text with a character outside ASCII
    among its first W is not encoded at all. *)
Lemma pad_non_ascii_raises :
  pad (String (ascii_of_nat 176) "C") 25 = Raise UnicodeEncodeError /\
  pad (String (ascii_of_nat 233) "") 1 = Raise UnicodeEncodeError.
Proof. split; reflexivity. Qed.

(** ** Running computations *)

Lemma bind_run {A B} (m : IO A) (k : A -> IO B) (w : world) :
  (m ≫= k) w =
  match m w with
  | (Ok a, w') => k a w'
  | (Raise e, w') => (Raise e, w')
  end.
Proof. reflexivity. Qed.

Lemma bind_ok {A B} (m : IO A) (k : A -> IO B) (w w' : world) (a : A) :
  m w = (Ok a, w') -> (m ≫= k) w = k a w'.
Proof. intros H. rewrite bind_run, H. reflexivity. Qed.

Lemma bind_raise {A B} (m : IO A) (k : A -> IO B) (w w' : world) (e : exn) :
  m w = (Raise e, w') -> (m ≫= k) w = (Raise e, w').
Proof. intros H. rewrite bind_run, H. reflexivity. Qed.

Lemma lift_ok {A B} (r : result A) (a : A) (k : A -> IO B) (w : world) :
  r = Ok a -> (lift r ≫= k) w = k a w.
Proof. intros ->. reflexivity. Qed.

Lemma forM__app {A} (body : A -> IO unit) (l1 l2 : list A) (w : world) :
  forM_ body (l1 ++ l2) w = (forM_ body l1 ≫= fun _ => forM_ body l2) w.
Proof.
  revert w. induction l1 as [|x l1 IH]; intros w; [reflexivity|].
  cbn [app forM_]. rewrite !bind_run.
  destruct (body x w) as [[[]|e] w1]; [|reflexivity].
  rewrite IH, bind_run. reflexivity.
Qed.

Lemma foldM_app {A S} (body : S -> A -> IO S) (s : S) (l1 l2 : list A)
    (w : world) :
  foldM body s (l1 ++ l2) w =
  (foldM body s l1 ≫= fun s' => foldM body s' l2) w.
Proof.
  revert s w. induction l1 as [|x l1 IH]; intros s w; [reflexivity|].
  cbn [app foldM]. rewrite !bind_run.
  destruct (body s x w) as [[s1|e] w1]; [|reflexivity].
  rewrite IH, bind_run. reflexivity.
Qed.

(** A loop whose every step succeeds is the fold of the steps. *)
Lemma forM__fold {A} (body : A -> IO unit) (step : A -> world -> world)
    (l : list A) (w : world) :
  (forall x w', In x l -> body x w' = (Ok tt, step x w')) ->
  forM_ body l w = (Ok tt, fold_left (fun w' x => step x w') l w).
Proof.
  revert w. induction l as [|x l IH]; intros w H; [reflexivity|].
  cbn [forM_ fold_left]. rewrite (bind_ok _ _ _ _ _ (H x w (or_introl eq_refl))).
  apply IH. intros y w' Hy. apply H. now right.
Qed.

(** ** Record framing *)

Lemma append_file_app (fp : string) (b1 b2 : list byte) (w : world) :
  append_file fp b2 (append_file fp b1 w) = append_file fp (b1 ++ b2) w.
Proof.
  unfold append_file. cbn [inventory fs]. f_equal.
  rewrite lookup_insert_eq. cbn [default].
  rewrite insert_insert_eq. now rewrite (assoc_L (++)).
Qed.

Lemma np_array_ok (data : payload) :
  nbytes data < 2 ^ 31 -> np_array data = Ok data.
Proof.
  destruct data as [b|a]; cbn [np_array nbytes]; [|reflexivity].
  intros Hn. destruct (Z.ltb_spec (Z.of_nat (length b)) (2 ^ 31)); [reflexivity|lia].
Qed.

Lemma write_fortran_record_ok (fp : string) (data : payload) (w : world) :
  0 <= nbytes data < 2 ^ 31 ->
  write_fortran_record fp data w =
  (Ok tt,
   append_file fp (be32 (nbytes data) ++ tobytes_F data ++ be32 (nbytes data)) w).
Proof.
  intros Hn. unfold write_fortran_record.
  rewrite (lift_ok _ _ _ _ (np_array_ok data (proj2 Hn))).
  rewrite (lift_ok _ _ _ _ (pack_i_ok _ Hn)).
  rewrite bind_run. cbn [fp_write].
  rewrite bind_run. cbn [fp_write].
  rewrite (lift_ok _ _ _ _ (pack_i_ok _ Hn)). cbn [fp_write].
  unfold fp_write. rewrite !append_file_app. reflexivity.
Qed.

Lemma write_fortran_record_bytes (fp : string) (b : list byte) (w : world) :
  (0 < length b)%nat -> Z.of_nat (length b) < 2 ^ 31 ->
  write_fortran_record fp (PBytes b) w = (Ok tt, append_file fp (record b) w).
Proof.
  intros Hpos Hlt.
  rewrite write_fortran_record_ok by (cbn [nbytes]; lia).
  cbn [nbytes tobytes_F]. rewrite Z.max_r by lia.
  destruct b; [cbn in Hpos; lia|reflexivity].
Qed.

(** From 2^31 bytes on nothing is written: a [bytes] object is refused when
    the array is made, an array when its length is packed. *)
Lemma write_fortran_record_too_long (fp : string) (data : payload) (w : world) :
  2 ^ 31 <= nbytes data ->
  write_fortran_record fp data w =
  (Raise (match data with
          | PBytes _ => TypeError
          | PArray _ => StructError
          end), w).
Proof.
  intros Hn. unfold write_fortran_record.
  destruct data as [b|a]; cbn [nbytes] in Hn.
  - unfold np_array.
    destruct (Z.ltb_spec (Z.of_nat (length b)) (2 ^ 31)); [lia|reflexivity].
  - rewrite (lift_ok (np_array (PArray a)) (PArray a) _ _ eq_refl).
    unfold pack_i. cbn [nbytes].
    destruct (Z.ltb_spec (4 * Z.of_nat (shape0 a) * Z.of_nat (shape1 a))
                (2 ^ 31)); [lia|].
    rewrite andb_false_r. reflexivity.
Qed.

(** C2 (as amended).  For a payload P of at least one byte and of fewer than
    2^31, the framer appends the length of P as four big-endian bytes, P as
    it is, and the same four bytes again; read back, the first four bytes
    give the length L, the next L bytes are P and the four bytes after them
    give L again. *)
Theorem write_fortran_record_frames (fp : string) (P : list byte) (w : world) :
  (0 < length P)%nat ->
  Z.of_nat (length P) < 2 ^ 31 ->
  let L := Z.of_nat (length P) in
  let framed := be32 L ++ P ++ be32 L in
  write_fortran_record fp (PBytes P) w = (Ok tt, append_file fp framed w) /\
  length framed = (4 + length P + 4)%nat /\
  be_decode (firstn 4 framed) = L /\
  firstn (Z.to_nat L) (skipn 4 framed) = P /\
  be_decode (skipn (4 + Z.to_nat L) framed) = L.
Proof.
  intros Hpos Hlt L framed. subst L framed.
  split; [|split; [|split; [|split]]].
  - now apply write_fortran_record_bytes.
  - rewrite !length_app, !be32_length. lia.
  - rewrite firstn_app, be32_length. cbn [Nat.sub firstn].
    rewrite app_nil_r. change (firstn 4 (be32 ?x)) with (be32 x).
    apply be_decode_be32. lia.
  - change (skipn 4 (be32 ?x ++ ?r)) with r.
    rewrite Nat2Z.id, firstn_app, Nat.sub_diag, firstn_all. cbn [firstn].
    now rewrite app_nil_r.
  - rewrite Nat2Z.id.
    change (be32 ?x ++ P ++ ?r) with (firstn 4 (be32 x) ++ P ++ r).
    rewrite app_assoc, skipn_app.
    rewrite skipn_all2 by (rewrite length_app; cbn; lia).
    rewrite length_app. cbn [length firstn be32 app].
    replace (4 + length P - (4 + length P))%nat with O by lia.
    cbn [skipn]. apply be_decode_be32. lia.
Qed.

Lemma write_fortran_record_frames_witness :
  let P := [x00; x00; x00; x05] in
  let L := Z.of_nat (length P) in
  let framed := be32 L ++ P ++ be32 L in
  write_fortran_record "FILE:2000-01-01_00" (PBytes P) (World ∅ ∅) =
    (Ok tt, append_file "FILE:2000-01-01_00" framed (World ∅ ∅)) /\
  length framed = (4 + length P + 4)%nat /\
  be_decode (firstn 4 framed) = L /\
  firstn (Z.to_nat L) (skipn 4 framed) = P /\
  be_decode (skipn (4 + Z.to_nat L) framed) = L.
Proof.
  apply (write_fortran_record_frames "FILE:2000-01-01_00"
           [x00; x00; x00; x05] (World ∅ ∅)); cbn; lia.
Defined.

(** C2, the claim as stated, fails: the payload of no byte is not framed
    with the length 0.  The array made from the empty [bytes] object is one
    byte long, so the record holds the length 1, one NUL byte and the length
    1 again: the length read back is not that of P, and the byte after it is
    not one of P. *)
Lemma empty_payload_framed_as_one_byte :
  let P : list byte := [] in
  let written :=
    [x00; x00; x00; x01] ++ [x00] ++ [x00; x00; x00; x01] in
  write_fortran_record "FILE" (PBytes P) (World ∅ ∅) =
    (Ok tt, append_file "FILE" written (World ∅ ∅)) /\
  Z.of_nat (length P) = 0 /\
  be_decode (firstn 4 written) = 1 /\
  written <> be32 0 ++ P ++ be32 0.
Proof.
  repeat split; try (vm_compute; reflexivity). discriminate.
Qed.

(** Nor is a payload of 2^31 bytes framed: the array cannot be made of it,
    and nothing is written. *)
Lemma write_fortran_record_limit (fp : string) (P : list byte) (w : world) :
  2 ^ 31 <= Z.of_nat (length P) ->
  write_fortran_record fp (PBytes P) w = (Raise TypeError, w).
Proof.
  intros Hn. apply (write_fortran_record_too_long fp (PBytes P)).
  cbn [nbytes]. lia.
Qed.

(** ** The five records of a field *)

Lemma rbind_ok {A B} (r : result A) (a : A) (k : A -> result B) :
  r = Ok a -> (r ≫= k) = k a.
Proof. intros ->. reflexivity. Qed.

Lemma pad_field (s : string) (W : Z) (n : nat) :
  W = Z.of_nat n -> ascii_field s n = true -> pad s W = Ok (padded s n).
Proof. intros ->. apply pad_ok. Qed.

Lemma pack_s_exact (n : nat) (b : list byte) :
  length b = n -> pack_s n b = b.
Proof.
  intros <-. unfold pack_s. rewrite firstn_all, Nat.sub_diag.
  apply app_nil_r.
Qed.

Lemma pack_f_ok (x : float) : fits_f32 x = true -> pack_f x = Ok (f32 x).
Proof. unfold pack_f. now intros ->. Qed.

Lemma is_ascii_digit (z : Z) : is_ascii (digit z) = true.
Proof.
  unfold is_ascii, digit. apply Nat.ltb_lt.
  assert (0 <= z mod 10 < 10) by (apply Z.mod_pos_bound; lia).
  unfold nat_of_ascii. rewrite N_ascii_embedding; lia.
Qed.

Lemma chars_append (s1 s2 : string) : chars (s1 +:+ s2) = chars s1 ++ chars s2.
Proof.
  unfold chars. induction s1 as [|c s1 IH]; [reflexivity|].
  cbn. now rewrite <- IH.
Qed.

Lemma strftime_hour_ascii (t : Timestamp) :
  forallb is_ascii (chars (strftime_hour t)) = true.
Proof.
  unfold strftime_hour. destruct (civil_from_days _) as [[y m] d].
  rewrite !chars_append, !forallb_app.
  unfold digits4, digits2, chars. cbn [list_ascii_of_string forallb].
  rewrite !is_ascii_digit. reflexivity.
Qed.

Lemma forallb_firstn {A} (p : A -> bool) (n : nat) (l : list A) :
  forallb p l = true -> forallb p (firstn n l) = true.
Proof.
  revert n. induction l as [|x l IH]; intros [|n] H; try reflexivity.
  cbn in *. apply andb_prop in H as [-> H]. now apply IH.
Qed.

Lemma strftime_hdate_ascii (t : Timestamp) :
  ascii_field (strftime_hdate t) 24 = true.
Proof.
  unfold ascii_field, strftime_hdate. apply forallb_firstn.
  rewrite chars_append, forallb_app, strftime_hour_ascii. reflexivity.
Qed.

Lemma encodable_elim (data : DataArray) (var_name : string) :
  encodable data var_name = true ->
  is_dim (da_time data) = false /\ is_dim (da_plev data) = false /\
  (exists g, da_values data = [[g]]) /\
  strictly_increasing (da_lat data) = true /\
  strictly_increasing (da_lon data) = true /\
  (2 <= length (da_lat data))%nat /\ (2 <= length (da_lon data))%nat /\
  ascii_field var_name 9 = true /\
  (exists u, da_attrs data !! "units" = Some u /\ ascii_field u 25 = true) /\
  (exists d, da_attrs data !! "standard_name" = Some d /\
             ascii_field d 46 = true) /\
  fits_f32 (xlvl data) = true /\
  fits_f32 (lat_at data 0) = true /\ fits_f32 (lon_at data 0) = true /\
  fits_f32 (f64_sub (lat_at data 1) (lat_at data 0)) = true /\
  fits_f32 (f64_sub (lon_at data 1) (lon_at data 0)) = true /\
  4 * Z.of_nat (length (da_lon data)) * Z.of_nat (length (da_lat data))
    < 2 ^ 31.
Proof.
  unfold encodable. rewrite !andb_true_iff, !negb_true_iff.
  intros [[[[[[[[[[[[[[[[H1 H2] Hg] H3] H4] H5] H6] H7] H8] H9] H10] H11] H12]
            H13] H14] H15] _].
  apply Nat.leb_le in H5, H6. apply Z.ltb_lt in H15.
  repeat split; auto.
  - destruct (da_values data) as [|[|g []] []]; try discriminate. eauto.
  - destruct (da_attrs data !! "units") as [u|]; [eauto|discriminate].
  - destruct (da_attrs data !! "standard_name") as [d|]; [eauto|discriminate].
Qed.

Lemma getitem_nth (c : list float) (i : nat) :
  (i < length c)%nat -> getitem c i = Ok (nth i c S754_nan).
Proof.
  intros Hi. unfold getitem.
  destruct (nth_error c i) as [x|] eqn:E.
  - now rewrite (nth_error_nth _ _ _ E).
  - apply nth_error_None in E. lia.
Qed.

Lemma level_of_ok (data : DataArray) :
  level_readable data = true ->
  level_of data =
  Ok (match da_plev data with
      | ScalarCoord p => FloatLevel p
      | DimCoord l => ArrayLevel l
      | NoCoord => IntLevel 200100
      end).
Proof.
  unfold level_readable, level_of. destruct (da_plev data); try reflexivity.
  intros H. apply bool_decide_eq_true in H. now rewrite H.
Qed.

Lemma encodable_level (data : DataArray) (var_name : string) :
  encodable data var_name = true -> level_readable data = true.
Proof. unfold encodable. intros H. now apply andb_prop in H as [_ H]. Qed.

Lemma level_float_ok (data : DataArray) (lv : level) :
  is_dim (da_plev data) = false ->
  level_of data = Ok lv ->
  level_float lv = Ok (xlvl data).
Proof.
  unfold level_of, xlvl. destruct (da_plev data); try discriminate.
  - destruct (da_attrs data !! "plev"); [discriminate|]. now intros _ [= <-].
  - now intros _ [= <-].
Qed.

Lemma header_bytes_length (data : DataArray) (var_name : string)
    (t : Timestamp) :
  length (header_bytes data var_name t) = 156%nat.
Proof.
  unfold header_bytes, f32.
  now rewrite !length_app, !padded_length, !f32_bytes_length, !be32_length.
Qed.

Lemma geometry_bytes_length (data : DataArray) :
  length (geometry_bytes data) = 28%nat.
Proof.
  unfold geometry_bytes, f32.
  now rewrite !length_app, !padded_length, !f32_bytes_length.
Qed.

Lemma header_ok (data : DataArray) (var_name : string) (t : Timestamp)
    (lv : level) :
  encodable data var_name = true ->
  level_of data = Ok lv ->
  header data var_name t lv = Ok (header_bytes data var_name t).
Proof.
  intros H Hlv. apply encodable_elim in H
    as (_ & Hp & _ & _ & _ & Hlat & Hlon & Hv & (u & Eu & Hu) &
        (d & Ed & Hd) & Hx & _ & _ & _ & _ & Hn).
  unfold header, header_bytes, attr, getattr. rewrite Eu, Ed. cbn [default].
  rewrite (rbind_ok _ _ _ (pad_field _ 24 24 eq_refl (strftime_hdate_ascii t))).
  rewrite (rbind_ok _ _ _ (pad_field "CMIP6" 32 32 eq_refl eq_refl)).
  rewrite (rbind_ok _ _ _ (pad_field _ 9 9 eq_refl Hv)).
  rewrite (rbind_ok (Ok u ≫= _) _ _ (pad_field _ 25 25 eq_refl Hu)).
  rewrite (rbind_ok (Ok d ≫= _) _ _ (pad_field _ 46 46 eq_refl Hd)).
  rewrite (rbind_ok _ _ _ (pack_f_ok f64_zero eq_refl)).
  rewrite (rbind_ok (level_float _ ≫= _) (f32 (xlvl data))).
  2:{ rewrite (rbind_ok _ _ _ (level_float_ok _ _ Hp Hlv)).
      now apply pack_f_ok. }
  rewrite (rbind_ok _ _ _ (pack_i_ok (Z.of_nat (length (da_lon data))) ltac:(nia))).
  rewrite (rbind_ok _ _ _ (pack_i_ok (Z.of_nat (length (da_lat data))) ltac:(nia))).
  rewrite (rbind_ok _ _ _ (pack_i_ok 0 ltac:(lia))).
  now rewrite !pack_s_exact by apply padded_length.
Qed.

Lemma geometry_ok (data : DataArray) (var_name : string) :
  encodable data var_name = true ->
  geometry data = Ok (geometry_bytes data).
Proof.
  intros H. apply encodable_elim in H
    as (_ & _ & _ & _ & _ & Hlat & Hlon & _ & _ & _ & _ & H0 & H1 & H2 & H3 &
        _).
  unfold geometry, geometry_bytes.
  rewrite (rbind_ok _ _ _ (pad_field "SWCORNER" 8 8 eq_refl eq_refl)).
  rewrite !(getitem_nth (da_lat data)) by lia.
  rewrite !(getitem_nth (da_lon data)) by lia.
  cbn [mbind result_bind rbind].
  fold (lat_at data 0) (lat_at data 1) (lon_at data 0) (lon_at data 1).
  rewrite (pack_f_ok _ H0), (pack_f_ok _ H1), (pack_f_ok _ H2),
    (pack_f_ok _ H3), (pack_f_ok earth_radius eq_refl).
  cbn [rbind]. now rewrite pack_s_exact by apply padded_length.
Qed.

Lemma flat_map_length_const {A B} (f : A -> list B) (k : nat) (l : list A) :
  (forall x, length (f x) = k) -> length (flat_map f l) = (k * length l)%nat.
Proof.
  intros Hf. induction l as [|x l IH]; cbn [flat_map length]; [lia|].
  rewrite length_app, Hf, IH. lia.
Qed.

Lemma slab_bytes_length (data : DataArray) :
  length (slab_bytes data) =
  (4 * length (da_lon data) * length (da_lat data))%nat.
Proof.
  unfold slab_bytes.
  rewrite (flat_map_length_const _ (4 * length (da_lon data))).
  - now rewrite length_seq.
  - intros i_lat. rewrite (flat_map_length_const _ 4).
    + now rewrite length_seq.
    + intros i_lon. reflexivity.
Qed.

Lemma nth_map_default {A B} (f : A -> B) (l : list A) (n : nat) (d : A)
    (d' : B) :
  f d = d' -> nth n (map f l) d' = f (nth n l d).
Proof. intros <-. apply map_nth. Qed.

Lemma transpose_item (n : nat) (g : grid) (i0 i1 : nat) :
  (i0 < n)%nat ->
  nth i1 (nth i0 (map (map to_f32) (transpose n g)) []) S754_nan =
  to_f32 (cell g i1 i0).
Proof.
  intros Hi. unfold cell, transpose.
  rewrite (nth_map_default (map to_f32) _ i0 [] []) by reflexivity.
  rewrite (nth_indep _ [] (map (fun r => nth O r S754_nan) g))
    by now rewrite length_map, length_seq.
  rewrite (map_nth (fun i => map (fun r => nth i r S754_nan) g)).
  rewrite seq_nth by lia. cbn [Nat.add].
  rewrite (nth_map_default to_f32 _ i1 S754_nan) by reflexivity. f_equal.
  apply (nth_map_default (fun r => nth i0 r S754_nan) g i1 []).
  now destruct i0.
Qed.

Lemma flat_map_ext_in {A B} (f g : A -> list B) (l : list A) :
  (forall x, In x l -> f x = g x) -> flat_map f l = flat_map g l.
Proof.
  induction l as [|x l IH]; intros H; [reflexivity|].
  cbn [flat_map]. rewrite (H x (or_introl eq_refl)), IH; [reflexivity|].
  intros y Hy. apply H. now right.
Qed.

Lemma tobytes_F_slab (data : DataArray) (g : grid) :
  tobytes_F
    (PArray (NdArray (length (da_lon data)) (length (da_lat data))
               (map (map to_f32) (transpose (length (da_lon data)) g)))) =
  flat_map (fun i_lat =>
    flat_map (fun i_lon => f32 (cell g i_lat i_lon))
      (seq 0 (length (da_lon data))))
    (seq 0 (length (da_lat data))).
Proof.
  cbn [tobytes_F shape0 shape1]. apply flat_map_ext. intros i_lat.
  apply flat_map_ext_in. intros i_lon Hi. apply in_seq in Hi.
  unfold item, f32. cbn [items]. rewrite transpose_item by lia. reflexivity.
Qed.

Lemma interpolate_na_ok (dim : axis) (data : DataArray) :
  strictly_increasing
    (match dim with Lat => da_lat data | Lon => da_lon data end) = true ->
  interpolate_na dim data =
  Ok (with_values data (map (map (fill_grid dim data)) (da_values data))).
Proof. unfold interpolate_na. now intros ->. Qed.

Lemma encodable_with_values (data data2 : DataArray) (var_name : string)
    (g : grid) :
  da_time data2 = da_time data -> da_plev data2 = da_plev data ->
  da_lat data2 = da_lat data -> da_lon data2 = da_lon data ->
  da_attrs data2 = da_attrs data -> da_values data2 = [[g]] ->
  encodable data var_name = true -> encodable data2 var_name = true.
Proof.
  intros Ht Hp Hlat Hlon Ha Hv.
  unfold encodable, level_readable, xlvl, lat_at, lon_at.
  rewrite Ht, Hp, Hlat, Hlon, Ha, Hv.
  destruct (da_values data) as [|[|? []] []];
    rewrite ?andb_false_r; try discriminate; auto.
Qed.

Lemma get_run (filename : string) (w : world) :
  FileInventory.get filename w = (Ok filename, snd (FileInventory.get filename w)).
Proof. unfold FileInventory.get. now destruct (decide _). Qed.

Lemma slab_ok (data : DataArray) (var_name : string) (g : grid) :
  encodable data var_name = true -> da_values data = [[g]] ->
  slab data =
  Ok (NdArray (length (da_lon data)) (length (da_lat data))
        (map (map to_f32) (transpose (length (da_lon data)) g))).
Proof.
  intros H Hg. apply encodable_elim in H as (Ht & Hp & _).
  unfold slab. now rewrite Ht, Hp, Hg.
Qed.

Lemma write_slab_ok (fp : string) (data : DataArray) (var_name : string)
    (w : world) :
  encodable data var_name = true ->
  write_fortran_record fp
    (PArray (NdArray (length (da_lon data)) (length (da_lat data))
               (map (map to_f32)
                  (transpose (length (da_lon data)) (filled data))))) w =
  (Ok tt, append_file fp (record (slab_bytes data)) w).
Proof.
  intros H. apply encodable_elim in H as (_ & _ & _ & _ & _ & _ & _ & _ & _ &
    _ & _ & _ & _ & _ & _ & Hn).
  rewrite write_fortran_record_ok by (cbn [nbytes shape0 shape1]; lia).
  rewrite tobytes_F_slab. fold (slab_bytes data). unfold record.
  rewrite slab_bytes_length. cbn [nbytes shape0 shape1].
  replace (Z.of_nat (4 * length (da_lon data) * length (da_lat data)))
    with (4 * Z.of_nat (length (da_lon data)) * Z.of_nat (length (da_lat data)))
    by lia.
  reflexivity.
Qed.

(** What a call of [to_wps_interm] on an encodable slice does. *)
Lemma to_wps_interm_ok (data : DataArray) (var_name prefix : string)
    (time : option Timestamp) (t : Timestamp) (w : world) :
  valid_time time data = Ok t ->
  encodable data var_name = true ->
  to_wps_interm data var_name prefix time w =
  (Ok tt, emit_field var_name prefix t data w).
Proof.
  intros Ht H.
  pose proof (encodable_elim _ _ H) as (_ & _ & (g & Hg) & Hlat & Hlon & _).
  unfold to_wps_interm, emit_field, emit.
  rewrite (lift_ok _ _ _ _ Ht).
  pose proof (level_of_ok data (encodable_level _ _ H)) as Hlv.
  rewrite (lift_ok _ _ _ _ Hlv).
  rewrite (bind_ok _ _ _ _ _ (get_run _ w)).
  set (fp := prefix +:+ ":" +:+ strftime_hour t).
  set (w1 := snd (FileInventory.get fp w)).
  rewrite (lift_ok _ _ _ _ (interpolate_na_ok Lat data Hlat)).
  set (v1 := map (map (fill_grid Lat data)) (da_values data)).
  rewrite (lift_ok _ _ _ _ (interpolate_na_ok Lon (with_values data v1) Hlon)).
  set (data2 := with_values (with_values data v1) _).
  assert (Hv2 : da_values data2 = [[filled data]]).
  { unfold data2, v1, filled. cbn [da_values with_values]. now rewrite Hg. }
  assert (H2 : encodable data2 var_name = true).
  { now apply (encodable_with_values data data2 var_name (filled data)). }
  rewrite (lift_ok _ _ _ _ (pack_i_ok 5 ltac:(lia))).
  rewrite (bind_ok _ _ _ _ _
             (write_fortran_record_bytes fp (be32 5) w1 ltac:(cbn; lia)
                ltac:(cbn; lia))).
  rewrite (lift_ok _ _ _ _ (header_ok data2 var_name t _ H2 Hlv)).
  rewrite (bind_ok _ _ _ _ _
             (write_fortran_record_bytes fp (header_bytes data2 var_name t) _
                ltac:(rewrite header_bytes_length; lia)
                ltac:(rewrite header_bytes_length; lia))).
  rewrite (lift_ok _ _ _ _ (geometry_ok data2 var_name H2)).
  rewrite (bind_ok _ _ _ _ _
             (write_fortran_record_bytes fp (geometry_bytes data2) _
                ltac:(rewrite geometry_bytes_length; lia)
                ltac:(rewrite geometry_bytes_length; lia))).
  rewrite (lift_ok _ _ _ _ (pack_i_ok 0 ltac:(lia))).
  rewrite (bind_ok _ _ _ _ _
             (write_fortran_record_bytes fp (be32 0) _ ltac:(cbn; lia)
                ltac:(cbn; lia))).
  rewrite (lift_ok _ _ _ _ (slab_ok data2 var_name _ H2 Hv2)).
  change (length (da_lon data2)) with (length (da_lon data)).
  change (length (da_lat data2)) with (length (da_lat data)).
  rewrite (write_slab_ok fp data var_name _ H).
  rewrite !append_file_app. unfold field_records.
  change (header_bytes data2 var_name t) with (header_bytes data var_name t).
  change (geometry_bytes data2) with (geometry_bytes data).
  reflexivity.
Qed.

Lemma firstn_app_exact {B} (a b : list B) : firstn (length a) (a ++ b) = a.
Proof.
  rewrite firstn_app, Nat.sub_diag, firstn_all. cbn [firstn].
  apply app_nil_r.
Qed.

Lemma skipn_app_exact {B} (a b : list B) (n : nat) :
  skipn (length a + n) (a ++ b) = skipn n b.
Proof.
  rewrite skipn_app, skipn_all2 by lia.
  now replace (length a + n - length a)%nat with n by lia.
Qed.

Lemma skipn_flat_map {A B} (f : A -> list B) (k n : nat) (l : list A) :
  (forall x, length (f x) = k) ->
  skipn (k * n) (flat_map f l) = flat_map f (skipn n l).
Proof.
  intros Hf. revert l. induction n as [|n IH]; intros l.
  - now rewrite Nat.mul_0_r.
  - destruct l as [|x l]; [now rewrite skipn_nil|].
    cbn [flat_map skipn]. rewrite <- IH.
    replace (k * S n)%nat with (length (f x) + k * n)%nat by (rewrite Hf; lia).
    apply skipn_app_exact.
Qed.

(** The [n]-th piece of a concatenation of pieces of [k] elements. *)
Lemma flat_map_piece {A B} (f : A -> list B) (k n : nat) (l : list A) (d : A) :
  (forall x, length (f x) = k) -> (n < length l)%nat ->
  firstn k (skipn (k * n) (flat_map f l)) = f (nth n l d).
Proof.
  intros Hf. revert n. induction l as [|x l IH]; intros n Hn.
  - cbn in Hn. lia.
  - cbn [flat_map]. destruct n as [|n].
    + rewrite Nat.mul_0_r. cbn [skipn nth]. rewrite <- (Hf x).
      apply firstn_app_exact.
    + replace (k * S n)%nat with (length (f x) + k * n)%nat
        by (rewrite Hf; lia).
      rewrite skipn_app_exact. cbn [nth]. apply IH. cbn in Hn. lia.
Qed.

Lemma firstn_skipn_app_l {B} (a b : list B) (n k : nat) :
  (n + k <= length a)%nat ->
  firstn k (skipn n (a ++ b)) = firstn k (skipn n a).
Proof.
  intros H. rewrite skipn_app, firstn_app, length_skipn.
  replace (n - length a)%nat with O by lia.
  replace (k - (length a - n))%nat with O by lia.
  cbn [firstn]. apply app_nil_r.
Qed.

Lemma grid_piece {B} (g : nat -> nat -> list B) (k nx ny i j : nat) :
  (forall a b, length (g a b) = k) -> (i < nx)%nat -> (j < ny)%nat ->
  firstn k (skipn (k * (i + nx * j))
              (flat_map (fun b => flat_map (g b) (seq 0 nx)) (seq 0 ny))) =
  g j i.
Proof.
  intros Hg Hi Hj.
  set (row := fun b => flat_map (g b) (seq 0 nx)).
  assert (Hrow : forall b, length (row b) = (k * nx)%nat).
  { intros b. unfold row. rewrite (flat_map_length_const _ k).
    - now rewrite length_seq.
    - apply Hg. }
  replace (k * (i + nx * j))%nat with (k * i + (k * nx) * j)%nat by lia.
  rewrite <- skipn_skipn.
  rewrite (skipn_flat_map row (k * nx) j _ Hrow).
  destruct (skipn j (seq 0 ny)) as [|j' r] eqn:E.
  - apply (f_equal (@length nat)) in E.
    rewrite length_skipn, length_seq in E. cbn in E. lia.
  - assert (j' = j) as ->.
    { pose proof (f_equal (fun l => nth 0 l O) E) as E'. cbn in E'.
      rewrite nth_skipn, seq_nth in E' by lia. lia. }
    cbn [flat_map]. rewrite firstn_skipn_app_l by (rewrite Hrow; nia).
    unfold row. rewrite (flat_map_piece _ k i _ O).
    + now rewrite seq_nth by lia.
    + apply Hg.
    + now rewrite length_seq.
Qed.

(** The value of longitude [i_lon] and latitude [i_lat] stands at the place
    [i_lon + NX * i_lat] of the slab. *)
Lemma slab_bytes_at (data : DataArray) (i_lon i_lat : nat) :
  (i_lon < length (da_lon data))%nat -> (i_lat < length (da_lat data))%nat ->
  firstn 4 (skipn (4 * (i_lon + length (da_lon data) * i_lat))
              (slab_bytes data)) =
  f32 (cell (filled data) i_lat i_lon).
Proof.
  intros Hi Hj. unfold slab_bytes.
  now rewrite (grid_piece (fun b a => f32 (cell (filled data) b a)) 4).
Qed.

(** ** Fields without missing values *)

Lemma map_nth_seq {A} (l : list A) (d : A) :
  map (fun i => nth i l d) (seq 0 (length l)) = l.
Proof.
  apply (nth_ext _ _ d d).
  - now rewrite length_map, length_seq.
  - intros n Hn. rewrite length_map, length_seq in Hn.
    rewrite (nth_indep _ d (nth O l d)) by now rewrite length_map, length_seq.
    rewrite (map_nth (fun i => nth i l d)), seq_nth by lia. reflexivity.
Qed.

Lemma func_interpolate_na_complete (x y : list float) :
  forallb (fun v => negb (is_nan v)) y = true -> func_interpolate_na x y = y.
Proof.
  intros H. unfold func_interpolate_na.
  assert (List.filter is_nan y = []) as ->; [|reflexivity].
  induction y as [|v y IH]; [reflexivity|].
  cbn in *. apply andb_prop in H as [Hv H].
  destruct (is_nan v); [discriminate|auto].
Qed.

Lemma transpose_transpose (g : grid) (nx : nat) :
  Forall (fun r => length r = nx) g ->
  transpose (length g) (transpose nx g) = g.
Proof.
  intros Hg. unfold transpose.
  transitivity (map (fun j => nth j g []) (seq 0 (length g)));
    [|apply map_nth_seq].
  apply map_ext_in. intros j Hj. apply in_seq in Hj. rewrite map_map.
  assert (Hr : length (nth j g []) = nx).
  { rewrite List.Forall_forall in Hg. apply Hg, nth_In. lia. }
  transitivity (map (fun i => nth i (nth j g []) S754_nan) (seq 0 nx));
    [|rewrite <- Hr; apply map_nth_seq].
  apply map_ext. intros i.
  apply (nth_map_default (fun r => nth i r S754_nan) g j []).
  now destruct i.
Qed.

(** On a full grid without missing values the two fills change nothing. *)
Lemma filled_complete (data : DataArray) (g : grid) :
  da_values data = [[g]] ->
  length g = length (da_lat data) ->
  Forall (fun r => length r = length (da_lon data)) g ->
  forallb (forallb (fun v => negb (is_nan v))) g = true ->
  filled data = g.
Proof.
  intros Hv Hny Hnx Hc. unfold filled. rewrite Hv. cbn [nth].
  assert (Hlat : fill_grid Lat data g = g).
  { unfold fill_grid. rewrite <- Hny.
    transitivity (transpose (length g) (transpose (length (da_lon data)) g));
      [|now apply transpose_transpose].
    f_equal.
    transitivity (map (fun col : list float => col)
                    (transpose (length (da_lon data)) g)); [|apply map_id].
    apply map_ext_in. intros col Hcol. apply func_interpolate_na_complete.
    unfold transpose in Hcol. apply in_map_iff in Hcol as (i & <- & Hi).
    rewrite forallb_forall in *. intros v Hin.
    apply in_map_iff in Hin as (r & <- & Hr).
    apply in_seq in Hi. rewrite List.Forall_forall in Hnx.
    specialize (Hc r Hr). rewrite forallb_forall in Hc.
    apply Hc, nth_In. specialize (Hnx r Hr). unfold float in *. lia. }
  rewrite Hlat. unfold fill_grid.
  transitivity (map (fun r : list float => r) g); [|apply map_id].
  apply map_ext_in. intros r Hr.
  apply func_interpolate_na_complete.
  rewrite forallb_forall in Hc. auto.
Qed.

(** ** What [to_wps_interm] writes *)

(** C1.  For a two-dimensional slice with its metadata, [to_wps_interm]
    appends exactly five records to the file of the valid hour, in the order
    version tag, header, grid geometry, wind flag, data slab, with the
    constants: version tag 5, forecast lead 0.0, corner label "SWCORNER",
    delta-latitude lat[1] - lat[0], delta-longitude lon[1] - lon[0], Earth
    radius 6367.47 km (the bytes 45 C6 FB C3), projection code 0 and wind
    flag 0. *)
Theorem to_wps_interm_five_records (data : DataArray)
    (var_name prefix : string) (time : option Timestamp) (t : Timestamp)
    (w : world) :
  valid_time time data = Ok t ->
  encodable data var_name = true ->
  to_wps_interm data var_name prefix time w =
  (Ok tt,
   emit (prefix +:+ ":" +:+ strftime_hour t)
     (record [x00; x00; x00; x05] ++
      record (padded (strftime_hdate t) 24 ++ [x00; x00; x00; x00] ++
              padded "CMIP6" 32 ++ padded var_name 9 ++
              padded (attr data "units") 25 ++
              padded (attr data "standard_name") 46 ++
              f32 (xlvl data) ++
              be32 (Z.of_nat (length (da_lon data))) ++
              be32 (Z.of_nat (length (da_lat data))) ++
              [x00; x00; x00; x00]) ++
      record (padded "SWCORNER" 8 ++
              f32 (lat_at data 0) ++ f32 (lon_at data 0) ++
              f32 (f64_sub (lat_at data 1) (lat_at data 0)) ++
              f32 (f64_sub (lon_at data 1) (lon_at data 0)) ++
              [x45; xc6; xfb; xc3]) ++
      record [x00; x00; x00; x00] ++
      record (slab_bytes data))
     w).
Proof.
  intros Ht H. rewrite (to_wps_interm_ok _ _ _ _ _ _ Ht H). reflexivity.
Qed.

Lemma to_wps_interm_five_records_witness :
  to_wps_interm sample_slice "TT" "CMIP6" None (World ∅ ∅) =
  (Ok tt,
   emit ("CMIP6" +:+ ":" +:+ strftime_hour sample_time)
     (record [x00; x00; x00; x05] ++
      record (padded (strftime_hdate sample_time) 24 ++ [x00; x00; x00; x00] ++
              padded "CMIP6" 32 ++ padded "TT" 9 ++
              padded (attr sample_slice "units") 25 ++
              padded (attr sample_slice "standard_name") 46 ++
              f32 (xlvl sample_slice) ++
              be32 (Z.of_nat (length (da_lon sample_slice))) ++
              be32 (Z.of_nat (length (da_lat sample_slice))) ++
              [x00; x00; x00; x00]) ++
      record (padded "SWCORNER" 8 ++
              f32 (lat_at sample_slice 0) ++ f32 (lon_at sample_slice 0) ++
              f32 (f64_sub (lat_at sample_slice 1) (lat_at sample_slice 0)) ++
              f32 (f64_sub (lon_at sample_slice 1) (lon_at sample_slice 0)) ++
              [x45; xc6; xfb; xc3]) ++
      record [x00; x00; x00; x00] ++
      record (slab_bytes sample_slice))
     (World ∅ ∅)).
Proof.
  apply (to_wps_interm_five_records sample_slice "TT" "CMIP6" None sample_time);
    reflexivity.
Defined.

(** C3 (as amended).  The fifth record holds the whole grid of NX x NY
    big-endian 4-byte floats with the longitude as the fastest-varying index:
    the value of longitude i and latitude j stands at the place i + NX * j,
    so the values of one latitude, for all longitudes, are contiguous and the
    next latitude follows them. *)
Theorem slab_longitude_fastest (data : DataArray) (var_name prefix : string)
    (time : option Timestamp) (t : Timestamp) (w : world) :
  valid_time time data = Ok t ->
  encodable data var_name = true ->
  let nx := length (da_lon data) in
  let ny := length (da_lat data) in
  to_wps_interm data var_name prefix time w =
  (Ok tt,
   emit (prefix +:+ ":" +:+ strftime_hour t)
     (record (be32 5) ++ record (header_bytes data var_name t) ++
      record (geometry_bytes data) ++ record (be32 0) ++
      record (slab_bytes data)) w) /\
  length (slab_bytes data) = (4 * nx * ny)%nat /\
  (forall i_lon i_lat : nat,
     (i_lon < nx)%nat -> (i_lat < ny)%nat ->
     firstn 4 (skipn (4 * (i_lon + nx * i_lat)) (slab_bytes data)) =
     f32_bytes (to_f32 (cell (filled data) i_lat i_lon))).
Proof.
  intros Ht H nx ny. split; [|split].
  - now rewrite (to_wps_interm_ok _ _ _ _ _ _ Ht H).
  - apply slab_bytes_length.
  - intros i_lon i_lat Hi Hj. now apply slab_bytes_at.
Qed.

Lemma slab_longitude_fastest_witness :
  let nx := length (da_lon sample_slice) in
  let ny := length (da_lat sample_slice) in
  to_wps_interm sample_slice "TT" "CMIP6" None (World ∅ ∅) =
  (Ok tt,
   emit ("CMIP6" +:+ ":" +:+ strftime_hour sample_time)
     (record (be32 5) ++ record (header_bytes sample_slice "TT" sample_time) ++
      record (geometry_bytes sample_slice) ++ record (be32 0) ++
      record (slab_bytes sample_slice)) (World ∅ ∅)) /\
  length (slab_bytes sample_slice) = (4 * nx * ny)%nat /\
  (forall i_lon i_lat : nat,
     (i_lon < nx)%nat -> (i_lat < ny)%nat ->
     firstn 4 (skipn (4 * (i_lon + nx * i_lat)) (slab_bytes sample_slice)) =
     f32_bytes (to_f32 (cell (filled sample_slice) i_lat i_lon))).
Proof.
  apply (slab_longitude_fastest sample_slice "TT" "CMIP6" None sample_time);
    reflexivity.
Defined.

(** C3, the claim as stated, fails: in the slab of the sample field the value
    of longitude 0 and latitude 0 is followed by the value of longitude 1 at
    the same latitude; the value of longitude 0 at the next latitude comes
    only after it, so the values of one longitude are not contiguous. *)
Lemma slab_not_latitude_fastest :
  (v ← slab sample_slice; Ok (tobytes_F (PArray v))) =
    Ok (f32 (cell (filled sample_slice) 0 0) ++
        f32 (cell (filled sample_slice) 0 1) ++
        f32 (cell (filled sample_slice) 1 0) ++
        f32 (cell (filled sample_slice) 1 1)) /\
  filled sample_slice =
    [ [f64_of_Z 1; f64_of_Z 2]; [f64_of_Z 3; f64_of_Z 4] ] /\
  firstn 4 (skipn 4 (slab_bytes sample_slice)) = f32 (f64_of_Z 2) /\
  f32 (f64_of_Z 2) <> f32 (f64_of_Z 3).
Proof. repeat split; try reflexivity. discriminate. Qed.

(** C9 (as amended).  No check of the spacing is made: for every slice the
    encoder accepts, uniformly spaced or not, [to_wps_interm] raises nothing
    and the geometry record it writes carries the one delta per axis taken
    from the first two coordinate values, lat[1] - lat[0] and
    lon[1] - lon[0]. *)
Theorem geometry_from_first_two_points (data : DataArray)
    (var_name prefix : string) (time : option Timestamp) (t : Timestamp)
    (w : world) :
  valid_time time data = Ok t ->
  encodable data var_name = true ->
  to_wps_interm data var_name prefix time w =
    (Ok tt, emit_field var_name prefix t data w) /\
  field_records data var_name t =
    (record (be32 5) ++ record (header_bytes data var_name t)) ++
    record (padded "SWCORNER" 8 ++
            f32 (nth 0 (da_lat data) S754_nan) ++
            f32 (nth 0 (da_lon data) S754_nan) ++
            f32 (f64_sub (nth 1 (da_lat data) S754_nan)
                         (nth 0 (da_lat data) S754_nan)) ++
            f32 (f64_sub (nth 1 (da_lon data) S754_nan)
                         (nth 0 (da_lon data) S754_nan)) ++
            f32 earth_radius) ++
    (record (be32 0) ++ record (slab_bytes data)).
Proof.
  intros Ht H. split.
  - now apply to_wps_interm_ok.
  - unfold field_records. now rewrite <- !app_assoc.
Qed.

Lemma geometry_from_first_two_points_witness :
  to_wps_interm sample_irregular "TT" "CMIP6" None (World ∅ ∅) =
    (Ok tt, emit_field "TT" "CMIP6" sample_time sample_irregular (World ∅ ∅)) /\
  field_records sample_irregular "TT" sample_time =
    (record (be32 5) ++ record (header_bytes sample_irregular "TT" sample_time)) ++
    record (padded "SWCORNER" 8 ++
            f32 (nth 0 (da_lat sample_irregular) S754_nan) ++
            f32 (nth 0 (da_lon sample_irregular) S754_nan) ++
            f32 (f64_sub (nth 1 (da_lat sample_irregular) S754_nan)
                         (nth 0 (da_lat sample_irregular) S754_nan)) ++
            f32 (f64_sub (nth 1 (da_lon sample_irregular) S754_nan)
                         (nth 0 (da_lon sample_irregular) S754_nan)) ++
            f32 earth_radius) ++
    (record (be32 0) ++ record (slab_bytes sample_irregular)).
Proof.
  apply (geometry_from_first_two_points sample_irregular "TT" "CMIP6" None
           sample_time); reflexivity.
Defined.

(** C9, the claim as stated, fails: the latitudes 0, 1 and 3 are not
    uniformly spaced (the second step is 2, the first 1), and the field is
    encoded all the same, with the delta-latitude 1. *)
Lemma irregular_grid_is_encoded :
  da_lat sample_irregular = [f64_of_Z 0; f64_of_Z 1; f64_of_Z 3] /\
  f64_sub (f64_of_Z 1) (f64_of_Z 0) = f64_of_Z 1 /\
  f64_sub (f64_of_Z 3) (f64_of_Z 1) = f64_of_Z 2 /\
  fst (to_wps_interm sample_irregular "TT" "CMIP6" None (World ∅ ∅)) = Ok tt /\
  geometry sample_irregular =
    Ok (padded "SWCORNER" 8 ++ f32 (f64_of_Z 0) ++ f32 (f64_of_Z 10) ++
        f32 (f64_of_Z 1) ++ f32 (f64_of_Z 2) ++ f32 earth_radius).
Proof. repeat split; vm_compute; reflexivity. Qed.

Lemma skipn_app_len {B} (a b : list B) (n m : nat) :
  length a = n -> skipn (n + m) (a ++ b) = skipn m b.
Proof. intros <-. apply skipn_app_exact. Qed.

(** C10 (as amended).  For a slice the encoder accepts, without a
    pressure-level coordinate and without an attribute named plev, the
    vertical level of the header record, the four bytes after the 140 bytes
    of the date, the forecast lead and the four texts, is the surface value
    200100 as a big-endian float (48 43 69 00). *)
Theorem surface_level_sentinel (data : DataArray) (var_name prefix : string)
    (time : option Timestamp) (t : Timestamp) (w : world) :
  valid_time time data = Ok t ->
  encodable data var_name = true ->
  da_plev data = NoCoord ->
  da_attrs data !! "plev" = None ->
  let hdr :=
    padded (strftime_hdate t) 24 ++ f32 f64_zero ++ padded "CMIP6" 32 ++
    padded var_name 9 ++ padded (attr data "units") 25 ++
    padded (attr data "standard_name") 46 ++
    f32 (f64_of_Z 200100) ++
    be32 (Z.of_nat (length (da_lon data))) ++
    be32 (Z.of_nat (length (da_lat data))) ++ be32 0 in
  to_wps_interm data var_name prefix time w =
    (Ok tt,
     emit (prefix +:+ ":" +:+ strftime_hour t)
       (record (be32 5) ++ record hdr ++ record (geometry_bytes data) ++
        record (be32 0) ++ record (slab_bytes data)) w) /\
  firstn 4 (skipn 140 hdr) = f32 (f64_of_Z 200100) /\
  f32 (f64_of_Z 200100) = [x48; x43; x69; x00].
Proof.
  intros Ht H Hp _ hdr. split; [|split].
  - rewrite (to_wps_interm_ok _ _ _ _ _ _ Ht H).
    unfold emit_field, field_records, header_bytes, xlvl. now rewrite Hp.
  - unfold hdr.
    change 140%nat with (24 + (4 + (32 + (9 + (25 + (46 + 0))))))%nat.
    rewrite (skipn_app_len _ _ 24) by apply padded_length.
    rewrite (skipn_app_len _ _ 4) by reflexivity.
    rewrite (skipn_app_len _ _ 32) by apply padded_length.
    rewrite (skipn_app_len _ _ 9) by apply padded_length.
    rewrite (skipn_app_len _ _ 25) by apply padded_length.
    rewrite (skipn_app_len _ _ 46) by apply padded_length.
    reflexivity.
  - reflexivity.
Qed.

Lemma surface_level_sentinel_witness :
  let hdr :=
    padded (strftime_hdate sample_time) 24 ++ f32 f64_zero ++
    padded "CMIP6" 32 ++
    padded "TT" 9 ++ padded (attr sample_slice "units") 25 ++
    padded (attr sample_slice "standard_name") 46 ++
    f32 (f64_of_Z 200100) ++
    be32 (Z.of_nat (length (da_lon sample_slice))) ++
    be32 (Z.of_nat (length (da_lat sample_slice))) ++ be32 0 in
  to_wps_interm sample_slice "TT" "CMIP6" None (World ∅ ∅) =
    (Ok tt,
     emit ("CMIP6" +:+ ":" +:+ strftime_hour sample_time)
       (record (be32 5) ++ record hdr ++ record (geometry_bytes sample_slice) ++
        record (be32 0) ++ record (slab_bytes sample_slice)) (World ∅ ∅)) /\
  firstn 4 (skipn 140 hdr) = f32 (f64_of_Z 200100) /\
  f32 (f64_of_Z 200100) = [x48; x43; x69; x00].
Proof.
  apply (surface_level_sentinel sample_slice "TT" "CMIP6" None sample_time);
    reflexivity.
Defined.

(** C10, the claim as stated, fails: a slice without a level coordinate may
    carry an attribute named plev.  [hasattr(data, "plev")] finds it, the
    read of [data.plev.values] raises AttributeError, and no header is
    written: no file is even opened.  Without the attribute the same slice
    is encoded. *)
Lemma plev_attribute_is_taken_for_a_level :
  da_plev sample_plev_attr = NoCoord /\
  da_attrs sample_plev_attr !! "plev" = Some "surface"%string /\
  to_wps_interm sample_plev_attr "TT" "CMIP6" None (World ∅ ∅) =
    (Raise (AttributeError "values"), World ∅ ∅) /\
  to_wps_interm sample_slice "TT" "CMIP6" None (World ∅ ∅) =
    (Ok tt, emit_field "TT" "CMIP6" sample_time sample_slice (World ∅ ∅)).
Proof. repeat split; vm_compute; reflexivity. Qed.

(** ** The fan-out over times and levels *)

Lemma nth_error_nth_lt {A} (l : list A) (i : nat) (d : A) :
  (i < length l)%nat -> nth_error l i = Some (nth i l d).
Proof.
  intros Hi. destruct (nth_error l i) as [x|] eqn:E.
  - now rewrite (nth_error_nth _ _ _ E).
  - apply nth_error_None in E. lia.
Qed.

Lemma isel_time_plev_ok (data : DataArray) (ts : list Timestamp)
    (ps : list float) (i j : nat) :
  da_time data = DimCoord ts -> da_plev data = DimCoord ps ->
  full_shape data = true ->
  (i < length ts)%nat -> (j < length ps)%nat ->
  isel_time_plev i j data = Ok (slice_at data i j).
Proof.
  intros Ht Hp Hs Hi Hj. unfold full_shape in Hs.
  rewrite Ht, Hp in Hs. cbn [dim_len] in Hs.
  apply andb_prop in Hs as [Hlen Hall]. apply Nat.eqb_eq in Hlen.
  rewrite forallb_forall in Hall.
  assert (Hv : (length (nth i (da_values data) []) = length ps)%nat).
  { apply Nat.eqb_eq, Hall, nth_In. lia. }
  unfold isel_time_plev, isel_time, slice_at. rewrite Ht, Hp.
  rewrite (nth_error_nth_lt ts i 0) by lia.
  rewrite (nth_error_nth_lt (da_values data) i []) by lia.
  cbn [mbind result_bind rbind]. unfold isel_plev. cbn [da_plev].
  rewrite (nth_error_nth_lt ps j S754_nan) by lia.
  cbn [mbind result_bind rbind da_values mapM].
  rewrite (nth_error_nth_lt (nth i (da_values data) []) j []) by lia.
  reflexivity.
Qed.

Lemma fold_left_flat_map {A B W} (step : W -> B -> W) (g : A -> list B)
    (l : list A) (w : W) :
  fold_left step (flat_map g l) w =
  fold_left (fun w' x => fold_left step (g x) w') l w.
Proof.
  revert w. induction l as [|x l IH]; intros w; [reflexivity|].
  cbn [flat_map fold_left]. now rewrite fold_left_app, IH.
Qed.

Lemma fold_left_map' {A B W} (step : W -> B -> W) (h : A -> B) (l : list A)
    (w : W) :
  fold_left step (map h l) w = fold_left (fun w' x => step w' (h x)) l w.
Proof.
  revert w. induction l as [|x l IH]; intros w; [reflexivity|].
  cbn [map fold_left]. apply IH.
Qed.

Lemma time_major_length (T M : nat) : length (time_major T M) = (T * M)%nat.
Proof.
  unfold time_major. rewrite (flat_map_length_const _ M).
  - rewrite length_seq. lia.
  - intros i. now rewrite length_map, length_seq.
Qed.

Lemma time_major_nth (T M i j : nat) :
  (i < T)%nat -> (j < M)%nat ->
  nth (i * M + j) (time_major T M) (O, O) = (i, j).
Proof.
  intros Hi Hj. unfold time_major.
  set (f := fun i_time => map (fun i_plev => (i_time, i_plev)) (seq 0 M)).
  assert (Hf : forall x, length (f x) = M)
    by (intros x; unfold f; now rewrite length_map, length_seq).
  rewrite <- nth_skipn, Nat.mul_comm, (skipn_flat_map f M i _ Hf).
  rewrite skipn_seq. replace (T - i)%nat with (S (T - i - 1)) by lia.
  cbn [seq flat_map Nat.add]. rewrite app_nth1 by (rewrite Hf; lia).
  unfold f. rewrite (nth_indep _ (O, O) (i, O))
    by now rewrite length_map, length_seq.
  rewrite (nth_map_default (fun i_plev => (i, i_plev)) _ j O)
    by reflexivity.
  now rewrite seq_nth.
Qed.

Lemma time_major_In (T M i j : nat) :
  (i < T)%nat -> (j < M)%nat -> In (i, j) (time_major T M).
Proof.
  intros Hi Hj. unfold time_major. apply in_flat_map. exists i. split.
  - apply in_seq. lia.
  - apply in_map, in_seq. lia.
Qed.

(** C6.  For a mapped variable with a time axis of T stamps and a level axis
    of M levels, all of whose slices can be encoded, the pipeline emits
    exactly T x M fields, time by time and within a time level by level: the
    field of time i and level j is the one of rank i * M + j, and each goes
    to the file of its time after the fields emitted before it. *)
Theorem fan_out_time_major (ds : Dataset) (start_date end_date interval : Z)
    (prefix : string) (data : DataArray) (var_conf : VarConf)
    (axis ts : list Timestamp) (ps : list float) (w : world) :
  ds_time ds = Some axis ->
  da_time data = DimCoord ts ->
  da_plev data = DimCoord ps ->
  full_shape data = true ->
  forallb (fun ij => encodable (slice_at data ij.1 ij.2) (wps_name var_conf))
          (time_major (length ts) (length ps)) = true ->
  let T := length ts in
  let M := length ps in
  emit_fields ds start_date end_date interval prefix data var_conf w =
    (Ok tt,
     fold_left
       (fun w' ij =>
          emit_field (wps_name var_conf) prefix (nth ij.1 ts 0)
            (slice_at data ij.1 ij.2) w')
       (time_major T M) w) /\
  length (time_major T M) = (T * M)%nat /\
  (forall i j : nat,
     (i < T)%nat -> (j < M)%nat ->
     nth (i * M + j) (time_major T M) (O, O) = (i, j)).
Proof.
  intros Hds Ht Hp Hs Hall T M. split; [|split].
  - unfold emit_fields. rewrite Hds, Ht, Hp.
    rewrite forallb_forall in Hall.
    cbn [is_dim coord_len].
    rewrite (bind_ok _ _ w w tt) by now destruct (ds_plev_dim ds).
    rewrite (lift_ok _ _ _ _ eq_refl).
    unfold time_major. rewrite fold_left_flat_map.
    apply forM__fold. intros i w1 Hi. apply in_seq in Hi.
    rewrite (lift_ok _ _ _ _ eq_refl).
    rewrite fold_left_map'. apply forM__fold. intros j w2 Hj.
    apply in_seq in Hj.
    rewrite (lift_ok _ _ _ _
               (isel_time_plev_ok data ts ps i j Ht Hp Hs ltac:(lia) ltac:(lia))).
    apply to_wps_interm_ok.
    + unfold valid_time, timestamp_of, slice_at. cbn [da_time]. now rewrite Ht.
    + apply (Hall (i, j)). apply time_major_In; lia.
  - apply time_major_length.
  - intros i j. apply time_major_nth.
Qed.

(** ** Dates to the hour *)

Lemma civil_parts (days : Z) :
  exists era yoe doy mp : Z,
    0 <= yoe <= 399 /\ 0 <= doy <= 365 /\ 0 <= mp <= 11 /\
    153 * mp <= 5 * doy + 2 < 153 * mp + 153 /\
    days + 719468 = era * 146097 + 365 * yoe + yoe / 4 - yoe / 100 + doy /\
    civil_from_days days =
      (yoe + era * 400 + (if mp <? 10 then 0 else 1),
       (if mp <? 10 then mp + 3 else mp - 9),
       doy - (153 * mp + 2) / 5 + 1).
Proof.
  unfold civil_from_days. cbv zeta.
  set (z := days + 719468).
  set (era := z / 146097).
  set (doe := z - era * 146097).
  assert (Hdoe : 0 <= doe < 146097)
    by (unfold doe, era; Z.div_mod_to_equations; lia).
  set (yoe := (doe - doe / 1460 + doe / 36524 - doe / 146096) / 365).
  set (doy := doe - (365 * yoe + yoe / 4 - yoe / 100)).
  assert (Hb : 0 <= yoe <= 399 /\ 0 <= doy <= 365)
    by (unfold doy, yoe; Z.div_mod_to_equations; lia).
  set (mp := (5 * doy + 2) / 153).
  assert (Hmp : 0 <= mp <= 11 /\ 153 * mp <= 5 * doy + 2 < 153 * mp + 153)
    by (unfold mp; Z.div_mod_to_equations; lia).
  exists era, yoe, doy, mp. repeat split; try lia.
  destruct (Z.ltb_spec mp 10).
  - destruct (Z.leb_spec (mp + 3) 2); [lia|reflexivity].
  - destruct (Z.leb_spec (mp - 9) 2); [reflexivity|lia].
Qed.

Lemma civil_from_days_inj (z1 z2 : Z) :
  civil_from_days z1 = civil_from_days z2 -> z1 = z2.
Proof.
  destruct (civil_parts z1) as (e1 & y1 & d1 & m1 & Hy1 & Hd1 & Hm1 & Hq1 & E1 & ->).
  destruct (civil_parts z2) as (e2 & y2 & d2 & m2 & Hy2 & Hd2 & Hm2 & Hq2 & E2 & ->).
  intros [= Hy Hm Hd].
  assert (m1 = m2) as <-.
  { destruct (Z.ltb_spec m1 10), (Z.ltb_spec m2 10); lia. }
  assert (d1 = d2) as <- by lia.
  assert (y1 = y2 /\ e1 = e2) as [<- <-] by lia.
  lia.
Qed.

Lemma civil_bounds (days : Z) :
  612716 <= days + 719468 < 826220 ->
  let '(y, m, d) := civil_from_days days in
  0 <= y < 10000 /\ 1 <= m <= 12 /\ 1 <= d <= 31.
Proof.
  intros Hr.
  destruct (civil_parts days) as (e & y & d & m & Hy & Hd & Hm & Hq & E & ->).
  assert (4 <= e <= 5) by (Z.div_mod_to_equations; lia).
  repeat split; try (destruct (Z.ltb_spec m 10); lia);
    Z.div_mod_to_equations; lia.
Qed.

Lemma digit_inj (a b : Z) : digit a = digit b -> a mod 10 = b mod 10.
Proof.
  unfold digit. intros H. apply (f_equal N_of_ascii) in H.
  assert (0 <= a mod 10 < 10) by (apply Z.mod_pos_bound; lia).
  assert (0 <= b mod 10 < 10) by (apply Z.mod_pos_bound; lia).
  rewrite !N_ascii_embedding in H by lia. lia.
Qed.

Lemma digits2_inj (a b : Z) :
  0 <= a < 100 -> 0 <= b < 100 -> digits2 a = digits2 b -> a = b.
Proof.
  unfold digits2. intros Ha Hb [= H1 H2].
  apply digit_inj in H1, H2. Z.div_mod_to_equations. lia.
Qed.

Lemma digits4_inj (a b : Z) :
  0 <= a < 10000 -> 0 <= b < 10000 -> digits4 a = digits4 b -> a = b.
Proof.
  unfold digits4, digits2. intros Ha Hb [= H1 H2 H3 H4].
  apply digit_inj in H1, H2, H3, H4. Z.div_mod_to_equations. lia.
Qed.

Lemma hour_split (t : Z) :
  t / ns_per_hour = 24 * (t / ns_per_day) + (t mod ns_per_day) / ns_per_hour /\
  0 <= (t mod ns_per_day) / ns_per_hour < 24.
Proof.
  change ns_per_day with 86400000000000.
  change ns_per_hour with 3600000000000.
  Z.div_mod_to_equations. lia.
Qed.

Lemma strftime_hour_same (t1 t2 : Timestamp) :
  t1 / ns_per_hour = t2 / ns_per_hour -> strftime_hour t1 = strftime_hour t2.
Proof.
  intros H. unfold strftime_hour.
  assert (t1 / ns_per_day = t2 / ns_per_day /\
          (t1 mod ns_per_day) / ns_per_hour = (t2 mod ns_per_day) / ns_per_hour)
    as [-> ->]; [|reflexivity].
  revert H. change ns_per_day with 86400000000000.
  change ns_per_hour with 3600000000000.
  intros H. Z.div_mod_to_equations. lia.
Qed.

Lemma string_app_inv_head (a b1 b2 : string) :
  a +:+ b1 = a +:+ b2 -> b1 = b2.
Proof. induction a as [|c a IH]; cbn; [auto|]. intros [= H]. auto. Qed.

Lemma days_in_range (t : Timestamp) :
  - 2 ^ 63 <= t < 2 ^ 63 -> 612716 <= t / ns_per_day + 719468 < 826220.
Proof.
  change ns_per_day with 86400000000000.
  change (2 ^ 63) with 9223372036854775808.
  intros Ht. Z.div_mod_to_equations. lia.
Qed.

Lemma strftime_hour_inj (t1 t2 : Timestamp) :
  - 2 ^ 63 <= t1 < 2 ^ 63 -> - 2 ^ 63 <= t2 < 2 ^ 63 ->
  strftime_hour t1 = strftime_hour t2 ->
  t1 / ns_per_hour = t2 / ns_per_hour.
Proof.
  intros Hr1 Hr2 H.
  pose proof (civil_bounds _ (days_in_range t1 Hr1)) as B1.
  pose proof (civil_bounds _ (days_in_range t2 Hr2)) as B2.
  pose proof (civil_from_days_inj (t1 / ns_per_day) (t2 / ns_per_day)) as Hinj.
  destruct (hour_split t1) as [-> Hh1], (hour_split t2) as [-> Hh2].
  unfold strftime_hour in H. clear Hr1 Hr2.
  set (h1 := (t1 mod ns_per_day) / ns_per_hour) in *.
  set (h2 := (t2 mod ns_per_day) / ns_per_hour) in *.
  set (days1 := t1 / ns_per_day) in *.
  set (days2 := t2 / ns_per_day) in *.
  clearbody h1 h2 days1 days2.
  destruct (civil_from_days days1) as [[y1 m1] d1].
  destruct (civil_from_days days2) as [[y2 m2] d2].
  unfold digits4, digits2 in H. cbn in H.
  injection H as Y1 Y2 Y3 Y4 M1 M2 D1 D2 H1 H2.
  assert (y1 = y2)
    by (apply digits4_inj; unfold digits4, digits2; try lia; congruence).
  assert (m1 = m2)
    by (apply digits2_inj; unfold digits2; try lia; congruence).
  assert (d1 = d2)
    by (apply digits2_inj; unfold digits2; try lia; congruence).
  assert (h1 = h2)
    by (apply digits2_inj; unfold digits2; try lia; congruence).
  rewrite (Hinj ltac:(congruence)). congruence.
Qed.

Lemma chars_inj (s1 s2 : string) : chars s1 = chars s2 -> s1 = s2.
Proof.
  unfold chars. intros H.
  rewrite <- (string_of_list_ascii_of_string s1),
          <- (string_of_list_ascii_of_string s2).
  now rewrite H.
Qed.

Lemma strftime_hour_length (t : Timestamp) :
  length (chars (strftime_hour t)) = 13%nat.
Proof.
  unfold strftime_hour. destruct (civil_from_days _) as [[y m] d].
  reflexivity.
Qed.

Lemma padded_inj (s1 s2 : string) (n : nat) :
  length (chars s1) = length (chars s2) ->
  (length (chars s1) <= n)%nat ->
  padded s1 n = padded s2 n -> s1 = s2.
Proof.
  unfold padded. intros Hlen Hn H.
  rewrite !firstn_all2, <- Hlen in H by lia.
  apply app_inv_tail in H.
  apply chars_inj.
  apply (f_equal (map ascii_of_byte)) in H.
  rewrite !map_map in H.
  rewrite !(map_ext _ (fun c => c) ascii_of_byte_of_ascii), !map_id in H.
  exact H.
Qed.

(** Two stamps give the same date text exactly when they fall in the same
    hour. *)
Lemma hdate_field_same_hour (t1 t2 : Timestamp) (rest : list byte) :
  - 2 ^ 63 <= t1 < 2 ^ 63 -> - 2 ^ 63 <= t2 < 2 ^ 63 ->
  padded (strftime_hour t1 +:+ ":00:00") 24 ++ rest =
  padded (strftime_hour t2 +:+ ":00:00") 24 ++ rest <->
  t1 / ns_per_hour = t2 / ns_per_hour.
Proof.
  intros Hr1 Hr2. split.
  - intros H. apply app_inv_tail in H. apply strftime_hour_inj; auto.
    apply padded_inj in H.
    + apply (f_equal chars) in H. rewrite !chars_append in H.
      apply app_inv_tail in H. now apply chars_inj.
    + now rewrite !chars_append, !length_app, !strftime_hour_length.
    + rewrite chars_append, length_app, strftime_hour_length. cbn. lia.
  - intros H. now rewrite (strftime_hour_same t1 t2 H).
Qed.

(** With a positive interval and a start not after the end, the range holds
    the stamps [start + k * interval] that do not pass the end. *)
Lemma date_range_positive (start end_ interval : Z) :
  0 < interval -> start <= end_ ->
  date_range start end_ interval =
  Ok (map (fun k => start + Z.of_nat k * interval)
        (seq 0 (Z.to_nat ((end_ - start) / interval) + 1))).
Proof.
  intros Hi Hse. unfold date_range, arange.
  destruct (Z.eqb_spec interval 0); [lia|]. do 3 f_equal.
  set (q := (end_ - start) / interval).
  assert (Hq : 0 <= q) by (apply Z.div_pos; lia).
  assert (Hh : 0 <= interval / 2 /\ interval / 2 + 1 <= interval)
    by (Z.div_mod_to_equations; lia).
  replace (start - (start + q * interval + interval / 2 + 1))
    with (- (interval / 2 + 1) + (- q) * interval) by lia.
  rewrite Z.div_add by lia.
  assert (- (interval / 2 + 1) / interval = -1) as ->.
  { symmetry. apply (Z.div_unique_pos _ _ _ (interval - (interval / 2 + 1)));
      lia. }
  lia.
Qed.

Lemma fan_out_time_major_witness :
  let ts := [sample_time; sample_time + 6 * ns_per_hour] in
  let T := length ts in
  let M := length [f64_of_Z 85000; f64_of_Z 50000] in
  emit_fields sample_cube_ds sample_time (sample_time + 6 * ns_per_hour)
    (6 * ns_per_hour) "CMIP6" sample_cube row_TT (World ∅ ∅) =
    (Ok tt,
     fold_left
       (fun w' ij =>
          emit_field (wps_name row_TT) "CMIP6" (nth ij.1 ts 0)
            (slice_at sample_cube ij.1 ij.2) w')
       (time_major T M) (World ∅ ∅)) /\
  length (time_major T M) = (T * M)%nat /\
  (forall i j : nat,
     (i < T)%nat -> (j < M)%nat ->
     nth (i * M + j) (time_major T M) (O, O) = (i, j)).
Proof.
  apply (fan_out_time_major sample_cube_ds sample_time
           (sample_time + 6 * ns_per_hour) (6 * ns_per_hour) "CMIP6"
           sample_cube row_TT
           [sample_time; sample_time + 6 * ns_per_hour]
           [sample_time; sample_time + 6 * ns_per_hour]
           [f64_of_Z 85000; f64_of_Z 50000] (World ∅ ∅));
    reflexivity.
Defined.

(** ** Static fields *)

(** C7 (as amended).  For a mapped variable of a dataset without a time
    dimension, when the requested range gives the stamps t1 ... tK, exactly K
    fields are emitted, one per stamp and in their order; all carry the same
    slab and the same geometry, and the header of each carries the date of
    its own stamp cut to the hour.  The headers of two stamps are distinct
    when the stamps fall in different hours, and equal when they fall in the
    same hour. *)
Theorem static_field_per_stamp (ds : Dataset)
    (start_date end_date interval : Z) (prefix : string) (data : DataArray)
    (var_conf : VarConf) (stamps : list Timestamp) (w : world) :
  ds_time ds = None ->
  date_range start_date end_date interval = Ok stamps ->
  encodable data (wps_name var_conf) = true ->
  let header_rest :=
    f32 f64_zero ++ padded "CMIP6" 32 ++ padded (wps_name var_conf) 9 ++
    padded (attr data "units") 25 ++ padded (attr data "standard_name") 46 ++
    f32 (xlvl data) ++
    be32 (Z.of_nat (length (da_lon data))) ++
    be32 (Z.of_nat (length (da_lat data))) ++ be32 0 in
  let header_of t := padded (strftime_hour t +:+ ":00:00") 24 ++ header_rest in
  emit_fields ds start_date end_date interval prefix data var_conf w =
  (Ok tt,
   fold_left
     (fun w' t =>
        emit (prefix +:+ ":" +:+ strftime_hour t)
          (record (be32 5) ++ record (header_of t) ++
           record (geometry_bytes data) ++ record (be32 0) ++
           record (slab_bytes data)) w')
     stamps w) /\
  (forall t1 t2 : Timestamp,
     - 2 ^ 63 <= t1 < 2 ^ 63 -> - 2 ^ 63 <= t2 < 2 ^ 63 ->
     header_of t1 = header_of t2 <-> t1 / ns_per_hour = t2 / ns_per_hour).
Proof.
  intros Hds Hr H header_rest header_of. split.
  - unfold emit_fields. rewrite Hds.
    rewrite (lift_ok _ _ _ _ Hr). apply forM__fold. intros t w' _.
    now rewrite (to_wps_interm_ok data _ prefix (Some t) t w' eq_refl H).
  - intros t1 t2. apply hdate_field_same_hour.
Qed.

Lemma static_field_per_stamp_witness :
  let data := sample_static in
  let header_rest :=
    f32 f64_zero ++ padded "CMIP6" 32 ++ padded (wps_name row_TT) 9 ++
    padded (attr data "units") 25 ++ padded (attr data "standard_name") 46 ++
    f32 (xlvl data) ++
    be32 (Z.of_nat (length (da_lon data))) ++
    be32 (Z.of_nat (length (da_lat data))) ++ be32 0 in
  let header_of t := padded (strftime_hour t +:+ ":00:00") 24 ++ header_rest in
  emit_fields sample_static_ds sample_time (sample_time + 12 * ns_per_hour)
    (6 * ns_per_hour) "CMIP6" data row_TT (World ∅ ∅) =
  (Ok tt,
   fold_left
     (fun w' t =>
        emit ("CMIP6" +:+ ":" +:+ strftime_hour t)
          (record (be32 5) ++ record (header_of t) ++
           record (geometry_bytes data) ++ record (be32 0) ++
           record (slab_bytes data)) w')
     [sample_time; sample_time + 6 * ns_per_hour;
      sample_time + 12 * ns_per_hour] (World ∅ ∅)) /\
  (forall t1 t2 : Timestamp,
     - 2 ^ 63 <= t1 < 2 ^ 63 -> - 2 ^ 63 <= t2 < 2 ^ 63 ->
     header_of t1 = header_of t2 <-> t1 / ns_per_hour = t2 / ns_per_hour).
Proof.
  apply (static_field_per_stamp sample_static_ds sample_time
           (sample_time + 12 * ns_per_hour) (6 * ns_per_hour) "CMIP6"
           sample_static row_TT); reflexivity.
Defined.

(** C7, the claim as stated, fails: half an hour apart, the first two of the
    three stamps of the range fall in the same hour; their headers are equal
    and both fields go, one after the other, to the file of that hour. *)
Lemma static_stamps_share_a_header :
  let t0 := sample_time in
  let t1 := sample_time + ns_per_hour / 2 in
  let t2 := sample_time + ns_per_hour in
  date_range t0 t2 (ns_per_hour / 2) = Ok [t0; t1; t2] /\
  (t0 =? t1) = false /\
  (level_of sample_static ≫= header sample_static "TT" t0) =
    Ok (header_bytes sample_static "TT" t0) /\
  (level_of sample_static ≫= header sample_static "TT" t1) =
    Ok (header_bytes sample_static "TT" t0) /\
  fs (snd (emit_fields sample_static_ds t0 t2 (ns_per_hour / 2) "CMIP6"
             sample_static row_TT (World ∅ ∅)))
    !! "CMIP6:2000-01-01_00" =
  Some (field_records sample_static "TT" t0 ++
        field_records sample_static "TT" t0).
Proof. repeat split; vm_compute; reflexivity. Qed.

(** ** Units and scales *)

Lemma forM__raise {A} (body : A -> IO unit) (l1 l2 : list A) (x : A)
    (e : exn) (w w1 w2 : world) :
  forM_ body l1 w = (Ok tt, w1) ->
  body x w1 = (Raise e, w2) ->
  forM_ body (l1 ++ x :: l2) w = (Raise e, w2).
Proof.
  intros H1 Hx. rewrite forM__app, (bind_ok _ _ _ _ _ H1).
  cbn [forM_]. now rewrite (bind_raise _ _ _ _ _ Hx).
Qed.

Lemma foldM_raise {A S} (body : S -> A -> IO S) (l1 l2 : list A) (x : A)
    (s s1 : S) (e : exn) (w w1 w2 : world) :
  foldM body s l1 w = (Ok s1, w1) ->
  body s1 x w1 = (Raise e, w2) ->
  foldM body s (l1 ++ x :: l2) w = (Raise e, w2).
Proof.
  intros H1 Hx. rewrite foldM_app, (bind_ok _ _ _ _ _ H1).
  cbn [foldM]. now rewrite (bind_raise _ _ _ _ _ Hx).
Qed.

(** A row whose unit does not match raises before anything is written. *)
Lemma convert_row_mismatch (ds : Dataset) (start_date end_date interval : Z)
    (prefix : string) (data : DataArray) (var_conf : VarConf) (u : string)
    (w : world) :
  attrs_getitem (apply_scale data var_conf) "units" = Ok u ->
  u <> units var_conf ->
  convert_row ds start_date end_date interval prefix data var_conf w =
  (Raise (ValueError "Units mismatch"), w).
Proof.
  intros Hu Hne. unfold convert_row. rewrite (lift_ok _ _ _ _ Hu).
  now destruct (decide (u ≠ units var_conf)).
Qed.

(** The array a row hands to the next one is the scaled one. *)
Lemma convert_row_returns (ds : Dataset) (start_date end_date interval : Z)
    (prefix : string) (data data' : DataArray) (var_conf : VarConf)
    (w w' : world) :
  convert_row ds start_date end_date interval prefix data var_conf w =
    (Ok data', w') ->
  data' = apply_scale data var_conf.
Proof.
  unfold convert_row. rewrite bind_run. unfold lift.
  destruct (attrs_getitem _ _) as [u|e]; [|discriminate].
  destruct (decide _); [discriminate|]. rewrite bind_run.
  destruct (emit_fields _ _ _ _ _ _ _ _) as [[[]|e] w1]; [|discriminate].
  now intros [= <- _].
Qed.

(** A finite scale rewrites the unit and nothing else of the attributes. *)
Lemma apply_scale_attrs (data : DataArray) (var_conf : VarConf) :
  is_finite (scale var_conf) = true ->
  da_attrs (apply_scale data var_conf) !! "units" = Some (units var_conf) /\
  forall key, key <> "units" ->
    da_attrs (apply_scale data var_conf) !! key = da_attrs data !! key.
Proof.
  intros Hf. unfold apply_scale. rewrite Hf. cbn [set_attr da_attrs da_mul with_values].
  split; [apply lookup_insert_eq|].
  intros key Hk. now apply lookup_insert_ne.
Qed.

(** C5.  When, after the scale of a mapping row is applied, the unit of the
    variable differs from the unit the row declares, a units-mismatch error
    is raised before any record for that variable and row is written: the
    files are as the rows, variables and datasets before left them, nothing
    after is processed, and the run ends with that error. *)
Theorem units_mismatch_aborts_run (model_conf : list VarConf)
    (start_date end_date interval : Z) (prefix : string)
    (files_before files_after : list Dataset) (nc_file ds : Dataset)
    (vars_before vars_after : list (string * DataArray))
    (var_name : string) (data0 data : DataArray)
    (rows_before rows_after : list VarConf) (row : VarConf) (u : string)
    (w w1 w2 w3 : world) :
  forM_ (fun f => convert_single_file f model_conf start_date end_date
                    interval prefix)
        files_before (World ∅ (fs w)) = (Ok tt, w1) ->
  select_times nc_file start_date end_date interval = Ok (Some ds) ->
  ds_variables ds = vars_before ++ (var_name, data0) :: vars_after ->
  forM_ (convert_variable ds model_conf start_date end_date interval prefix)
        vars_before w1 = (Ok tt, w2) ->
  out_vars model_conf var_name = rows_before ++ row :: rows_after ->
  foldM (convert_row ds start_date end_date interval prefix)
        data0 rows_before w2 = (Ok data, w3) ->
  attrs_getitem (apply_scale data row) "units" = Ok u ->
  u <> units row ->
  convert_row ds start_date end_date interval prefix data row w3 =
    (Raise (ValueError "Units mismatch"), w3) /\
  convert_files model_conf start_date end_date interval prefix
    (files_before ++ nc_file :: files_after) w =
    (Raise (ValueError "Units mismatch"), World ∅ (fs w3)).
Proof.
  intros Hfiles Hsel Hvars Hvb Hrows Hrb Hu Hne.
  pose proof (convert_row_mismatch ds start_date end_date interval prefix
                data row u w3 Hu Hne) as Hrow.
  split; [exact Hrow|].
  unfold convert_files.
  rewrite (forM__raise _ files_before files_after nc_file
             (ValueError "Units mismatch") _ w1 w3 Hfiles); [reflexivity|].
  unfold convert_single_file. rewrite (lift_ok _ _ _ _ Hsel), Hvars.
  apply (forM__raise _ vars_before vars_after _ _ _ w2 w3 Hvb).
  unfold convert_variable. rewrite Hrows.
  apply bind_raise. now apply (foldM_raise _ _ _ _ _ data _ _ w3 w3 Hrb).
Qed.

Lemma units_mismatch_aborts_run_witness :
  let w3 := emit_field "TT" "CMIP6" sample_time sample_static (World ∅ ∅) in
  convert_row sample_static_ds sample_time sample_time (6 * ns_per_hour)
    "CMIP6" sample_static row_degC w3 =
    (Raise (ValueError "Units mismatch"), w3) /\
  convert_files [row_TT; row_degC] sample_time sample_time (6 * ns_per_hour)
    "CMIP6" ([] ++ sample_static_ds :: [sample_cube_ds]) (World ∅ ∅) =
    (Raise (ValueError "Units mismatch"), World ∅ (fs w3)).
Proof.
  apply (units_mismatch_aborts_run [row_TT; row_degC] sample_time sample_time
           (6 * ns_per_hour) "CMIP6" [] [sample_cube_ds] sample_static_ds
           sample_static_ds [] [] "tas" sample_static sample_static
           [row_TT] [] row_degC "K" (World ∅ ∅) (World ∅ ∅) (World ∅ ∅)
           (emit_field "TT" "CMIP6" sample_time sample_static (World ∅ ∅)));
    try (vm_compute; reflexivity).
  discriminate.
Defined.

(** C4 holds for the first matching row of a variable and fails from the
    second on: the loop over the rows assigns the scaled array to the
    variable it scales, so a later row multiplies what the earlier rows left.
    With the rows T2 (scale 2) and T3 (scale 3) for one variable of values 1,
    2, 3, 4, the field T3 holds 6, 12, 18, 24 and not 3, 6, 9, 12. *)
Lemma scale_accumulates_over_rows :
  let run :=
    convert_files [row_double; row_triple] sample_time sample_time
      (6 * ns_per_hour) "CMIP6" [sample_static_ds] (World ∅ ∅) in
  let doubled := apply_scale sample_static row_double in
  let tripled := apply_scale sample_static row_triple in
  let both := apply_scale doubled row_triple in
  fst run = Ok tt /\
  fs (snd run) !! "CMIP6:2000-01-01_00" =
    Some (field_records doubled "T2" sample_time ++
          field_records both "T3" sample_time) /\
  slab_bytes both =
    f32 (f64_of_Z 6) ++ f32 (f64_of_Z 12) ++ f32 (f64_of_Z 18) ++
    f32 (f64_of_Z 24) /\
  slab_bytes tripled =
    f32 (f64_of_Z 3) ++ f32 (f64_of_Z 6) ++ f32 (f64_of_Z 9) ++
    f32 (f64_of_Z 12) /\
  slab_bytes both <> slab_bytes tripled.
Proof.
  repeat split; try (vm_compute; reflexivity).
  vm_compute. discriminate.
Qed.

(** * Further properties *)

(** ** The file inventory *)

(** X1.  [FileInventory.get] opens a file once: the first request of a name
    creates the file empty (losing what a file of that name held), a later
    request returns the same handle and leaves the file, with all that was
    written to it since, as it is; no other file is touched. *)
Theorem get_opens_once (filename : string) (w : world) :
  let w1 := snd (FileInventory.get filename w) in
  fst (FileInventory.get filename w) = Ok filename /\
  inventory w1 = {[ filename ]} ∪ inventory w /\
  fs w1 !! filename =
    (if decide (filename ∈ inventory w) then fs w !! filename else Some []) /\
  (forall g, g <> filename -> fs w1 !! g = fs w !! g) /\
  (forall b,
     FileInventory.get filename (append_file filename b w1) =
     (Ok filename, append_file filename b w1)).
Proof.
  intros w1. subst w1. unfold FileInventory.get.
  destruct (decide (filename ∈ inventory w)) as [Hin|Hin]; cbn [fst snd].
  - repeat split; auto.
    + set_solver.
    + unfold append_file. cbn [inventory].
      intros b. now destruct (decide _).
  - repeat split.
    + cbn [fs]. apply lookup_insert_eq.
    + intros g Hg. cbn [fs]. now apply lookup_insert_ne.
    + intros b. unfold append_file. cbn [inventory].
      destruct (decide _) as [|Hn]; [reflexivity|]. set_solver.
Qed.

(** X2.  After [close_all] the inventory is empty and the files hold what
    they held; a request that follows opens the file anew, and so empties
    it. *)
Theorem close_all_then_get_reopens (filename : string) (w : world) :
  let w1 := snd (FileInventory.close_all w) in
  let w2 := snd (FileInventory.get filename w1) in
  fst (FileInventory.close_all w) = Ok tt /\
  inventory w1 = ∅ /\ fs w1 = fs w /\
  inventory w2 = {[ filename ]} /\
  fs w2 !! filename = Some [] /\
  (forall g, g <> filename -> fs w2 !! g = fs w !! g).
Proof.
  intros w1 w2. subst w1 w2. unfold FileInventory.close_all, FileInventory.get.
  cbn [fst snd inventory fs].
  destruct (decide (filename ∈ ∅)) as [Hin|_]; [set_solver|].
  cbn [snd inventory fs]. repeat split.
  - set_solver.
  - apply lookup_insert_eq.
  - intros g Hg. now apply lookup_insert_ne.
Qed.

(** ** Record framing, for every payload *)

Lemma nbytes_nonneg (data : payload) : 0 <= nbytes data.
Proof. destruct data; cbn [nbytes]; lia. Qed.

Lemma tobytes_F_length (data : payload) :
  Z.of_nat (length (tobytes_F data)) = nbytes data.
Proof.
  destruct data as [b|a]; cbn [tobytes_F nbytes].
  - destruct b; cbn [length]; lia.
  - rewrite (flat_map_length_const _ (4 * shape0 a)).
    + rewrite length_seq. lia.
    + intros i1. rewrite (flat_map_length_const _ 4).
      * now rewrite length_seq.
      * intros i0. reflexivity.
Qed.

(** X3.  [write_fortran_record] writes a whole record or nothing: below 2^31
    bytes it appends the length, the bytes and the length again, and the two
    markers are the exact number of bytes between them (for the slab array
    4 * NX * NY); from 2^31 bytes on the file is as it was, a [bytes]
    payload being refused with TypeError when the array is made of it and an
    array with [struct.error] when its length is packed. *)
Theorem write_fortran_record_whole_or_nothing (fp : string) (data : payload)
    (w : world) :
  write_fortran_record fp data w =
    (if nbytes data <? 2 ^ 31
     then (Ok tt,
           append_file fp
             (be32 (nbytes data) ++ tobytes_F data ++ be32 (nbytes data)) w)
     else (Raise (match data with
                  | PBytes _ => TypeError
                  | PArray _ => StructError
                  end), w)) /\
  Z.of_nat (length (tobytes_F data)) = nbytes data /\
  (nbytes data < 2 ^ 31 ->
   be_decode (be32 (nbytes data)) = Z.of_nat (length (tobytes_F data))).
Proof.
  pose proof (nbytes_nonneg data) as H0. split; [|split].
  - destruct (Z.ltb_spec (nbytes data) (2 ^ 31)).
    + now apply write_fortran_record_ok.
    + now apply write_fortran_record_too_long.
  - apply tobytes_F_length.
  - intros Hn. rewrite tobytes_F_length. apply be_decode_be32. lia.
Qed.

(** ** Where [to_wps_interm] stops *)



Lemma interpolate_na_unsorted (dim : axis) (data : DataArray) :
  strictly_increasing
    (match dim with Lat => da_lat data | Lon => da_lon data end) = false ->
  interpolate_na dim data =
  Raise (ValueError "index must be monotonically increasing").
Proof. unfold interpolate_na. now intros ->. Qed.

(** X4.  Without a [time] argument, a slice that has no time coordinate
    makes [to_wps_interm] raise AttributeError before the inventory is asked
    for a file: no file is opened, created or written. *)
Theorem to_wps_interm_needs_a_time (data : DataArray)
    (var_name prefix : string) (w : world) :
  da_time data = NoCoord ->
  to_wps_interm data var_name prefix None w = (Raise (AttributeError "time"), w).
Proof.
  intros Ht. unfold to_wps_interm, valid_time, timestamp_of. now rewrite Ht.
Qed.

Lemma to_wps_interm_needs_a_time_witness :
  to_wps_interm sample_static "TT" "CMIP6" None (World ∅ ∅) =
  (Raise (AttributeError "time"), World ∅ ∅).
Proof. apply (to_wps_interm_needs_a_time sample_static). reflexivity. Defined.

(** X5.  For a slice whose level can be read (a level coordinate, or
    nothing named plev), on a latitude or longitude axis that does not
    increase strictly (a north-to-south grid, a repeated point) the fill
    raises ValueError.  By then the output file is open: a file of that name
    which the run had not opened yet is now empty, and no record has been
    written. *)
Theorem to_wps_interm_descending_axis (data : DataArray)
    (var_name prefix : string) (time : option Timestamp) (t : Timestamp)
    (w : world) :
  valid_time time data = Ok t ->
  level_readable data = true ->
  strictly_increasing (da_lat data) && strictly_increasing (da_lon data)
    = false ->
  let fp := prefix +:+ ":" +:+ strftime_hour t in
  (exists msg : string,
     to_wps_interm data var_name prefix time w =
     (Raise (ValueError msg), snd (FileInventory.get fp w))) /\
  (fp ∉ inventory w -> fs (snd (FileInventory.get fp w)) !! fp = Some []) /\
  (fp ∈ inventory w -> snd (FileInventory.get fp w) = w).
Proof.
  intros Ht Hlv Hax fp. split; [|split].
  - exists "index must be monotonically increasing"%string.
    unfold to_wps_interm. rewrite (lift_ok _ _ _ _ Ht).
    rewrite (lift_ok _ _ _ _ (level_of_ok data Hlv)).
    rewrite (bind_ok _ _ _ _ _ (get_run _ w)). fold fp.
    destruct (strictly_increasing (da_lat data)) eqn:Hlat.
    + rewrite (lift_ok _ _ _ _ (interpolate_na_ok Lat data Hlat)).
      now rewrite (interpolate_na_unsorted Lon) by exact Hax.
    + now rewrite (interpolate_na_unsorted Lat) by exact Hlat.
  - intros Hn. unfold FileInventory.get.
    destruct (decide _); [contradiction|]. apply lookup_insert_eq.
  - intros Hi. unfold FileInventory.get. now destruct (decide _).
Qed.

Lemma to_wps_interm_descending_axis_witness :
  let fp := ("CMIP6" +:+ ":" +:+ strftime_hour sample_time)%string in
  let w := World ∅ {[ "CMIP6:2000-01-01_00" := [x01] ]} in
  (exists msg : string,
     to_wps_interm sample_descending "TT" "CMIP6" None w =
     (Raise (ValueError msg), snd (FileInventory.get fp w))) /\
  (fp ∉ inventory w -> fs (snd (FileInventory.get fp w)) !! fp = Some []) /\
  (fp ∈ inventory w -> snd (FileInventory.get fp w) = w).
Proof.
  apply (to_wps_interm_descending_axis sample_descending "TT" "CMIP6" None
           sample_time); reflexivity.
Defined.





(** ** What a written field holds *)

Lemma header_bytes_tail (data : DataArray) (var_name : string)
    (t : Timestamp) :
  skipn 140 (header_bytes data var_name t) =
  f32 (xlvl data) ++ be32 (Z.of_nat (length (da_lon data))) ++
  be32 (Z.of_nat (length (da_lat data))) ++ be32 0.
Proof.
  unfold header_bytes.
  change 140%nat with (24 + (4 + (32 + (9 + (25 + (46 + 0))))))%nat.
  rewrite (skipn_app_len _ _ 24) by apply padded_length.
  rewrite (skipn_app_len _ _ 4) by reflexivity.
  rewrite (skipn_app_len _ _ 32) by apply padded_length.
  rewrite (skipn_app_len _ _ 9) by apply padded_length.
  rewrite (skipn_app_len _ _ 25) by apply padded_length.
  rewrite (skipn_app_len _ _ 46) by apply padded_length.
  reflexivity.
Qed.

Lemma skipn_140_plus (k : nat) {B} (l : list B) :
  skipn (140 + k) l = skipn k (skipn 140 l).
Proof. now rewrite skipn_skipn, Nat.add_comm. Qed.

(** X8.  For a slice selected at one pressure level p, [to_wps_interm]
    writes the field and the vertical level of its header, the four bytes
    after the first 140, is p as a big-endian 32-bit float. *)
Theorem pressure_level_in_header (data : DataArray)
    (var_name prefix : string) (time : option Timestamp) (t : Timestamp)
    (p : float) (w : world) :
  valid_time time data = Ok t ->
  encodable data var_name = true ->
  da_plev data = ScalarCoord p ->
  to_wps_interm data var_name prefix time w =
    (Ok tt,
     emit (prefix +:+ ":" +:+ strftime_hour t)
       (record (be32 5) ++ record (header_bytes data var_name t) ++
        record (geometry_bytes data) ++ record (be32 0) ++
        record (slab_bytes data)) w) /\
  firstn 4 (skipn 140 (header_bytes data var_name t)) = f32_bytes (to_f32 p).
Proof.
  intros Ht H Hp. split.
  - apply (to_wps_interm_ok _ _ _ _ _ _ Ht H).
  - rewrite header_bytes_tail. unfold xlvl. now rewrite Hp.
Qed.

Lemma pressure_level_in_header_witness :
  to_wps_interm sample_level "TT" "CMIP6" None (World ∅ ∅) =
    (Ok tt,
     emit ("CMIP6" +:+ ":" +:+ strftime_hour sample_time)
       (record (be32 5) ++ record (header_bytes sample_level "TT" sample_time) ++
        record (geometry_bytes sample_level) ++ record (be32 0) ++
        record (slab_bytes sample_level)) (World ∅ ∅)) /\
  firstn 4 (skipn 140 (header_bytes sample_level "TT" sample_time)) =
    f32_bytes (to_f32 (f64_of_Z 85000)).
Proof.
  apply (pressure_level_in_header sample_level "TT" "CMIP6" None sample_time
           (f64_of_Z 85000)); reflexivity.
Defined.

(** X9.  The header and the slab of a written field agree on the size of
    the grid: read back as big-endian integers, the header bytes 144 to 148
    are the number of longitudes NX, the bytes 148 to 152 the number of
    latitudes NY, the last four the projection code 0, and the length marker
    of the slab record is 4 * NX * NY. *)
Theorem header_sizes_match_slab (data : DataArray)
    (var_name prefix : string) (time : option Timestamp) (t : Timestamp)
    (w : world) :
  valid_time time data = Ok t ->
  encodable data var_name = true ->
  let hdr := header_bytes data var_name t in
  let nx := Z.of_nat (length (da_lon data)) in
  let ny := Z.of_nat (length (da_lat data)) in
  to_wps_interm data var_name prefix time w =
    (Ok tt,
     emit (prefix +:+ ":" +:+ strftime_hour t)
       (record (be32 5) ++ record hdr ++ record (geometry_bytes data) ++
        record (be32 0) ++ record (slab_bytes data)) w) /\
  be_decode (firstn 4 (skipn 144 hdr)) = nx /\
  be_decode (firstn 4 (skipn 148 hdr)) = ny /\
  be_decode (firstn 4 (skipn 152 hdr)) = 0 /\
  be_decode (firstn 4 (record (slab_bytes data))) = 4 * nx * ny /\
  Z.of_nat (length (slab_bytes data)) = 4 * nx * ny.
Proof.
  intros Ht H hdr nx ny.
  pose proof (encodable_elim _ _ H) as (_ & _ & _ & _ & _ & Hlat & Hlon & _ &
    _ & _ & _ & _ & _ & _ & _ & Hn).
  fold nx ny in Hn.
  assert (Hx : 0 < nx /\ 0 < ny) by (unfold nx, ny; lia).
  split; [apply (to_wps_interm_ok _ _ _ _ _ _ Ht H)|].
  unfold hdr.
  change 152%nat with (140 + 12)%nat. change 148%nat with (140 + 8)%nat.
  change 144%nat with (140 + 4)%nat.
  rewrite !skipn_140_plus, header_bytes_tail. fold nx ny.
  assert (Hlen : Z.of_nat (length (slab_bytes data)) = 4 * nx * ny)
    by (rewrite slab_bytes_length; unfold nx, ny; lia).
  unfold f32, f32_bytes, record. rewrite Hlen.
  cbn [be32 app skipn firstn].
  repeat split.
  - apply (be_decode_be32 nx). nia.
  - apply (be_decode_be32 ny). nia.
  - apply (be_decode_be32 (4 * nx * ny)). nia.
Qed.

Lemma header_sizes_match_slab_witness :
  let hdr := header_bytes sample_irregular "TT" sample_time in
  to_wps_interm sample_irregular "TT" "CMIP6" None (World ∅ ∅) =
    (Ok tt,
     emit ("CMIP6" +:+ ":" +:+ strftime_hour sample_time)
       (record (be32 5) ++ record hdr ++
        record (geometry_bytes sample_irregular) ++
        record (be32 0) ++ record (slab_bytes sample_irregular)) (World ∅ ∅)) /\
  be_decode (firstn 4 (skipn 144 hdr)) = 2 /\
  be_decode (firstn 4 (skipn 148 hdr)) = 3 /\
  be_decode (firstn 4 (skipn 152 hdr)) = 0 /\
  be_decode (firstn 4 (record (slab_bytes sample_irregular))) = 4 * 2 * 3 /\
  Z.of_nat (length (slab_bytes sample_irregular)) = 4 * 2 * 3.
Proof.
  apply (header_sizes_match_slab sample_irregular "TT" "CMIP6" None
           sample_time); reflexivity.
Defined.

Lemma record_length (p : list byte) :
  length (record p) = (length p + 8)%nat.
Proof. unfold record. rewrite !length_app, !be32_length. lia. Qed.

Lemma field_records_length (data : DataArray) (var_name : string)
    (t : Timestamp) :
  length (field_records data var_name t) =
  (232 + 4 * length (da_lon data) * length (da_lat data))%nat.
Proof.
  unfold field_records.
  rewrite !length_app, !record_length, header_bytes_length,
    geometry_bytes_length, slab_bytes_length, !be32_length.
  lia.
Qed.

Lemma emit_content (fp : string) (b : list byte) (w : world) :
  content (emit fp b w) fp =
  (if decide (fp ∈ inventory w) then content w fp else []) ++ b.
Proof.
  unfold emit, content, append_file, FileInventory.get.
  destruct (decide _); cbn [snd fs inventory].
  - now rewrite lookup_insert_eq.
  - now rewrite !lookup_insert_eq.
Qed.

Lemma emit_inventory (fp : string) (b : list byte) (w : world) :
  inventory (emit fp b w) = {[ fp ]} ∪ inventory w.
Proof.
  unfold emit, append_file, FileInventory.get.
  destruct (decide _); cbn [snd inventory]; set_solver.
Qed.

Lemma emit_other (fp g : string) (b : list byte) (w : world) :
  g <> fp -> fs (emit fp b w) !! g = fs w !! g.
Proof.
  intros Hg. unfold emit, append_file, FileInventory.get.
  destruct (decide _); cbn [snd fs inventory];
    now rewrite ?lookup_insert_ne by congruence.
Qed.

(** X10.  A field that is written goes to the end of the file of its hour:
    what the file received earlier in the run stays in front of it (a file
    the run had not opened yet starts empty), the field takes
    232 + 4 * NX * NY bytes, the file is then in the inventory, and no other
    file changes. *)
Theorem field_is_appended (data : DataArray) (var_name prefix : string)
    (time : option Timestamp) (t : Timestamp) (w : world) :
  valid_time time data = Ok t ->
  encodable data var_name = true ->
  let fp := prefix +:+ ":" +:+ strftime_hour t in
  let w' := snd (to_wps_interm data var_name prefix time w) in
  fst (to_wps_interm data var_name prefix time w) = Ok tt /\
  content w' fp =
    (if decide (fp ∈ inventory w) then content w fp else []) ++
    field_records data var_name t /\
  length (field_records data var_name t) =
    (232 + 4 * length (da_lon data) * length (da_lat data))%nat /\
  inventory w' = {[ fp ]} ∪ inventory w /\
  (forall g, g <> fp -> fs w' !! g = fs w !! g).
Proof.
  intros Ht H fp w'. subst w'.
  rewrite (to_wps_interm_ok _ _ _ _ _ _ Ht H). cbn [fst snd].
  unfold emit_field. fold fp. repeat split.
  - apply emit_content.
  - apply field_records_length.
  - apply emit_inventory.
  - intros g Hg. now apply emit_other.
Qed.

Lemma field_is_appended_witness :
  let fp := ("CMIP6" +:+ ":" +:+ strftime_hour sample_time)%string in
  let w := emit fp [x01; x02] (World ∅ ∅) in
  let w' := snd (to_wps_interm sample_slice "TT" "CMIP6" None w) in
  fst (to_wps_interm sample_slice "TT" "CMIP6" None w) = Ok tt /\
  content w' fp =
    (if decide (fp ∈ inventory w) then content w fp else []) ++
    field_records sample_slice "TT" sample_time /\
  length (field_records sample_slice "TT" sample_time) =
    (232 + 4 * length (da_lon sample_slice) * length (da_lat sample_slice))%nat /\
  inventory w' = {[ fp ]} ∪ inventory w /\
  (forall g, g <> fp -> fs w' !! g = fs w !! g).
Proof.
  apply (field_is_appended sample_slice "TT" "CMIP6" None sample_time);
    reflexivity.
Defined.

Lemma flat_map_nth_seq {A B} (f : A -> list B) (l : list A) (d : A) :
  flat_map (fun i => f (nth i l d)) (seq 0 (length l)) = flat_map f l.
Proof.
  rewrite !flat_map_concat_map, <- (map_map (fun i => nth i l d) f).
  now rewrite map_nth_seq.
Qed.

Lemma slab_bytes_rows (data : DataArray) (g : grid) :
  filled data = g ->
  length g = length (da_lat data) ->
  Forall (fun r => length r = length (da_lon data)) g ->
  slab_bytes data = flat_map (flat_map f32) g.
Proof.
  intros Hf Hny Hnx. unfold slab_bytes, cell. rewrite Hf.
  unfold grid, float in *. rewrite <- Hny.
  transitivity
    (flat_map (fun r => flat_map (fun i_lon => f32 (nth i_lon r S754_nan))
                          (seq 0 (length (da_lon data)))) g).
  - exact (flat_map_nth_seq
             (fun r => flat_map (fun i_lon => f32 (nth i_lon r S754_nan))
                         (seq 0 (length (da_lon data)))) g []).
  - apply flat_map_ext_in. intros r Hr.
    rewrite List.Forall_forall in Hnx. unfold float in *.
    rewrite <- (Hnx r Hr). apply (flat_map_nth_seq f32).
Qed.

(** X11.  A field without missing values passes the two fills unchanged:
    on a full NY x NX grid with no NaN the slab record holds the values that
    came in, each as a big-endian 32-bit float, the latitudes in their order
    and the longitudes of a latitude in theirs. *)
Theorem complete_field_written_as_is (data : DataArray)
    (var_name prefix : string) (time : option Timestamp) (t : Timestamp)
    (g : grid) (w : world) :
  valid_time time data = Ok t ->
  encodable data var_name = true ->
  da_values data = [[g]] ->
  length g = length (da_lat data) ->
  Forall (fun r => length r = length (da_lon data)) g ->
  forallb (forallb (fun v => negb (is_nan v))) g = true ->
  to_wps_interm data var_name prefix time w =
    (Ok tt,
     emit (prefix +:+ ":" +:+ strftime_hour t)
       (record (be32 5) ++ record (header_bytes data var_name t) ++
        record (geometry_bytes data) ++ record (be32 0) ++
        record (flat_map (flat_map (fun v => f32_bytes (to_f32 v))) g)) w).
Proof.
  intros Ht H Hv Hny Hnx Hc.
  rewrite (to_wps_interm_ok _ _ _ _ _ _ Ht H).
  unfold emit_field, field_records.
  now rewrite (slab_bytes_rows data g (filled_complete data g Hv Hny Hnx Hc)
                 Hny Hnx).
Qed.

Lemma complete_field_written_as_is_witness :
  to_wps_interm sample_irregular "TT" "CMIP6" None (World ∅ ∅) =
    (Ok tt,
     emit ("CMIP6" +:+ ":" +:+ strftime_hour sample_time)
       (record (be32 5) ++ record (header_bytes sample_irregular "TT" sample_time) ++
        record (geometry_bytes sample_irregular) ++ record (be32 0) ++
        record (flat_map (flat_map (fun v => f32_bytes (to_f32 v)))
                  [ [f64_of_Z 1; f64_of_Z 2]; [f64_of_Z 3; f64_of_Z 4];
                    [f64_of_Z 5; f64_of_Z 6] ])) (World ∅ ∅)).
Proof.
  apply (complete_field_written_as_is sample_irregular "TT" "CMIP6" None
           sample_time); try reflexivity.
  repeat constructor.
Defined.

(** X12.  The slab is cast, not packed: a value of the grid too large for a
    32-bit float raises nothing, it is stored as an infinity (7F 80 00 00 or
    FF 80 00 00), whereas the same value as a level or a coordinate of the
    header makes [struct.pack] raise OverflowError. *)
Theorem slab_overflow_is_silent (data : DataArray)
    (var_name prefix : string) (time : option Timestamp) (t : Timestamp)
    (i_lon i_lat : nat) (w : world) :
  valid_time time data = Ok t ->
  encodable data var_name = true ->
  (i_lon < length (da_lon data))%nat -> (i_lat < length (da_lat data))%nat ->
  fits_f32 (cell (filled data) i_lat i_lon) = false ->
  fst (to_wps_interm data var_name prefix time w) = Ok tt /\
  pack_f (cell (filled data) i_lat i_lon) = Raise OverflowError /\
  exists s : bool,
    firstn 4 (skipn (4 * (i_lon + length (da_lon data) * i_lat))
                (slab_bytes data)) =
    be32 (f32_bits (S754_infinity s)).
Proof.
  intros Ht H Hi Hj Hx. split; [|split].
  - now rewrite (to_wps_interm_ok _ _ _ _ _ _ Ht H).
  - unfold pack_f. now rewrite Hx.
  - rewrite slab_bytes_at by assumption. unfold f32, f32_bytes.
    unfold fits_f32 in Hx.
    destruct (cell (filled data) i_lat i_lon) as [| | |s m e];
      try discriminate.
    destruct (to_f32 (S754_finite s m e)) as [|s'| |]; try discriminate.
    now exists s'.
Qed.

Lemma slab_overflow_is_silent_witness :
  fst (to_wps_interm sample_huge "TT" "CMIP6" None (World ∅ ∅)) = Ok tt /\
  pack_f (cell (filled sample_huge) 0 1) = Raise OverflowError /\
  exists s : bool,
    firstn 4 (skipn (4 * (1 + length (da_lon sample_huge) * 0))
                (slab_bytes sample_huge)) =
    be32 (f32_bits (S754_infinity s)).
Proof.
  apply (slab_overflow_is_silent sample_huge "TT" "CMIP6" None sample_time
           1 0); try reflexivity; cbn; lia.
Defined.

(** ** The fan-out of a surface variable *)

Lemma isel_time_ok (data : DataArray) (ts : list Timestamp) (i : nat) :
  da_time data = DimCoord ts ->
  length (da_values data) = length ts ->
  (i < length ts)%nat ->
  isel_time i data = Ok (time_slice data i).
Proof.
  intros Ht Hlen Hi. unfold isel_time, time_slice. rewrite Ht.
  cbv beta iota.
  destruct (nth_error ts i) as [t|] eqn:Et;
    [|apply nth_error_None in Et; lia].
  destruct (nth_error (da_values data) i) as [v|] eqn:Ev;
    [|apply nth_error_None in Ev; lia].
  now rewrite (nth_error_nth ts i 0 Et), (nth_error_nth _ _ [] Ev).
Qed.

(** X13.  For a mapped variable with a time axis of T stamps and no level,
    in a dataset without a level dimension, the pipeline emits exactly T
    fields, one per time and in the order of the axis, each to the file of
    its own time. *)
Theorem surface_fan_out (ds : Dataset) (start_date end_date interval : Z)
    (prefix : string) (data : DataArray) (var_conf : VarConf)
    (axis ts : list Timestamp) (w : world) :
  ds_time ds = Some axis ->
  ds_plev_dim ds = false ->
  da_time data = DimCoord ts ->
  is_dim (da_plev data) = false ->
  length (da_values data) = length ts ->
  forallb (fun i => encodable (time_slice data i) (wps_name var_conf))
          (seq 0 (length ts)) = true ->
  emit_fields ds start_date end_date interval prefix data var_conf w =
    (Ok tt,
     fold_left
       (fun w' i =>
          emit_field (wps_name var_conf) prefix (nth i ts 0)
            (time_slice data i) w')
       (seq 0 (length ts)) w) /\
  length (seq 0 (length ts)) = length ts.
Proof.
  intros Hds Hpd Ht Hp Hlen Hall. split; [|apply length_seq].
  unfold emit_fields. rewrite Hds, Hpd, Ht, Hp. cbn [coord_len].
  rewrite (bind_ok _ _ w w tt) by reflexivity.
  rewrite (lift_ok _ _ _ _ eq_refl).
  rewrite forallb_forall in Hall.
  apply forM__fold. intros i w1 Hi. pose proof (Hall i Hi) as He.
  apply in_seq in Hi.
  rewrite (lift_ok _ _ _ _ (isel_time_ok data ts i Ht Hlen ltac:(lia))).
  apply to_wps_interm_ok; [|exact He].
  unfold valid_time, timestamp_of, time_slice. cbn [da_time]. now rewrite Ht.
Qed.

Lemma surface_fan_out_witness :
  emit_fields sample_series_ds sample_time (sample_time + 6 * ns_per_hour)
    (6 * ns_per_hour) "CMIP6" sample_series row_TT (World ∅ ∅) =
    (Ok tt,
     fold_left
       (fun w' i =>
          emit_field (wps_name row_TT) "CMIP6"
            (nth i [sample_time; sample_time + 6 * ns_per_hour] 0)
            (time_slice sample_series i) w')
       (seq 0 (length [sample_time; sample_time + 6 * ns_per_hour]))
       (World ∅ ∅)) /\
  length (seq 0 (length [sample_time; sample_time + 6 * ns_per_hour])) =
  length [sample_time; sample_time + 6 * ns_per_hour].
Proof.
  apply (surface_fan_out sample_series_ds sample_time
           (sample_time + 6 * ns_per_hour) (6 * ns_per_hour) "CMIP6"
           sample_series row_TT
           [sample_time; sample_time + 6 * ns_per_hour]);
    reflexivity.
Defined.

(** ** Variables the loops cannot take *)

Lemma convert_row_checked (ds : Dataset) (start_date end_date interval : Z)
    (prefix : string) (data : DataArray) (var_conf : VarConf) (w : world) :
  da_attrs (apply_scale data var_conf) !! "units" = Some (units var_conf) ->
  convert_row ds start_date end_date interval prefix data var_conf w =
  (emit_fields ds start_date end_date interval prefix
     (apply_scale data var_conf) var_conf ≫=
   fun _ => mret (apply_scale data var_conf)) w.
Proof.
  intros Hu. unfold convert_row, attrs_getitem. rewrite Hu.
  rewrite (lift_ok _ _ _ _ eq_refl).
  now destruct (decide (units var_conf ≠ units var_conf)).
Qed.

Lemma convert_variable_first_row (ds : Dataset) (model_conf : list VarConf)
    (start_date end_date interval : Z) (prefix var_name : string)
    (data : DataArray) (row : VarConf) (rows : list VarConf) (e : exn)
    (w w' : world) :
  out_vars model_conf var_name = row :: rows ->
  convert_row ds start_date end_date interval prefix data row w =
    (Raise e, w') ->
  convert_variable ds model_conf start_date end_date interval prefix
    (var_name, data) w = (Raise e, w').
Proof.
  intros Hrows Hrow. unfold convert_variable. rewrite Hrows.
  apply bind_raise. cbn [foldM]. now apply bind_raise.
Qed.

Lemma apply_scale_coords (data : DataArray) (var_conf : VarConf) :
  da_time (apply_scale data var_conf) = da_time data /\
  da_plev (apply_scale data var_conf) = da_plev data /\
  da_lat (apply_scale data var_conf) = da_lat data /\
  da_lon (apply_scale data var_conf) = da_lon data.
Proof. unfold apply_scale. now destruct (is_finite _). Qed.

(** X14.  In a dataset with a time and a level dimension, a mapped variable
    that has no level (a surface variable stored beside the level
    variables) stops the run: the log line of the level branch reads
    [data.plev] and raises AttributeError before any field of the variable
    is written. *)
Theorem surface_variable_in_level_dataset (ds : Dataset)
    (model_conf : list VarConf) (start_date end_date interval : Z)
    (prefix var_name : string) (data : DataArray) (axis : list Timestamp)
    (row : VarConf) (rows : list VarConf) (w : world) :
  ds_time ds = Some axis ->
  ds_plev_dim ds = true ->
  da_plev data = NoCoord ->
  out_vars model_conf var_name = row :: rows ->
  da_attrs (apply_scale data row) !! "units" = Some (units row) ->
  convert_variable ds model_conf start_date end_date interval prefix
    (var_name, data) w = (Raise (AttributeError "plev"), w).
Proof.
  intros Hds Hpd Hp Hrows Hu.
  apply (convert_variable_first_row _ _ _ _ _ _ _ _ row rows _ _ _ Hrows).
  rewrite (convert_row_checked _ _ _ _ _ _ _ _ Hu). apply bind_raise.
  unfold emit_fields. rewrite Hds, Hpd.
  destruct (apply_scale_coords data row) as (_ & -> & _). now rewrite Hp.
Qed.

Lemma surface_variable_in_level_dataset_witness :
  convert_variable sample_mixed_ds [row_TT] sample_time
    (sample_time + 6 * ns_per_hour) (6 * ns_per_hour) "CMIP6"
    ("tas", sample_series) (World ∅ ∅) =
  (Raise (AttributeError "plev"), World ∅ ∅).
Proof.
  apply (surface_variable_in_level_dataset sample_mixed_ds [row_TT]
           sample_time (sample_time + 6 * ns_per_hour) (6 * ns_per_hour)
           "CMIP6" "tas" sample_series
           [sample_time; sample_time + 6 * ns_per_hour] row_TT []);
    reflexivity.
Defined.

(** X15.  In a dataset with a time dimension, a mapped variable without a
    time coordinate and without an attribute named time (a constant field
    stored beside the time series) is not treated as a static field:
    [len(data.time)] raises AttributeError and nothing is written for it. *)
Theorem static_variable_in_time_dataset (ds : Dataset)
    (model_conf : list VarConf) (start_date end_date interval : Z)
    (prefix var_name : string) (data : DataArray) (axis : list Timestamp)
    (row : VarConf) (rows : list VarConf) (w : world) :
  ds_time ds = Some axis ->
  ds_plev_dim ds = false ->
  da_time data = NoCoord ->
  da_attrs data !! "time" = None ->
  out_vars model_conf var_name = row :: rows ->
  da_attrs (apply_scale data row) !! "units" = Some (units row) ->
  convert_variable ds model_conf start_date end_date interval prefix
    (var_name, data) w = (Raise (AttributeError "time"), w).
Proof.
  intros Hds Hpd Ht Ha Hrows Hu.
  apply (convert_variable_first_row _ _ _ _ _ _ _ _ row rows _ _ _ Hrows).
  rewrite (convert_row_checked _ _ _ _ _ _ _ _ Hu). apply bind_raise.
  assert (Ha' : da_attrs (apply_scale data row) !! "time" = None).
  { unfold apply_scale. destruct (is_finite _); [|exact Ha].
    cbn [set_attr da_attrs da_mul with_values].
    now rewrite lookup_insert_ne by discriminate. }
  unfold emit_fields. rewrite Hds, Hpd.
  destruct (apply_scale_coords data row) as (-> & _).
  rewrite Ht. cbn [coord_len]. now rewrite Ha'.
Qed.

Lemma static_variable_in_time_dataset_witness :
  convert_variable sample_orog_ds [row_TT] sample_time
    (sample_time + 6 * ns_per_hour) (6 * ns_per_hour) "CMIP6"
    ("tas", sample_static) (World ∅ ∅) =
  (Raise (AttributeError "time"), World ∅ ∅).
Proof.
  apply (static_variable_in_time_dataset sample_orog_ds [row_TT]
           sample_time (sample_time + 6 * ns_per_hour) (6 * ns_per_hour)
           "CMIP6" "tas" sample_static
           [sample_time; sample_time + 6 * ns_per_hour] row_TT []);
    reflexivity.
Defined.

(** ** Rows, scales and units *)

(** X16.  The unit check reads [data.attrs["units"]]: for a variable that
    carries no unit, a row without a finite scale raises KeyError before
    anything is written. *)
Theorem variable_without_units (ds : Dataset)
    (start_date end_date interval : Z) (prefix : string) (data : DataArray)
    (var_conf : VarConf) (w : world) :
  is_finite (scale var_conf) = false ->
  da_attrs data !! "units" = None ->
  convert_row ds start_date end_date interval prefix data var_conf w =
  (Raise KeyError, w).
Proof.
  intros Hs Hu. unfold convert_row, apply_scale, attrs_getitem.
  now rewrite Hs, Hu.
Qed.

Lemma variable_without_units_witness :
  convert_row sample_static_ds sample_time sample_time (6 * ns_per_hour)
    "CMIP6" sample_no_units row_TT (World ∅ ∅) =
  (Raise KeyError, World ∅ ∅).
Proof.
  apply (variable_without_units sample_static_ds sample_time sample_time
           (6 * ns_per_hour) "CMIP6" sample_no_units row_TT); reflexivity.
Defined.

(** X17.  For a row whose unit cell is filled, a finite scale takes the
    unit of the variable out of the check: the unit of the row is written
    over it, whatever it was and whether there was one, before the two are
    compared.  Neither KeyError nor the units mismatch is raised, the other
    attributes stay as they are, and the row goes on to its fields with the
    scaled array, which it hands on. *)
Theorem finite_scale_sets_the_unit (ds : Dataset)
    (start_date end_date interval : Z) (prefix : string) (data : DataArray)
    (var_conf : VarConf) (w : world) :
  is_finite (scale var_conf) = true ->
  let scaled :=
    set_attr (da_mul data (scale var_conf)) "units" (units var_conf) in
  convert_row ds start_date end_date interval prefix data var_conf w =
    (emit_fields ds start_date end_date interval prefix scaled var_conf ≫=
     fun _ => mret scaled) w /\
  da_attrs scaled !! "units" = Some (units var_conf) /\
  (forall key, key <> "units" -> da_attrs scaled !! key = da_attrs data !! key).
Proof.
  intros Hs scaled.
  assert (Ha : apply_scale data var_conf = scaled)
    by (unfold apply_scale; now rewrite Hs).
  assert (Hu : da_attrs scaled !! "units" = Some (units var_conf))
    by apply lookup_insert_eq.
  split; [|split; [exact Hu|]].
  - rewrite <- Ha in *. now apply convert_row_checked.
  - intros key Hk. unfold scaled. cbn [set_attr da_attrs da_mul with_values].
    now apply lookup_insert_ne.
Qed.

Lemma finite_scale_sets_the_unit_witness :
  let scaled :=
    set_attr (da_mul sample_no_units (scale row_double)) "units"
      (units row_double) in
  convert_row sample_static_ds sample_time sample_time (6 * ns_per_hour)
    "CMIP6" sample_no_units row_double (World ∅ ∅) =
    (emit_fields sample_static_ds sample_time sample_time (6 * ns_per_hour)
       "CMIP6" scaled row_double ≫= fun _ => mret scaled) (World ∅ ∅) /\
  da_attrs scaled !! "units" = Some (units row_double) /\
  (forall key, key <> "units" ->
     da_attrs scaled !! key = da_attrs sample_no_units !! key).
Proof.
  apply (finite_scale_sets_the_unit sample_static_ds sample_time sample_time
           (6 * ns_per_hour) "CMIP6" sample_no_units row_double).
  reflexivity.
Defined.

Lemma foldM_convert_row (ds : Dataset) (start_date end_date interval : Z)
    (prefix : string) (rows : list VarConf) (data data' : DataArray)
    (w w' : world) :
  foldM (convert_row ds start_date end_date interval prefix) data rows w =
    (Ok data', w') ->
  data' = fold_left apply_scale rows data.
Proof.
  revert data w. induction rows as [|row rows IH]; intros data w.
  - cbn. now intros [= <- _].
  - cbn [foldM fold_left]. rewrite bind_run.
    destruct (convert_row _ _ _ _ _ data row w) as [[d1|e] w1] eqn:E;
      [|discriminate].
    apply convert_row_returns in E. subst d1. apply IH.
Qed.

(** X18.  The rows of one variable work on one array: when the loop over
    the rows ends without an exception, the array it leaves is the input
    with the scales and units of all the rows applied one after another, so
    the fields of row k carry the scales of the rows 1 to k. *)
Theorem rows_share_one_array (ds : Dataset)
    (start_date end_date interval : Z) (prefix : string)
    (rows_before rows_after : list VarConf) (row : VarConf)
    (data data' : DataArray) (w w' : world) :
  foldM (convert_row ds start_date end_date interval prefix) data
    rows_before w = (Ok data', w') ->
  data' = fold_left apply_scale rows_before data /\
  foldM (convert_row ds start_date end_date interval prefix) data
    (rows_before ++ row :: rows_after) w =
  (convert_row ds start_date end_date interval prefix
     (fold_left apply_scale rows_before data) row ≫=
   fun d => foldM (convert_row ds start_date end_date interval prefix) d
              rows_after) w'.
Proof.
  intros H. pose proof (foldM_convert_row _ _ _ _ _ _ _ _ _ _ H) as ->.
  split; [reflexivity|].
  rewrite foldM_app. now rewrite (bind_ok _ _ _ _ _ H).
Qed.

Lemma rows_share_one_array_witness :
  let w' := emit_field "T2" "CMIP6" sample_time
              (apply_scale sample_static row_double) (World ∅ ∅) in
  apply_scale sample_static row_double =
    fold_left apply_scale [row_double] sample_static /\
  foldM (convert_row sample_static_ds sample_time sample_time
           (6 * ns_per_hour) "CMIP6") sample_static
    ([row_double] ++ row_triple :: []) (World ∅ ∅) =
  (convert_row sample_static_ds sample_time sample_time (6 * ns_per_hour)
     "CMIP6" (fold_left apply_scale [row_double] sample_static) row_triple ≫=
   fun d => foldM (convert_row sample_static_ds sample_time sample_time
                     (6 * ns_per_hour) "CMIP6") d []) w'.
Proof.
  apply (rows_share_one_array sample_static_ds sample_time sample_time
           (6 * ns_per_hour) "CMIP6" [row_double] [] row_triple sample_static
           (apply_scale sample_static row_double) (World ∅ ∅)).
  vm_compute. reflexivity.
Defined.

(** ** Variables without a row *)

Lemma forM__filter {A} (body : A -> IO unit) (keep : A -> bool) (l : list A)
    (w : world) :
  (forall x w', keep x = false -> body x w' = (Ok tt, w')) ->
  forM_ body l w = forM_ body (List.filter keep l) w.
Proof.
  intros Hskip. revert w. induction l as [|x l IH]; intros w; [reflexivity|].
  cbn [forM_ List.filter]. destruct (keep x) eqn:E.
  - cbn [forM_]. rewrite !bind_run.
    destruct (body x w) as [[[]|e] w1]; [apply IH|reflexivity].
  - now rewrite (bind_ok _ _ _ _ _ (Hskip x w E)).
Qed.

(** X19.  Variables without a row in the mapping table are passed over:
    the conversion of a dataset is the conversion of its mapped variables,
    in their order, and a dataset with no mapped variable changes
    nothing. *)
Theorem unmapped_variables_are_skipped (nc_file ds : Dataset)
    (model_conf : list VarConf) (start_date end_date interval : Z)
    (prefix : string) (w : world) :
  select_times nc_file start_date end_date interval = Ok (Some ds) ->
  convert_single_file nc_file model_conf start_date end_date interval prefix w =
    forM_ (convert_variable ds model_conf start_date end_date interval prefix)
      (List.filter (mapped model_conf) (ds_variables ds)) w /\
  (forallb (fun var => negb (mapped model_conf var)) (ds_variables ds) = true ->
   convert_single_file nc_file model_conf start_date end_date interval prefix w
   = (Ok tt, w)).
Proof.
  intros Hsel.
  assert (Hrun :
    convert_single_file nc_file model_conf start_date end_date interval prefix w =
    forM_ (convert_variable ds model_conf start_date end_date interval prefix)
      (List.filter (mapped model_conf) (ds_variables ds)) w).
  { unfold convert_single_file. rewrite (lift_ok _ _ _ _ Hsel).
    apply forM__filter. intros [var_name data] w' Hm.
    unfold mapped in Hm. apply negb_false_iff, Nat.eqb_eq in Hm.
    cbn [fst] in Hm. unfold convert_variable.
    destruct (out_vars model_conf var_name); [reflexivity|discriminate]. }
  split; [exact Hrun|].
  intros Hnone. rewrite Hrun.
  assert (List.filter (mapped model_conf) (ds_variables ds) = []) as ->;
    [|reflexivity].
  clear Hrun Hsel. induction (ds_variables ds) as [|v l IH]; [reflexivity|].
  cbn [forallb] in Hnone. apply andb_prop in Hnone as [Hv Hl].
  apply negb_true_iff in Hv. cbn [List.filter]. rewrite Hv. now apply IH.
Qed.

Lemma unmapped_variables_are_skipped_witness :
  convert_single_file sample_static_ds [row_other] sample_time sample_time
    (6 * ns_per_hour) "CMIP6" (World ∅ ∅) =
    forM_ (convert_variable sample_static_ds [row_other] sample_time
             sample_time (6 * ns_per_hour) "CMIP6")
      (List.filter (mapped [row_other]) (ds_variables sample_static_ds))
      (World ∅ ∅) /\
  (forallb (fun var => negb (mapped [row_other] var))
     (ds_variables sample_static_ds) = true ->
   convert_single_file sample_static_ds [row_other] sample_time sample_time
     (6 * ns_per_hour) "CMIP6" (World ∅ ∅) = (Ok tt, World ∅ ∅)).
Proof.
  apply (unmapped_variables_are_skipped sample_static_ds sample_static_ds
           [row_other] sample_time sample_time (6 * ns_per_hour) "CMIP6").
  reflexivity.
Defined.

(** ** The selection of the time steps *)

Lemma filter_none {A} (keep : A -> bool) (l : list A) :
  forallb (fun x => negb (keep x)) l = true -> List.filter keep l = [].
Proof.
  induction l as [|x l IH]; [reflexivity|]. cbn [forallb List.filter].
  intros H. apply andb_prop in H as [Hx Hl]. apply negb_true_iff in Hx.
  rewrite Hx. auto.
Qed.

Lemma filter_some {A} (keep : A -> bool) (l : list A) :
  existsb keep l = true -> (length (List.filter keep l) =? 0)%nat = false.
Proof.
  induction l as [|x l IH]; [discriminate|]. cbn [existsb List.filter].
  destruct (keep x); [reflexivity|exact IH].
Qed.

(** X20.  A dataset with a time dimension none of whose stamps lies in the
    requested window is passed over: nothing is raised and nothing is
    written, whatever its variables and the mapping table are. *)
Theorem empty_window_is_skipped (nc_file : Dataset)
    (model_conf : list VarConf) (start_date end_date interval : Z)
    (prefix : string) (axis : list Timestamp) (w : world) :
  ds_time nc_file = Some axis ->
  forallb (fun t => negb ((start_date <=? t) && (t <=? end_date))) axis
    = true ->
  convert_single_file nc_file model_conf start_date end_date interval prefix w
  = (Ok tt, w).
Proof.
  intros Hds Hnone. unfold convert_single_file, select_times.
  rewrite Hds. unfold sel_time_slice. cbn [ds_time]. rewrite Hds.
  cbn [fmap option_fmap option_map default].
  now rewrite (filter_none _ _ Hnone).
Qed.

Lemma empty_window_is_skipped_witness :
  convert_single_file sample_cube_ds [row_TT]
    (sample_time + 24 * ns_per_hour) (sample_time + 48 * ns_per_hour)
    (6 * ns_per_hour) "CMIP6" (World ∅ ∅) = (Ok tt, World ∅ ∅).
Proof.
  apply (empty_window_is_skipped sample_cube_ds [row_TT]
           (sample_time + 24 * ns_per_hour) (sample_time + 48 * ns_per_hour)
           (6 * ns_per_hour) "CMIP6"
           [sample_time; sample_time + 6 * ns_per_hour]); reflexivity.
Defined.

Lemma index_of_None (t : Timestamp) (ts : list Timestamp) :
  ~ In t ts -> index_of t ts = None.
Proof.
  induction ts as [|t' ts IH]; [reflexivity|]. cbn [index_of In].
  intros Hn. destruct (Z.eqb_spec t t') as [->|_]; [tauto|].
  rewrite IH by tauto. reflexivity.
Qed.

Lemma index_of_Some (t : Timestamp) (ts : list Timestamp) (i : nat) :
  index_of t ts = Some i -> In t ts.
Proof.
  revert i. induction ts as [|t' ts IH]; intros i; [discriminate|].
  cbn [index_of In]. destruct (Z.eqb_spec t t') as [->|_]; [now left|].
  destruct (index_of t ts) as [j|]; [|discriminate]. right. now apply (IH j).
Qed.

Lemma positions_missing (stamps ts : list Timestamp) (t : Timestamp) :
  In t stamps -> index_of t ts = None -> positions stamps ts = Raise KeyError.
Proof.
  intros Hin Hnone. unfold positions.
  induction stamps as [|x stamps IH]; [destruct Hin|].
  cbn [mapM]. destruct Hin as [->|Hin].
  - now rewrite Hnone.
  - destruct (index_of x ts); [|reflexivity].
    cbn [mbind result_bind rbind]. now rewrite (IH Hin).
Qed.

(** X21.  The second selection wants every stamp of the requested range:
    when the window holds stamps of the dataset but one stamp of the range
    start, start + interval, ... is not on the time axis (a gap in the
    series, or an interval finer than its step), the dataset raises KeyError
    before anything is written. *)
Theorem missing_stamp_raises (nc_file : Dataset) (model_conf : list VarConf)
    (start_date end_date interval : Z) (prefix : string)
    (axis stamps : list Timestamp) (t : Timestamp) (w : world) :
  ds_time nc_file = Some axis ->
  existsb (fun t => (start_date <=? t) && (t <=? end_date)) axis = true ->
  date_range start_date end_date interval = Ok stamps ->
  In t stamps -> ~ In t axis ->
  convert_single_file nc_file model_conf start_date end_date interval prefix w
  = (Raise KeyError, w).
Proof.
  intros Hds Hsome Hdr Hin Hout. unfold convert_single_file.
  assert (Hsel : select_times nc_file start_date end_date interval
                 = Raise KeyError); [|now rewrite Hsel].
  unfold select_times. rewrite Hds. cbv zeta.
  unfold sel_time_list, sel_time_slice. cbv zeta. cbn [ds_time]. rewrite Hds.
  cbn [fmap option_fmap option_map default]. unfold id.
  match goal with
  | |- context [if ?b then Ok None else _] =>
      assert (Hl : b = false) by (apply filter_some; exact Hsome);
      rewrite Hl
  end.
  rewrite Hdr. cbn [mbind result_bind rbind].
  rewrite (positions_missing stamps _ t Hin); [reflexivity|].
  apply index_of_None. intros Hf. apply filter_In in Hf. tauto.
Qed.

Lemma missing_stamp_raises_witness :
  convert_single_file sample_cube_ds [row_TT] sample_time
    (sample_time + 6 * ns_per_hour) (3 * ns_per_hour) "CMIP6" (World ∅ ∅)
  = (Raise KeyError, World ∅ ∅).
Proof.
  apply (missing_stamp_raises sample_cube_ds [row_TT] sample_time
           (sample_time + 6 * ns_per_hour) (3 * ns_per_hour) "CMIP6"
           [sample_time; sample_time + 6 * ns_per_hour]
           [sample_time; sample_time + 3 * ns_per_hour;
            sample_time + 6 * ns_per_hour]
           (sample_time + 3 * ns_per_hour)); try reflexivity.
  - right. left. reflexivity.
  - vm_compute. intros [H|[H|[]]]; discriminate H.
Defined.

Lemma mapM_result_Forall2 {A B} (f : A -> result B) (l : list A)
    (l' : list B) :
  mapM f l = Ok l' -> Forall2 (fun x y => f x = Ok y) l l'.
Proof.
  revert l'. induction l as [|x l IH]; intros l'; cbn [mapM].
  - intros [= <-]. constructor.
  - destruct (f x) as [y|e] eqn:Ex; [|discriminate].
    cbn [mbind result_bind rbind].
    destruct (mapM f l) as [k|e] eqn:El; [|discriminate].
    intros [= <-]. constructor; auto.
Qed.

Lemma positions_on_axis (stamps ts : list Timestamp) (idx : list nat) :
  positions stamps ts = Ok idx ->
  length idx = length stamps /\ forall t, In t stamps -> In t ts.
Proof.
  unfold positions. intros H. apply mapM_result_Forall2 in H.
  induction H as [|t i stamps idx Hi _ IH]; [split; [reflexivity|intros ? []]|].
  destruct IH as [Hlen Hall]. split; [cbn [length]; congruence|].
  intros t' [<-|Hin]; [|auto].
  destruct (index_of t ts) as [j|] eqn:E; [|discriminate].
  now apply (index_of_Some t ts j).
Qed.

(** X22.  After the two selections the time axis is the requested range:
    when [select_times] hands a dataset on, its time axis is the list of
    stamps start, start + interval, ..., every one of them a stamp of the
    input inside the window, the variables are those of the input in their
    order, and every variable with a time dimension has these stamps as its
    axis and one block of values for each. *)
Theorem selection_keeps_requested_stamps (nc_file ds : Dataset)
    (start_date end_date interval : Z) (axis stamps : list Timestamp) :
  ds_time nc_file = Some axis ->
  date_range start_date end_date interval = Ok stamps ->
  select_times nc_file start_date end_date interval = Ok (Some ds) ->
  ds_time ds = Some stamps /\
  ds_plev_dim ds = ds_plev_dim nc_file /\
  map fst (ds_variables ds) = map fst (ds_variables nc_file) /\
  (forall t, In t stamps -> In t axis /\ start_date <= t <= end_date) /\
  Forall (fun var : string * DataArray =>
            is_dim (da_time var.2) = true ->
            da_time var.2 = DimCoord stamps /\
            length (da_values var.2) = length stamps)
         (ds_variables ds).
Proof.
  intros Hds Hdr. unfold select_times. rewrite Hds. cbv zeta.
  unfold sel_time_list, sel_time_slice. cbv zeta. cbn [ds_time ds_variables
    ds_plev_dim]. rewrite Hds.
  cbn [fmap option_fmap option_map default]. unfold id.
  destruct (_ =? _)%nat; [discriminate|]. rewrite Hdr.
  cbn [mbind result_bind rbind].
  destruct (positions stamps _) as [idx|e] eqn:Ep; [|discriminate].
  cbn [rbind].
  destruct (mapM _ _) as [vars|e] eqn:Ev; [|discriminate].
  cbn [rbind]. intros [= <-]. cbn [ds_time ds_variables ds_plev_dim].
  apply positions_on_axis in Ep as [_ Hon].
  apply mapM_result_Forall2 in Ev.
  assert (Hstep : Forall2 (fun (x y : string * DataArray) =>
            y.1 = x.1 /\
            (is_dim (da_time y.2) = true ->
             da_time y.2 = DimCoord stamps /\
             length (da_values y.2) = length stamps))
            (map (fun '(name, data) =>
                    (name,
                     match da_time data with
                     | DimCoord ts =>
                         {| da_time :=
                              DimCoord
                                (List.filter
                                   (fun t => (start_date <=? t) &&
                                             (t <=? end_date)) ts);
                            da_plev := da_plev data;
                            da_lat := da_lat data; da_lon := da_lon data;
                            da_values :=
                              select (fun t => (start_date <=? t) &&
                                               (t <=? end_date)) ts
                                (da_values data);
                            da_attrs := da_attrs data |}
                     | _ => data
                     end)) (ds_variables nc_file)) vars).
  { eapply Forall2_impl; [exact Ev|]. intros [name data] y Hxy.
    cbv beta iota in Hxy.
    destruct (da_time data) as [|t0|ts] eqn:Et.
    - injection Hxy as <-. cbn [fst snd]. rewrite Et.
      split; [reflexivity|discriminate].
    - injection Hxy as <-. cbn [fst snd]. rewrite Et.
      split; [reflexivity|discriminate].
    - destruct (positions stamps ts) as [ix|] eqn:Eix; [|discriminate].
      cbn [mbind result_bind rbind] in Hxy.
      destruct (mapM _ ix) as [v|] eqn:Emv; [|discriminate].
      injection Hxy as <-. cbn [fst snd da_time da_values].
      split; [reflexivity|]. intros _. split; [reflexivity|].
      apply mapM_result_Forall2, Forall2_length in Emv.
      apply positions_on_axis in Eix as [Hlen _]. congruence. }
  clear Ev.
  split; [reflexivity|split; [reflexivity|split; [|split]]].
  - remember (ds_variables nc_file) as l eqn:El. clear El.
    revert vars Hstep. induction l as [|[name data] l IH]; intros vars Hs;
      inversion Hs as [|x y l1 l2 [Hxy _] Hrest]; subst; [reflexivity|].
    cbn [map fst] in *. now rewrite (IH _ Hrest), Hxy.
  - intros t Hin. apply Hon, filter_In in Hin as [Hax Hk].
    apply andb_prop in Hk as [H1 H2]. split; [exact Hax|lia].
  - induction Hstep as [|x y l vars [_ Hxy] _ IH]; constructor; assumption.
Qed.

Lemma selection_keeps_requested_stamps_witness :
  let stamps := [sample_time; sample_time + 6 * ns_per_hour] in
  ds_time sample_cube_ds = Some stamps /\
  ds_plev_dim sample_cube_ds = ds_plev_dim sample_cube_ds /\
  map fst (ds_variables sample_cube_ds) =
    map fst (ds_variables sample_cube_ds) /\
  (forall t, In t stamps ->
     In t stamps /\ sample_time <= t <= sample_time + 6 * ns_per_hour) /\
  Forall (fun var : string * DataArray =>
            is_dim (da_time var.2) = true ->
            da_time var.2 = DimCoord stamps /\
            length (da_values var.2) = length stamps)
         (ds_variables sample_cube_ds).
Proof.
  apply (selection_keeps_requested_stamps sample_cube_ds sample_cube_ds
           sample_time (sample_time + 6 * ns_per_hour) (6 * ns_per_hour)
           [sample_time; sample_time + 6 * ns_per_hour]
           [sample_time; sample_time + 6 * ns_per_hour]);
    vm_compute; reflexivity.
Defined.

(** ** What a run leaves alone *)

Lemma keeps_refl (P : string -> Prop) (w : world) : keeps P w w.
Proof. unfold keeps. repeat split; auto. Qed.

Lemma keeps_trans (P : string -> Prop) (w1 w2 w3 : world) :
  keeps P w1 w2 -> keeps P w2 w3 -> keeps P w1 w3.
Proof.
  intros (Hi1 & Hc1 & Hf1) (Hi2 & Hc2 & Hf2). split; [|split].
  - set_solver.
  - intros f Hf. transitivity (content w2 f); [auto|]. apply Hc2. set_solver.
  - intros f Hf. destruct (Hf1 f Hf) as [E1 I1], (Hf2 f Hf) as [E2 I2].
    split; [congruence|tauto].
Qed.

Lemma preserves_ret (P : string -> Prop) {A} (a : A) :
  preserves P (mret a : IO A).
Proof. intros w. apply keeps_refl. Qed.

Lemma preserves_lift (P : string -> Prop) {A} (r : result A) :
  preserves P (lift r).
Proof. intros w. unfold lift. destruct r; apply keeps_refl. Qed.

Lemma preserves_raise (P : string -> Prop) {A} (e : exn) :
  preserves P (raise e : IO A).
Proof. intros w. apply keeps_refl. Qed.

Lemma preserves_bind (P : string -> Prop) {A B} (m : IO A) (k : A -> IO B) :
  preserves P m -> (forall a, preserves P (k a)) -> preserves P (m ≫= k).
Proof.
  intros Hm Hk w. rewrite bind_run. specialize (Hm w).
  destruct (m w) as [[a|e] w1]; cbn [snd] in *; [|exact Hm].
  apply (keeps_trans P w w1); [exact Hm|apply Hk].
Qed.

Lemma preserves_forM_ (P : string -> Prop) {A} (body : A -> IO unit)
    (l : list A) :
  (forall x, preserves P (body x)) -> preserves P (forM_ body l).
Proof.
  intros Hb. induction l as [|x l IH]; [apply preserves_ret|].
  cbn [forM_]. apply preserves_bind; auto.
Qed.

Lemma preserves_foldM (P : string -> Prop) {A S} (body : S -> A -> IO S)
    (l : list A) (s : S) :
  (forall s x, preserves P (body s x)) -> preserves P (foldM body s l).
Proof.
  intros Hb. revert s. induction l as [|x l IH]; intros s;
    [apply preserves_ret|].
  cbn [foldM]. apply preserves_bind; auto.
Qed.

Lemma preserves_get (P : string -> Prop) (filename : string) :
  P filename -> preserves P (FileInventory.get filename).
Proof.
  intros HP w. unfold FileInventory.get.
  destruct (decide _) as [Hin|Hin]; cbn [snd]; [apply keeps_refl|].
  split; [|split]; cbn [inventory fs].
  - set_solver.
  - intros f Hf. unfold content. cbn [fs].
    rewrite lookup_insert_ne by (intros ->; contradiction). reflexivity.
  - intros f Hf. assert (filename <> f) by (intros ->; contradiction).
    split; [now apply lookup_insert_ne|set_solver].
Qed.

Lemma preserves_fp_write (P : string -> Prop) (fp : string) (b : list byte) :
  P fp -> preserves P (fp_write fp b).
Proof.
  intros HP w. unfold fp_write, append_file. cbn [snd].
  split; [|split]; cbn [inventory fs]; [reflexivity| |].
  - intros f _. unfold content. cbn [fs].
    destruct (decide (fp = f)) as [->|Hne].
    + rewrite lookup_insert_eq. cbn [default]. now apply prefix_app_r.
    + now rewrite lookup_insert_ne.
  - intros f Hf. assert (fp <> f) by (intros ->; contradiction).
    split; [now apply lookup_insert_ne|reflexivity].
Qed.

Lemma preserves_write_fortran_record (P : string -> Prop) (fp : string)
    (data : payload) :
  P fp -> preserves P (write_fortran_record fp data).
Proof.
  intros HP. unfold write_fortran_record.
  repeat (apply preserves_bind; [|intros ?]);
    auto using preserves_lift, preserves_fp_write.
Qed.

Lemma preserves_get_bind (P : string -> Prop) {B} (filename : string)
    (k : string -> IO B) :
  P filename -> preserves P (k filename) ->
  preserves P (FileInventory.get filename ≫= k).
Proof.
  intros HP Hk w. rewrite (bind_ok _ _ _ _ _ (get_run filename w)).
  apply (keeps_trans P w (snd (FileInventory.get filename w)));
    [now apply preserves_get|apply Hk].
Qed.

Lemma preserves_to_wps_interm (prefix : string) (data : DataArray)
    (var_name : string) (time : option Timestamp) :
  preserves (output_name prefix) (to_wps_interm data var_name prefix time).
Proof.
  unfold to_wps_interm.
  apply preserves_bind; [apply preserves_lift|]. intros t.
  assert (HP : output_name prefix (prefix +:+ ":" +:+ strftime_hour t))
    by now exists t.
  apply preserves_bind; [apply preserves_lift|]. intros plev.
  apply preserves_get_bind; [exact HP|].
  repeat (apply preserves_bind; [|intros ?]);
    auto using preserves_lift, preserves_fp_write,
      preserves_write_fortran_record.
Qed.

Lemma preserves_emit_fields (ds : Dataset) (start_date end_date interval : Z)
    (prefix : string) (data : DataArray) (var_conf : VarConf) :
  preserves (output_name prefix)
    (emit_fields ds start_date end_date interval prefix data var_conf).
Proof.
  unfold emit_fields. destruct (ds_time ds).
  - apply preserves_bind.
    + destruct (ds_plev_dim ds); [|apply preserves_ret].
      destruct (da_plev data);
        [apply preserves_raise|apply preserves_ret|apply preserves_ret].
    + intros _. apply preserves_bind; [apply preserves_lift|]. intros n_time.
      apply preserves_forM_. intros i_time.
      destruct (is_dim (da_plev data)).
      * apply preserves_bind; [apply preserves_lift|]. intros n_plev.
        apply preserves_forM_. intros i_plev.
        apply preserves_bind; [apply preserves_lift|]. intros slice.
        apply preserves_to_wps_interm.
      * apply preserves_bind; [apply preserves_lift|]. intros slice.
        apply preserves_to_wps_interm.
  - apply preserves_bind; [apply preserves_lift|]. intros stamps.
    apply preserves_forM_. intros time. apply preserves_to_wps_interm.
Qed.

Lemma preserves_convert_single_file (nc_file : Dataset)
    (model_conf : list VarConf) (start_date end_date interval : Z)
    (prefix : string) :
  preserves (output_name prefix)
    (convert_single_file nc_file model_conf start_date end_date interval
       prefix).
Proof.
  unfold convert_single_file.
  apply preserves_bind; [apply preserves_lift|]. intros [ds|];
    [|apply preserves_ret].
  apply preserves_forM_. intros [var_name data]. unfold convert_variable.
  apply preserves_bind; [|intros ?; apply preserves_ret].
  apply preserves_foldM. intros d row. unfold convert_row.
  apply preserves_bind; [apply preserves_lift|]. intros u.
  destruct (decide _); [apply preserves_raise|].
  apply preserves_bind; [apply preserves_emit_fields|].
  intros ?. apply preserves_ret.
Qed.

(** X23.  While the files of a run are converted, the output only grows:
    from any point of the run on, whatever the datasets hold and whether or
    not one of them ends the loop with an exception, every file of the
    inventory stays in the inventory and keeps the bytes it has, in their
    place; bytes are only added after them. *)
Theorem run_is_append_only (model_conf : list VarConf)
    (start_date end_date interval : Z) (prefix : string)
    (nc_files : list Dataset) (w : world) :
  let w' :=
    snd (forM_ (fun nc_file =>
                  convert_single_file nc_file model_conf start_date end_date
                    interval prefix) nc_files w) in
  inventory w ⊆ inventory w' /\
  forall f, f ∈ inventory w ->
    exists more, content w' f = content w f ++ more.
Proof.
  intros w'.
  destruct (preserves_forM_ (output_name prefix) _ nc_files
              (fun nc_file =>
                 preserves_convert_single_file nc_file model_conf start_date
                   end_date interval prefix) w) as (Hi & Hc & _).
  split; [exact Hi|]. intros f Hf. exact (Hc f Hf).
Qed.

(** X24.  A run touches only files named after its prefix: whatever the
    inputs and however the run ends, every file whose name is not the prefix,
    a colon and a date to the hour holds after [convert_files] what it held
    before, and the inventory is closed. *)
Theorem run_touches_only_its_files (model_conf : list VarConf)
    (start_date end_date interval : Z) (prefix : string)
    (nc_files : list Dataset) (w : world) :
  let w' :=
    snd (convert_files model_conf start_date end_date interval prefix
           nc_files w) in
  inventory w' = ∅ /\
  forall f,
    (forall t : Timestamp, f <> prefix +:+ ":" +:+ strftime_hour t) ->
    fs w' !! f = fs w !! f.
Proof.
  intros w'. subst w'. unfold convert_files.
  pose proof (preserves_forM_ (output_name prefix) _ nc_files
                (fun nc_file =>
                   preserves_convert_single_file nc_file model_conf
                     start_date end_date interval prefix) (World ∅ (fs w)))
    as (_ & _ & Hf).
  destruct (forM_ _ nc_files (World ∅ (fs w))) as [r w1].
  cbn [snd FileInventory.close_all inventory fs] in *.
  split; [reflexivity|]. intros f Hn.
  apply (Hf f). intros [t Ht]. exact (Hn t Ht).
Qed.

(** ** A window that ends before it starts *)

Lemma date_range_reversed (start end_ interval : Z) :
  0 < interval -> end_ < start -> date_range start end_ interval = Ok [].
Proof.
  intros Hi Hse. unfold date_range, arange.
  destruct (Z.eqb_spec interval 0); [lia|]. do 2 f_equal.
  set (q := (end_ - start) / interval).
  assert (Hq : q <= -1)
    by (unfold q; apply Z.lt_succ_r, Z.div_lt_upper_bound; lia).
  assert (Hh : 0 <= interval / 2 /\ 2 * (interval / 2) <= interval)
    by (Z.div_mod_to_equations; lia).
  set (h := interval / 2) in *. clearbody q h.
  assert (Hd : 0 <= (start - (start + q * interval + h + 1)) / interval).
  { apply Z.div_pos; [nia|lia]. }
  now replace (Z.to_nat (- ((start - (start + q * interval + h + 1)) / interval)))
    with O by lia.
Qed.

(** X25.  For a dataset without a time dimension and a requested window
    whose end lies before its start, the range of stamps is empty: no field
    of the static variable is written and nothing is raised, whatever the
    variable holds. *)
Theorem static_field_reversed_window (ds : Dataset)
    (start_date end_date interval : Z) (prefix : string) (data : DataArray)
    (var_conf : VarConf) (w : world) :
  ds_time ds = None ->
  0 < interval -> end_date < start_date ->
  emit_fields ds start_date end_date interval prefix data var_conf w =
  (Ok tt, w).
Proof.
  intros Hds Hi Hse. unfold emit_fields. rewrite Hds.
  now rewrite (lift_ok _ _ _ _ (date_range_reversed _ _ _ Hi Hse)).
Qed.

Lemma static_field_reversed_window_witness :
  emit_fields sample_static_ds (sample_time + 6 * ns_per_hour) sample_time
    (6 * ns_per_hour) "CMIP6" sample_descending row_TT (World ∅ ∅) =
  (Ok tt, World ∅ ∅).
Proof.
  apply (static_field_reversed_window sample_static_ds
           (sample_time + 6 * ns_per_hour) sample_time (6 * ns_per_hour)
           "CMIP6" sample_descending row_TT); reflexivity.
Defined.
